(** * Task file lifecycle of the Duix Face2Face service (app/main.py)

    A shallow embedding of [Face2FaceService]: staging of the two inputs
    ([download_file]), job submission ([submit_task]), result fetch
    ([get_result]), deferred reclamation ([cleanup_files],
    [_schedule_task_cleanup]) and the periodic sweep ([periodic_cleanup]).

    Modelling conventions.
    - The process state is one record, [world]: the clock, the file system
      as a finite map from path strings to nodes, the task table
      [task_files], the daemon threads that were started and have not run
      yet, and the log.  Every method is a function in the monad
      [M A := world -> outcome A * world]; a Python exception is the
      [Raise] outcome, [try/except] is [try_except].
    - Timestamps ([time.time()], [st_mtime]) are integers; only their
      differences and comparisons matter to the lifecycle logic.
    - What the outside decides (the HTTP replies of the remote host and of
      the engine, the generated uuid) is an explicit argument of the
      method that consumes it.
    - Paths are compared as strings, as the code does; the storage
      directory is taken in the form pathlib prints it (as the default
      "/code/data" is), so that a directory entry prints as the directory,
      a slash and the entry name. *)

From Stdlib Require Import ZArith.
From Stdlib.Init Require Import Byte.
From Stdlib.Strings Require Import Ascii.
From stdpp Require Import gmap strings list fin_maps pretty.

Local Open Scope Z_scope.

(** ** Strings and paths *)

Module Path.

Definition slash : ascii := "/"%char.
Definition dot : ascii := "."%char.

(** [c in s] *)
Fixpoint has_char (c : ascii) (s : string) : bool :=
  match s with
  | EmptyString => false
  | String a r => if Ascii.eqb a c then true else has_char c r
  end.

(** [s.startswith("/")] *)
Definition starts_with_slash (s : string) : bool :=
  match s with
  | String a _ => Ascii.eqb a slash
  | EmptyString => false
  end.

(** [s.endswith("/")] *)
Fixpoint ends_with_slash (s : string) : bool :=
  match s with
  | EmptyString => false
  | String a EmptyString => Ascii.eqb a slash
  | String _ r => ends_with_slash r
  end.

(** [os.path.basename]: what follows the last slash. *)
Fixpoint basename (p : string) : string :=
  match p with
  | EmptyString => EmptyString
  | String a r =>
      if has_char slash r then basename r
      else if Ascii.eqb a slash then r else p
  end.

(** [os.path.join a b] (posixpath, two components). *)
Definition join (a b : string) : string :=
  if starts_with_slash b then b
  else if bool_decide (a = "") || ends_with_slash a then a +:+ b
  else a +:+ "/" +:+ b.

(** [strip_prefix pre s = Some r] when [s = pre ++ r]. *)
Fixpoint strip_prefix (pre s : string) : option string :=
  match pre with
  | EmptyString => Some s
  | String a pre' =>
      match s with
      | EmptyString => None
      | String b s' => if Ascii.eqb a b then strip_prefix pre' s' else None
      end
  end.

(** [p] names an entry of directory [d]: [p] is [d], a slash and a
    non-empty name without slash. *)
Definition is_child (d p : string) : bool :=
  match strip_prefix (d +:+ "/") p with
  | Some name => negb (bool_decide (name = "")) && negb (has_char slash name)
  | None => false
  end.

(** The directory part of a path: what precedes the last slash. *)
Fixpoint dirname (p : string) : string :=
  match p with
  | EmptyString => EmptyString
  | String a r =>
      if has_char slash r then String a (dirname r) else EmptyString
  end.

End Path.

(** Python truthiness of a string ([if s:]) and of an optional string
    ([if d.get(key):], [if x:] with [x] possibly [None]). *)
Definition truthy (s : string) : bool := negb (bool_decide (s = "")).

Definition truthy_opt (o : option string) : bool :=
  match o with
  | Some s => truthy s
  | None => false
  end.

(** ** Exceptions, log records *)

Inductive exn : Type :=
  | FileNotFoundError (p : string)
  | IsADirectoryError (p : string)
  | NotADirectoryError (p : string)
  | PermissionError (p : string)
  | RequestException                 (* requests.get / requests.post raised *)
  | HTTPError                        (* response.raise_for_status() *)
  | ChunkError                       (* iter_content or f.write raised *)
  | JSONDecodeError                  (* response.json() raised *)
  | DuixCallFailed (status_code : Z) (text : string)
                                     (* Exception("Duix API调用失败: ...") *)
  | DuixSubmitRejected (code : option Z)
                                     (* Exception("Duix任务提交失败: ...") *)
  | ResultFileMissing (result_filename : string)
                                     (* Exception("结果文件不存在: ...") *)
  | HTTPException (status_code : Z) (detail : exn).

Inductive level : Type := DEBUG | INFO | WARNING | ERROR.

Inductive message : Type :=
  | MsgDownloadStart (file_type url : string)
  | MsgDownloadDone (local_path : string) (file_size : nat)
  | MsgPartialRemoved (local_path : string)
  | MsgPartialRemoveFailed (cleanup_e : exn)
  | MsgDownloadFailed (url : string) (e : exn)
  | MsgSubmitDownloading
  | MsgSubmitting (task_code : string)
  | MsgSubmitted (task_code : string)
  | MsgSubmitFailed (e : exn)
  | MsgGetResult (output_path : string)
  | MsgGotResult (size : nat)
  | MsgNoMapping (task_code : string)
  | MsgGetResultFailed (e : exn)
  | MsgDeleteFailed (file_path : string) (e : exn)
  | MsgSweepDeleteFailed (file_path : string) (e : exn)
  | MsgSweepSummary (total_cleaned : nat)
  | MsgSweepError (e : exn).

Definition log_record : Type := level * message.

(** ** The process state *)

(** A node of the file system: a regular file with its modification time
    and contents, or a directory. *)
Inductive node : Type :=
  | File (st_mtime : Z) (data : list byte)
  | Dir.

(** One entry of [task_files]; the two keys added by [get_result] are
    optional. *)
Record task_info : Type := TaskInfo {
  audio_local : string;
  video_local : string;
  created_time : Z;
  result_file : option string;
  result_retrieved_time : option Z
}.

#[global] Instance task_info_eq_dec : EqDecision task_info.
Proof. solve_decision. Defined.

(** A daemon thread that was started and sleeps until [wake]. *)
Inductive thread : Type :=
  | DoCleanup (wake : Z) (file_paths : list string)
  | CleanupTaskMapping (wake : Z) (task_code : string).

Record world : Type := World {
  now : Z;                              (* time.time() *)
  nodes : gmap string node;             (* the file system *)
  unlink_denied : gset string;          (* paths on which os.unlink is refused *)
  task_files : gmap string task_info;   (* self.task_files *)
  threads : list thread;                (* started, not yet run *)
  log : list log_record                 (* most recent first *)
}.

Definition set_now (t : Z) (w : world) : world :=
  World t (nodes w) (unlink_denied w) (task_files w) (threads w) (log w).

Definition set_nodes (n : gmap string node) (w : world) : world :=
  World (now w) n (unlink_denied w) (task_files w) (threads w) (log w).

Definition set_task_files (tf : gmap string task_info) (w : world) : world :=
  World (now w) (nodes w) (unlink_denied w) tf (threads w) (log w).

Definition set_threads (ts : list thread) (w : world) : world :=
  World (now w) (nodes w) (unlink_denied w) (task_files w) ts (log w).

Definition add_log (r : log_record) (w : world) : world :=
  World (now w) (nodes w) (unlink_denied w) (task_files w) (threads w)
        (r :: log w).

(** ** The monad of methods *)

Inductive outcome (A : Type) : Type :=
  | Ok (a : A)
  | Raise (e : exn).
Arguments Ok {A} a.
Arguments Raise {A} e.

Definition M (A : Type) : Type := world -> outcome A * world.

Definition ret {A} (a : A) : M A := fun w => (Ok a, w).

Definition raise {A} (e : exn) : M A := fun w => (Raise e, w).

Definition bind {A B} (m : M A) (k : A -> M B) : M B :=
  fun w =>
    match m w with
    | (Ok a, w') => k a w'
    | (Raise e, w') => (Raise e, w')
    end.

(** [try: m except Exception as e: h e] *)
Definition try_except {A} (m : M A) (h : exn -> M A) : M A :=
  fun w =>
    match m w with
    | (Ok a, w') => (Ok a, w')
    | (Raise e, w') => h e w'
    end.

Declare Scope svc_scope.
Delimit Scope svc_scope with svc.
Notation "x <- m ;; k" := (bind m (fun x => k))
  (at level 100, m at next level, right associativity) : svc_scope.
Notation "m ;;; k" := (bind m (fun _ => k))
  (at level 100, right associativity) : svc_scope.
Local Open Scope svc_scope.

Definition get_world : M world := fun w => (Ok w, w).

Definition modify (f : world -> world) : M unit := fun w => (Ok tt, f w).

Definition logger (l : level) (m : message) : M unit := modify (add_log (l, m)).

(** [time.time()] *)
Definition time_time : M Z := fun w => (Ok (now w), w).

(** [for x in l: body x], stopping at the first exception. *)
Fixpoint for_each {A} (l : list A) (body : A -> M unit) : M unit :=
  match l with
  | [] => ret tt
  | x :: r => body x ;;; for_each r body
  end.

(** ** File system calls *)

(** [os.path.exists] *)
Definition os_path_exists (p : string) : M bool :=
  fun w => (Ok (bool_decide (is_Some (nodes w !! p))), w).

(** [Path.is_file] *)
Definition is_file (p : string) : M bool :=
  fun w =>
    (Ok match nodes w !! p with Some (File _ _) => true | _ => false end, w).

(** [Path.stat().st_mtime]; the sweep asks it of regular files only. *)
Definition stat_mtime (p : string) : M Z :=
  fun w =>
    match nodes w !! p with
    | Some (File t _) => (Ok t, w)
    | Some Dir => (Ok 0, w)
    | None => (Raise (FileNotFoundError p), w)
    end.

(** [os.path.getsize] *)
Definition os_path_getsize (p : string) : M nat :=
  fun w =>
    match nodes w !! p with
    | Some (File _ d) => (Ok (length d), w)
    | Some Dir => (Ok 0%nat, w)
    | None => (Raise (FileNotFoundError p), w)
    end.

(** [os.unlink] / [Path.unlink]: removes a regular file; refuses a
    directory, a missing path and a path whose removal is not permitted. *)
Definition os_unlink (p : string) : M unit :=
  fun w =>
    match nodes w !! p with
    | None => (Raise (FileNotFoundError p), w)
    | Some Dir => (Raise (IsADirectoryError p), w)
    | Some (File _ _) =>
        if bool_decide (p ∈ unlink_denied w)
        then (Raise (PermissionError p), w)
        else (Ok tt, set_nodes (delete p (nodes w)) w)
    end.

(** [open(p, 'wb')]: creates or truncates the file.  Of the ways [open]
    can fail the model has those that the shape of the file system
    decides: the path is a directory, or its parent is missing or no
    directory. *)
Definition open_wb (p : string) : M unit :=
  fun w =>
    match nodes w !! p with
    | Some Dir => (Raise (IsADirectoryError p), w)
    | _ =>
        match nodes w !! Path.dirname p with
        | Some Dir => (Ok tt, set_nodes (<[p := File (now w) []]> (nodes w)) w)
        | Some (File _ _) => (Raise (NotADirectoryError p), w)
        | None => (Raise (FileNotFoundError p), w)
        end
    end.

(** [f.write(chunk)] on the file opened at [p]. *)
Definition file_write (p : string) (chunk : list byte) : M unit :=
  fun w =>
    match nodes w !! p with
    | Some (File _ d) =>
        (Ok tt, set_nodes (<[p := File (now w) (d ++ chunk)]> (nodes w)) w)
    | _ => (Ok tt, set_nodes (<[p := File (now w) chunk]> (nodes w)) w)
    end.

(** [open(p, 'rb').read()] *)
Definition read_rb (p : string) : M (list byte) :=
  fun w =>
    match nodes w !! p with
    | Some (File _ d) => (Ok d, w)
    | Some Dir => (Raise (IsADirectoryError p), w)
    | None => (Raise (FileNotFoundError p), w)
    end.

(** [Path(d).iterdir()], each entry printed with [str]. *)
Definition iterdir (d : string) : M (list string) :=
  fun w =>
    match nodes w !! d with
    | Some Dir =>
        (Ok (filter (fun p => Path.is_child d p = true)
                    (map_to_list (nodes w)).*1), w)
    | Some (File _ _) => (Raise (NotADirectoryError d), w)
    | None => (Raise (FileNotFoundError d), w)
    end.

(** [os.makedirs(d, exist_ok=True)]: [d] and its missing ancestors become
    directories, up to the first ancestor that exists ([fuel] bounds the
    number of ancestors). *)
Fixpoint makedirs (fuel : nat) (d : string) (fs : gmap string node)
  : gmap string node :=
  match fuel with
  | O => fs
  | S fuel' =>
      if bool_decide (d = "") then fs
      else match fs !! d with
           | Some _ => fs
           | None => <[d := Dir]> (makedirs fuel' (Path.dirname d) fs)
           end
  end.

(** ** What the outside supplies *)

(** One item of [response.iter_content]: a chunk of bytes, or the point at
    which the stream (or the write of the chunk just read) fails. *)
Inductive chunk : Type :=
  | Data (b : list byte)
  | Fault.

(** The remote host's answer to [requests.get]. *)
Inductive get_reply : Type :=
  | GetRaises
  | GetReply (status_ok : bool) (body : list chunk).

(** A download as the outside determines it: how long the call blocks and
    what it answers. *)
Record fetch : Type := Fetch {
  elapsed : nat;
  reply : get_reply
}.

(** The engine's answer to [requests.post]: [json] is [None] when the body
    is not a JSON object, otherwise [result.get('code')]. *)
Inductive post_reply : Type :=
  | PostRaises
  | PostReply (status_code : Z) (text : string) (json : option (option Z)).

(** Everything one [submit_task] call draws from outside. *)
Record submit_env : Type := SubmitEnv {
  audio_hex : string;      (* uuid.uuid4().hex, should a name be synthesized *)
  audio_fetch : fetch;
  video_hex : string;
  video_fetch : fetch;
  uuid4 : string;          (* str(uuid.uuid4()) *)
  post_elapsed : nat;      (* how long requests.post blocks *)
  post : post_reply
}.

(** The counters of one sweep pass (the local [stats]). *)
Record stats : Type := Stats {
  orphan_files : nat;
  old_files : nat;
  expired_tasks : nat
}.

(** ** The service *)

Section Face2FaceService.

(** Configuration read from the environment at import time, and the one
    library function whose result the code only takes the base name of. *)
Variable DUIX_DATA_DIR : string.
Variable CLEANUP_DELAY : Z.
Variable MAX_FILE_AGE : Z.
Variable urlparse_path : string -> string.     (* urlparse(url).path *)

(** [Face2FaceService.__init__] on an empty table (the sweep thread it
    starts is [periodic_cleanup] below, run by the scheduler). *)
Definition init (w : world) : world :=
  set_task_files ∅
    (set_nodes (makedirs (S (String.length DUIX_DATA_DIR)) DUIX_DATA_DIR
                         (nodes w)) w).

(** *** File Stager: [download_file] *)

Definition requests_get (f : fetch) : M (bool * list chunk) :=
  modify (fun w => set_now (now w + Z.of_nat (elapsed f)) w) ;;;
  match reply f with
  | GetRaises => raise RequestException
  | GetReply ok body => ret (ok, body)
  end.

Definition raise_for_status (ok : bool) : M unit :=
  if ok then ret tt else raise HTTPError.

(** [for chunk in response.iter_content(...): if chunk: f.write(chunk)] *)
Definition write_chunks (local_path : string) (body : list chunk) : M unit :=
  for_each body (fun c =>
    match c with
    | Data [] => ret tt
    | Data b => file_write local_path b
    | Fault => raise ChunkError
    end).

Definition choose_filename (url file_type uuid_hex : string) (t : Z)
  : string :=
  let original_filename := Path.basename (urlparse_path url) in
  if negb (truthy original_filename)
     || negb (Path.has_char Path.dot original_filename)
  then
    let ext := if bool_decide (file_type = "audio") then ".mp3" else ".mp4" in
    pretty t +:+ "_" +:+ file_type +:+ "_"
      +:+ String.substring 0 8 uuid_hex +:+ ext
  else original_filename.

(** The [except] block of [download_file]. *)
Definition download_failed (url local_path : string) (e : exn)
  : M (string * string) :=
  present <- os_path_exists local_path ;;
  (if present then
     try_except
       (os_unlink local_path ;;;
        logger INFO (MsgPartialRemoved local_path))
       (fun cleanup_e =>
          logger WARNING (MsgPartialRemoveFailed cleanup_e))
   else ret tt) ;;;
  logger ERROR (MsgDownloadFailed url e) ;;;
  raise (HTTPException 400 e).

Definition download_file (url file_type uuid_hex : string) (f : fetch)
  : M (string * string) :=
  t <- time_time ;;
  let filename := choose_filename url file_type uuid_hex t in
  let local_path := Path.join DUIX_DATA_DIR filename in
  let container_path := "/code/data/" +:+ filename in
  logger INFO (MsgDownloadStart file_type url) ;;;
  try_except
    (response <- requests_get f ;;
     raise_for_status (fst response) ;;;
     open_wb local_path ;;;
     write_chunks local_path (snd response) ;;;
     file_size <- os_path_getsize local_path ;;
     logger INFO (MsgDownloadDone local_path file_size) ;;;
     ret (container_path, local_path))
    (download_failed url local_path).

(** *** Deferred Reclaimer: [cleanup_files], [_schedule_task_cleanup] *)

Definition spawn (th : thread) : M unit :=
  modify (fun w => set_threads (threads w ++ [th]) w).

(** The body of [do_cleanup] after its sleep. *)
Definition do_cleanup (file_paths : list string) : M unit :=
  for_each file_paths (fun file_path =>
    try_except
      (present <- os_path_exists file_path ;;
       if present then os_unlink file_path else ret tt)
      (fun e => logger WARNING (MsgDeleteFailed file_path e))).

Definition cleanup_files (file_paths : list string) (delay : Z) : M unit :=
  if bool_decide (delay > 0) then
    t <- time_time ;;
    spawn (DoCleanup (t + delay) file_paths)
  else do_cleanup file_paths.

Definition pop_task (task_code : string) : M unit :=
  modify (fun w => set_task_files (delete task_code (task_files w)) w).

Definition _schedule_task_cleanup (task_code : string) : M unit :=
  t <- time_time ;;
  spawn (CleanupTaskMapping (t + (CLEANUP_DELAY + 10)) task_code).

(** What a started thread does once its sleep is over. *)
Definition run_thread (th : thread) : M unit :=
  match th with
  | DoCleanup _ file_paths => do_cleanup file_paths
  | CleanupTaskMapping _ task_code => pop_task task_code
  end.

(** *** Job Registrar: [submit_task], [get_result] *)

(** [[f for f in l if f]] over locals that may still be [None]. *)
Definition truthy_paths (l : list (option string)) : list string :=
  omap (fun o => if truthy_opt o then o else None) l.

(** Run [m]; if it raises, the handler decides the result, otherwise go
    on with [k] (whose exceptions are not the handler's). *)
Definition catch_then {A C} (m : M A) (h : exn -> M C) (k : A -> M C)
  : M C :=
  fun w =>
    match m w with
    | (Ok a, w') => k a w'
    | (Raise e, w') => h e w'
    end.

(** The [except] block of [submit_task], given the locals
    [audio_local], [video_local], [task_code] as they stand when the
    exception [e] arrives. *)
Definition submit_failed (audio_local video_local task_code : option string)
    (e : exn) : M string :=
  let to_clean := truthy_paths [audio_local; video_local] in
  (match to_clean with
   | [] => ret tt
   | _ => cleanup_files to_clean 0
   end) ;;;
  (match task_code with
   | Some tc => if truthy tc then pop_task tc else ret tt
   | None => ret tt
   end) ;;;
  logger ERROR (MsgSubmitFailed e) ;;;
  raise (HTTPException 500 e).

(** [requests.post]: the call blocks for [secs] seconds, then answers or
    raises. *)
Definition requests_post (secs : nat) (r : post_reply)
  : M (Z * string * option (option Z)) :=
  modify (fun w => set_now (now w + Z.of_nat secs) w) ;;;
  match r with
  | PostRaises => raise RequestException
  | PostReply status_code text json => ret (status_code, text, json)
  end.

Definition response_json (json : option (option Z)) : M (option Z) :=
  match json with
  | Some code => ret code
  | None => raise JSONDecodeError
  end.

(** Steps 2 and 3 of [submit_task]; of the returned dict the model keeps
    the job id. *)
Definition submit_to_engine (audio_local video_local task_code : string)
    (secs : nat) (r : post_reply) : M string :=
  logger INFO (MsgSubmitting task_code) ;;;
  response <- requests_post secs r ;;
  let '(status_code, text, json) := response in
  (if bool_decide (status_code ≠ 200)
   then raise (DuixCallFailed status_code text) else ret tt) ;;;
  result <- response_json json ;;
  (if bool_decide (result ≠ Some 10000)
   then raise (DuixSubmitRejected result) else ret tt) ;;;
  t <- time_time ;;
  modify (fun w =>
    set_task_files
      (<[task_code := TaskInfo audio_local video_local t None None]>
         (task_files w)) w) ;;;
  logger INFO (MsgSubmitted task_code) ;;;
  ret task_code.

Definition submit_task (audio_url video_url : string) (env : submit_env)
  : M string :=
  catch_then
    (logger INFO MsgSubmitDownloading ;;;
     download_file audio_url "audio" (audio_hex env) (audio_fetch env))
    (submit_failed None None None)
    (fun audio =>
       let audio_local := snd audio in
       catch_then
         (download_file video_url "video" (video_hex env) (video_fetch env))
         (submit_failed (Some audio_local) None None)
         (fun video =>
            let video_local := snd video in
            let task_code := uuid4 env in
            catch_then
              (submit_to_engine audio_local video_local task_code
                                (post_elapsed env) (post env))
              (submit_failed (Some audio_local) (Some video_local)
                             (Some task_code))
              ret)).

(** The locked block of [get_result]: the paths to reclaim, and the
    record updated when there is one. *)
Definition attach_result (task_code output_path : string)
  : M (list string) :=
  w <- get_world ;;
  match task_files w !! task_code with
  | Some task_info =>
      let files_to_cleanup :=
        [output_path]
          ++ (if truthy (audio_local task_info)
              then [audio_local task_info] else [])
          ++ (if truthy (video_local task_info)
              then [video_local task_info] else []) in
      t <- time_time ;;
      modify (fun w =>
        set_task_files
          (<[task_code :=
               TaskInfo (audio_local task_info) (video_local task_info)
                        (created_time task_info) (Some output_path)
                        (Some t)]> (task_files w)) w) ;;;
      ret files_to_cleanup
  | None =>
      logger WARNING (MsgNoMapping task_code) ;;;
      ret [output_path]
  end.

Definition get_result (result_filename : string) (task_code : option string)
  : M (list byte * nat) :=
  try_except
    (let temp_dir := Path.join DUIX_DATA_DIR "temp" in
     let output_path := Path.join temp_dir result_filename in
     logger INFO (MsgGetResult output_path) ;;;
     present <- os_path_exists output_path ;;
     (if present then ret tt
      else raise (ResultFileMissing result_filename)) ;;;
     video_data <- read_rb output_path ;;
     logger INFO (MsgGotResult (length video_data)) ;;;
     files_to_cleanup <-
       (match task_code with
        | Some tc =>
            if truthy tc then attach_result tc output_path
            else ret [output_path]
        | None => ret [output_path]
        end) ;;
     cleanup_files files_to_cleanup CLEANUP_DELAY ;;;
     (match task_code with
      | Some tc => if truthy tc then _schedule_task_cleanup tc else ret tt
      | None => ret tt
      end) ;;;
     ret (video_data, length video_data))
    (fun e =>
       logger ERROR (MsgGetResultFailed e) ;;;
       raise (HTTPException 500 e)).

(** *** Sweep Scheduler: [periodic_cleanup] *)

(** The values [task_info.get(key)] for the three keys, in order. *)
Definition path_keys (task_info : task_info) : list (option string) :=
  [Some (audio_local task_info); Some (video_local task_info);
   result_file task_info].

(** The first locked block: the set of paths of the current records. *)
Definition active_file_set (tf : gmap string task_info) : gset string :=
  map_fold
    (fun _ task_info active_files =>
       foldl (fun acc v =>
                match v with
                | Some p => if truthy p then {[p]} ∪ acc else acc
                | None => acc
                end)
             active_files (path_keys task_info))
    ∅ tf.

(** One iteration of the directory loop; returns the counters. *)
Definition sweep_file (current_time : Z) (active_files : gset string)
    (st : stats) (file_path : string) : M stats :=
  regular <- is_file file_path ;;
  if negb regular then ret st
  else
    let file_str := file_path in
    mtime <- stat_mtime file_path ;;
    let file_age := current_time - mtime in
    let '(should_delete, st') :=
      if negb (bool_decide (file_str ∈ active_files)) then
        if bool_decide (file_age > CLEANUP_DELAY)
        then (true, Stats (S (orphan_files st)) (old_files st)
                          (expired_tasks st))
        else (false, st)
      else if bool_decide (file_age > MAX_FILE_AGE)
        then (true, Stats (orphan_files st) (S (old_files st))
                          (expired_tasks st))
        else (false, st) in
    (if should_delete then
       try_except (os_unlink file_path)
         (fun e => logger WARNING (MsgSweepDeleteFailed file_path e))
     else ret tt) ;;;
    ret st'.

Fixpoint sweep_files (current_time : Z) (active_files : gset string)
    (st : stats) (listing : list string) : M stats :=
  match listing with
  | [] => ret st
  | file_path :: rest =>
      st' <- sweep_file current_time active_files st file_path ;;
      sweep_files current_time active_files st' rest
  end.

(** The second locked block: the expired records are collected, then
    popped one by one. *)
Definition expired_codes (current_time : Z) (tf : gmap string task_info)
  : list string :=
  (filter (fun kv => current_time - created_time (snd kv) > MAX_FILE_AGE)
          (map_to_list tf)).*1.

Definition expire_tasks (current_time : Z) (st : stats) : M stats :=
  w <- get_world ;;
  let expired := expired_codes current_time (task_files w) in
  for_each expired pop_task ;;;
  ret (Stats (orphan_files st) (old_files st)
             (expired_tasks st + length expired)%nat).

(** [periodic_cleanup].  The method returns nothing; the model returns
    the local counters when the [try] body completes and [None] when the
    pass was cut short by an exception. *)
Definition periodic_cleanup : M (option stats) :=
  current_time <- time_time ;;
  let stats0 := Stats 0 0 0 in
  try_except
    (w <- get_world ;;
     let active_files := active_file_set (task_files w) in
     listing <- iterdir DUIX_DATA_DIR ;;
     st1 <- sweep_files current_time active_files stats0 listing ;;
     st2 <- expire_tasks current_time st1 ;;
     let total_cleaned :=
       (orphan_files st2 + old_files st2 + expired_tasks st2)%nat in
     (if bool_decide (0 < total_cleaned)%nat
      then logger INFO (MsgSweepSummary total_cleaned) else ret tt) ;;;
     ret (Some st2))
    (fun e => logger ERROR (MsgSweepError e) ;;; ret None).

(** *** Vocabulary of the properties *)

(** What the directory loop decides for a path, read off the two
    branches of [sweep_file]. *)
Inductive verdict : Type := Keep | Orphan | Old.

Definition classify (current_time : Z) (active_files : gset string)
    (fs : gmap string node) (p : string) : verdict :=
  match fs !! p with
  | Some (File mtime _) =>
      if bool_decide (p ∈ active_files)
      then if bool_decide (current_time - mtime > MAX_FILE_AGE)
           then Old else Keep
      else if bool_decide (current_time - mtime > CLEANUP_DELAY)
           then Orphan else Keep
  | _ => Keep
  end.

Definition is_orphan (current_time : Z) (active_files : gset string)
    (fs : gmap string node) (p : string) : bool :=
  match classify current_time active_files fs p with
  | Orphan => true
  | _ => false
  end.

Definition is_old (current_time : Z) (active_files : gset string)
    (fs : gmap string node) (p : string) : bool :=
  match classify current_time active_files fs p with
  | Old => true
  | _ => false
  end.

#[global] Instance verdict_eq_dec : EqDecision verdict.
Proof. solve_decision. Defined.

(** The counters after a path received verdict [v]. *)
Definition count (v : verdict) (st : stats) : stats :=
  match v with
  | Keep => st
  | Orphan => Stats (S (orphan_files st)) (old_files st) (expired_tasks st)
  | Old => Stats (orphan_files st) (S (old_files st)) (expired_tasks st)
  end.

(** The state after the sweep tried to unlink the regular file [p]. *)
Definition unlink_attempt (p : string) (w : world) : world :=
  if bool_decide (p ∈ unlink_denied w)
  then add_log (WARNING, MsgSweepDeleteFailed p (PermissionError p)) w
  else set_nodes (delete p (nodes w)) w.

(** [w'] comes from [w] by a computation that leaves the task table, the
    threads and the refusals alone, lets time pass, changes the file
    system only at the paths in [touch], creates no directory and only
    adds to the log. *)
Definition evolves (touch : string -> Prop) (w w' : world) : Prop :=
  task_files w' = task_files w
  /\ threads w' = threads w
  /\ unlink_denied w' = unlink_denied w
  /\ now w <= now w'
  /\ (forall q, ~ touch q -> nodes w' !! q = nodes w !! q)
  /\ (forall q, nodes w' !! q = Some Dir -> nodes w !! q = Some Dir)
  /\ (forall r, r ∈ log w -> r ∈ log w').

Definition keeps {A} (touch : string -> Prop) (m : M A) : Prop :=
  forall w, evolves touch w (snd (m w)).

(** What became of a path that [do_cleanup] was asked to remove: it is
    gone (or never was there), or its removal was refused, it is left as
    it was and the failure is in the log. *)
Definition reclaimed (p : string) (w w' : world) : Prop :=
  nodes w' !! p = None
  \/ (nodes w' !! p = nodes w !! p
      /\ (p ∈ unlink_denied w \/ nodes w !! p = Some Dir)
      /\ exists e, (WARNING, MsgDeleteFailed p e) ∈ log w').

(** The entries of the storage directory, as [iterdir] lists them. *)
Definition top_level (fs : gmap string node) : list string :=
  filter (fun p => Path.is_child DUIX_DATA_DIR p = true)
         (map_to_list fs).*1.

(** The record [task_info] references path [p]. *)
Definition references (task_info : task_info) (p : string) : Prop :=
  Some p ∈ path_keys task_info.


(** Every path held by a record is a non-empty string. *)
Definition paths_nonempty (tf : gmap string task_info) : Prop :=
  forall c i p, tf !! c = Some i -> references i p -> p <> "".

(** The local paths that [submit_task] has staged when its [try] body
    stops: the audio path once the first download returned, the video
    path once the second did. *)
Definition staged_inputs (audio_url video_url : string) (env : submit_env)
    (w : world) : list string :=
  match (logger INFO MsgSubmitDownloading ;;;
         download_file audio_url "audio" (audio_hex env) (audio_fetch env)) w
  with
  | (Ok audio, w1) =>
      snd audio ::
      match download_file video_url "video" (video_hex env)
                          (video_fetch env) w1 with
      | (Ok video, _) => [snd video]
      | (Raise _, _) => []
      end
  | (Raise _, _) => []
  end.

(** The local path [download_file] writes to when called at time [t]. *)
Definition local_path_of (url file_type uuid_hex : string) (t : Z) : string :=
  Path.join DUIX_DATA_DIR (choose_filename url file_type uuid_hex t).

(** The path at which [get_result] looks for the result. *)
Definition output_path_of (result_filename : string) : string :=
  Path.join (Path.join DUIX_DATA_DIR "temp") result_filename.

(** How one step may change the table: records disappear, or one record
    is stored whose paths are non-empty strings or were already held by
    the record it replaces. *)
Definition table_change (tf tf' : gmap string task_info) : Prop :=
  (forall c i, tf' !! c = Some i -> tf !! c = Some i)
  \/ exists c i,
       tf' = <[c := i]> tf
       /\ forall p, references i p ->
                    p <> "" \/ exists i0, tf !! c = Some i0 /\ references i0 p.

(** The record [get_result] finds for the job id it was given, if any. *)
Definition known_job (task_code : option string)
    (tf : gmap string task_info) : option (string * task_info) :=
  match task_code with
  | Some tc =>
      if truthy tc then
        match tf !! tc with
        | Some task_info => Some (tc, task_info)
        | None => None
        end
      else None
  | None => None
  end.

(** The paths [get_result] hands to [cleanup_files]. *)
Definition files_to_cleanup_of (result_filename : string)
    (known : option (string * task_info)) : list string :=
  [output_path_of result_filename]
    ++ match known with
       | Some (_, task_info) =>
           (if truthy (audio_local task_info)
            then [audio_local task_info] else [])
             ++ (if truthy (video_local task_info)
                 then [video_local task_info] else [])
       | None => []
       end.

(** The record as [get_result] leaves it at time [t]. *)
Definition with_result (info : task_info) (output_path : string)
    (t : Z) : task_info :=
  TaskInfo (audio_local info) (video_local info)
           (created_time info) (Some output_path) (Some t).

(** The thread [get_result] starts for the record of a truthy job id. *)
Definition mapping_cleanup (task_code : option string) (t : Z)
  : list thread :=
  match task_code with
  | Some tc =>
      if truthy tc
      then [CleanupTaskMapping (t + (CLEANUP_DELAY + 10)) tc] else []
  | None => []
  end.

(** The bytes a body delivers up to its first fault. *)
Fixpoint chunk_bytes (body : list chunk) : list byte :=
  match body with
  | [] => []
  | Data b :: rest => b ++ chunk_bytes rest
  | Fault :: _ => []
  end.

(** The body streams to its end. *)
Definition intact (body : list chunk) : bool :=
  forallb (fun c => match c with Data _ => true | Fault => false end) body.

(** Why [submit_task] turns an engine reply down, if it does: the call
    raised, the status is not 200, the body is no JSON, or its code is
    not 10000. *)
Definition rejection (r : post_reply) : option exn :=
  match r with
  | PostRaises => Some RequestException
  | PostReply status_code text json =>
      if bool_decide (status_code ≠ 200)
      then Some (DuixCallFailed status_code text)
      else match json with
           | None => Some JSONDecodeError
           | Some code =>
               if bool_decide (code ≠ Some 10000)
               then Some (DuixSubmitRejected code) else None
           end
  end.

(** What a download needs to go through: a reply with a success status
    whose body streams to its end, a target path that is not a
    directory, inside an existing directory. *)
Definition streamable (f : fetch) (fs : gmap string node)
    (local_path : string) : option (list chunk) :=
  match reply f with
  | GetReply true body =>
      match fs !! local_path with
      | Some Dir => None
      | _ =>
          match fs !! Path.dirname local_path with
          | Some Dir => if intact body then Some body else None
          | _ => None
          end
      end
  | _ => None
  end.

(** A computation that leaves the clock alone. *)
Definition steady {A} (m : M A) : Prop :=
  forall w, now (snd (m w)) = now w.

(** [sum(stats.values())] *)
Definition total_cleaned (st : stats) : nat :=
  (orphan_files st + old_files st + expired_tasks st)%nat.

(** The times a record carries are in order: it was created in the past,
    and its result, if fetched, was fetched between then and now; the
    result path and the fetch time are set together. *)
Definition timely (tf : gmap string task_info) (t : Z) : Prop :=
  forall c i,
    tf !! c = Some i ->
    created_time i <= t
    /\ (forall r, result_retrieved_time i = Some r -> created_time i <= r <= t)
    /\ (result_file i = None <-> result_retrieved_time i = None).

Definition wake_time (th : thread) : Z :=
  match th with
  | DoCleanup wake _ => wake
  | CleanupTaskMapping wake _ => wake
  end.

(** One atomic step of the process: a request served, a sweep pass, a
    sleeping thread that wakes up, time passing, or the outside (the
    engine, an operator) changing the file system. *)
Inductive step : world -> world -> Prop :=
  | step_submit w audio_url video_url env :
      step w (snd (submit_task audio_url video_url env w))
  | step_get_result w result_filename task_code :
      step w (snd (get_result result_filename task_code w))
  | step_sweep w :
      step w (snd (periodic_cleanup w))
  | step_thread w th before after :
      threads w = before ++ th :: after ->
      wake_time th <= now w ->
      step w (snd (run_thread th (set_threads (before ++ after) w)))
  | step_tick w d :
      0 <= d ->
      step w (set_now (now w + d) w)
  | step_outside w fs denied :
      step w (World (now w) fs denied (task_files w) (threads w) (log w)).

Inductive reachable : world -> Prop :=
  | reachable_init w0 : reachable (init w0)
  | reachable_step w w' : reachable w -> step w w' -> reachable w'.

End Face2FaceService.

(** ** Concrete inputs *)

(** A stand-in for [urlparse(url).path] on URLs of the shape
    [scheme://host/path?query#fragment], to run the model on examples. *)
Module Url.

Fixpoint after_scheme (s : string) : string :=
  match Path.strip_prefix "://" s with
  | Some r => r
  | None =>
      match s with
      | EmptyString => EmptyString
      | String _ r => after_scheme r
      end
  end.

Fixpoint from_slash (s : string) : string :=
  match s with
  | EmptyString => EmptyString
  | String a r => if Ascii.eqb a Path.slash then s else from_slash r
  end.

Fixpoint cut_query (s : string) : string :=
  match s with
  | EmptyString => EmptyString
  | String a r =>
      if Ascii.eqb a "?"%char || Ascii.eqb a "#"%char then EmptyString
      else String a (cut_query r)
  end.

Definition path (url : string) : string :=
  cut_query (from_slash (after_scheme url)).

End Url.

(** The default configuration: DUIX_DATA_DIR=/code/data, CLEANUP_DELAY=60,
    MAX_FILE_AGE=7200. *)
Module Default.

Definition data_dir : string := "/code/data".
Definition cleanup_delay : Z := 60.
Definition max_file_age : Z := 7200.

(** The service just started, at time 1000, on an empty disk. *)
Definition started : world :=
  init data_dir (World 1000 ∅ ∅ ∅ [] []).

Definition ok_fetch (secs : nat) (b : list byte) : fetch :=
  Fetch secs (GetReply true [Data b]).

Definition accepted : post_reply := PostReply 200 "" (Some (Some 10000)).

(** A submission whose audio URL carries a file name and whose video URL
    does not; each download takes 50 seconds. *)
Definition env1 : submit_env :=
  SubmitEnv "0123456789abcdef" (ok_fetch 50 [x41; x42])
            "fedcba9876543210" (ok_fetch 50 [x43; x44])
            "job-1" 0 accepted.

Definition submit1 : outcome string * world :=
  submit_task data_dir Url.path
              "http://host/media/audio.mp3" "http://host/video" env1 started.

(** A second submission of the same audio URL. *)
Definition env2 : submit_env :=
  SubmitEnv "0123456789abcdef" (ok_fetch 5 [x45])
            "00112233445566778899" (ok_fetch 5 [x46])
            "job-2" 0 accepted.

Definition submit2 : outcome string * world :=
  submit_task data_dir Url.path
              "http://host/media/audio.mp3" "http://host/video" env2
              (snd submit1).

(** Two hours and a little after the first submission started. *)
Definition aged : world := set_now 8260 (snd submit1).

(** Some time after the first submission, with a file nobody registered,
    written at time 4000. *)
Definition midway : world :=
  World 5000
        (<["/code/data/stray.bin" := File 4000 [x00]]> (nodes (snd submit1)))
        ∅ (task_files (snd submit1)) (threads (snd submit1))
        (log (snd submit1)).

(** The same, a few seconds after the stray file was written. *)
Definition early : world := set_now 4010 midway.

(** A submission whose audio is staged and whose video download cannot
    connect. *)
Definition env_video_fails : submit_env :=
  SubmitEnv "0123456789abcdef" (ok_fetch 50 [x41; x42])
            "fedcba9876543210" (Fetch 120 GetRaises)
            "job-3" 0 accepted.

Definition failed_submit : outcome string * world :=
  submit_task data_dir Url.path
              "http://host/media/audio.mp3" "http://host/media/video.mp4"
              env_video_fails started.

(** A download that breaks after its first chunk was written. *)
Definition broken_fetch : fetch := Fetch 10 (GetReply true [Data [x01]; Fault]).

Definition failed_download : outcome (string * string) * world :=
  download_file data_dir Url.path "http://host/media/video.mp4" "video"
                "fedcba9876543210" broken_fetch started.

(** The engine has produced a result; the table is empty. *)
Definition produced : world :=
  World 2000
        (<["/code/data/temp/out.mp4" := File 1900 [x47]]>
           (<["/code/data/temp" := Dir]> (nodes started)))
        ∅ ∅ [] [].

(** The same, more than a day later. *)
Definition forgotten : world := set_now 100000 produced.

(** After the first submission the engine has delivered the result of
    job-1. *)
Definition delivered : world :=
  World 1500
        (<["/code/data/temp/out.mp4" := File 1400 [x47]]>
           (<["/code/data/temp" := Dir]> (nodes (snd submit1))))
        ∅ (task_files (snd submit1)) [] (log (snd submit1)).

(** As [midway], with the removal of the stray file refused. *)
Definition guarded : world :=
  World 5000 (nodes midway) {["/code/data/stray.bin"]} (task_files midway)
        (threads midway) (log midway).

(** The record of job-1 has outlived MAX_FILE_AGE while its audio file,
    rewritten at time 1200, has not. *)
Definition lapsed : world :=
  World 8350
        (<["/code/data/audio.mp3" := File 1200 [x45]]> (nodes (snd submit1)))
        ∅ (task_files (snd submit1)) [] [].

(** The storage directory has vanished while job-1 is registered. *)
Definition uprooted : world :=
  World 100000 ∅ ∅ (task_files (snd submit1)) [] [].

(** A download of the audio URL of job-1 that cannot connect. *)
Definition refused_fetch : fetch := Fetch 5 GetRaises.

Definition clobbered : outcome (string * string) * world :=
  download_file data_dir Url.path "http://host/media/audio.mp3" "audio"
                "0123456789abcdef" refused_fetch (snd submit1).

(** A submission the engine rejects with code 10001. *)
Definition env_rejected : submit_env :=
  SubmitEnv "0123456789abcdef" (ok_fetch 50 [x41; x42])
            "fedcba9876543210" (ok_fetch 50 [x43; x44])
            "job-4" 0 (PostReply 200 "" (Some (Some 10001))).

Definition rejected_submit : outcome string * world :=
  submit_task data_dir Url.path
              "http://host/media/audio.mp3" "http://host/video" env_rejected
              started.

(** The audio of job-1, downloaded on its own. *)
Definition fetched : outcome (string * string) * world :=
  download_file data_dir Url.path "http://host/media/audio.mp3" "audio"
                "0123456789abcdef" (ok_fetch 50 [x41; x42]) started.





(** The first submission again, the engine taking three seconds to
    answer. *)
Definition env_slow : submit_env :=
  SubmitEnv "0123456789abcdef" (ok_fetch 50 [x41; x42])
            "fedcba9876543210" (ok_fetch 50 [x43; x44])
            "job-5" 3 accepted.

Definition slow_submit : outcome string * world :=
  submit_task data_dir Url.path
              "http://host/media/audio.mp3" "http://host/video" env_slow
              started.

End Default.


(** * Properties *)

Section Properties.

#[local] Set Default Proof Using "Type".

Variable DUIX_DATA_DIR : string.
Variable CLEANUP_DELAY : Z.
Variable MAX_FILE_AGE : Z.
Variable urlparse_path : string -> string.

Local Abbreviation classify := (classify CLEANUP_DELAY MAX_FILE_AGE).
Local Abbreviation is_orphan := (is_orphan CLEANUP_DELAY MAX_FILE_AGE).
Local Abbreviation is_old := (is_old CLEANUP_DELAY MAX_FILE_AGE).
Local Abbreviation sweep_file := (sweep_file CLEANUP_DELAY MAX_FILE_AGE).
Local Abbreviation sweep_files := (sweep_files CLEANUP_DELAY MAX_FILE_AGE).
Local Abbreviation expired_codes := (expired_codes MAX_FILE_AGE).
Local Abbreviation expire_tasks := (expire_tasks MAX_FILE_AGE).
Local Abbreviation top_level := (top_level DUIX_DATA_DIR).
Local Abbreviation periodic_cleanup :=
  (periodic_cleanup DUIX_DATA_DIR CLEANUP_DELAY MAX_FILE_AGE).
Local Abbreviation download_file := (download_file DUIX_DATA_DIR urlparse_path).
Local Abbreviation choose_filename := (choose_filename urlparse_path).
Local Abbreviation submit_task := (submit_task DUIX_DATA_DIR urlparse_path).
Local Abbreviation staged_inputs := (staged_inputs DUIX_DATA_DIR urlparse_path).
Local Abbreviation get_result := (get_result DUIX_DATA_DIR CLEANUP_DELAY).
Local Abbreviation output_path_of := (output_path_of DUIX_DATA_DIR).
Local Abbreviation local_path_of :=
  (local_path_of DUIX_DATA_DIR urlparse_path).
Local Abbreviation mapping_cleanup := (mapping_cleanup CLEANUP_DELAY).
Local Abbreviation files_to_cleanup_of := (files_to_cleanup_of DUIX_DATA_DIR).
Local Abbreviation _schedule_task_cleanup :=
  (_schedule_task_cleanup CLEANUP_DELAY).
Local Abbreviation step :=
  (step DUIX_DATA_DIR CLEANUP_DELAY MAX_FILE_AGE urlparse_path).
Local Abbreviation reachable :=
  (reachable DUIX_DATA_DIR CLEANUP_DELAY MAX_FILE_AGE urlparse_path).

(** ** The directory loop of the sweep *)

(** One iteration, as an equation: the verdict decides the counters and
    whether an unlink is attempted. *)
Lemma sweep_file_eq ct active st p w :
  sweep_file ct active st p w =
  match classify ct active (nodes w) p with
  | Keep => (Ok st, w)
  | v => (Ok (count v st), unlink_attempt p w)
  end.
Proof.
  unfold sweep_file, classify, bind, is_file, stat_mtime, unlink_attempt.
  destruct (nodes w !! p) as [[t d|]|] eqn:Hp; simpl; try reflexivity.
  rewrite Hp.
  destruct (bool_decide (p ∈ active)); simpl.
  - destruct (bool_decide (ct - t > MAX_FILE_AGE)); simpl; try reflexivity.
    unfold try_except, os_unlink. rewrite Hp.
    destruct (bool_decide (p ∈ unlink_denied w)); reflexivity.
  - destruct (bool_decide (ct - t > CLEANUP_DELAY)); simpl; try reflexivity.
    unfold try_except, os_unlink. rewrite Hp.
    destruct (bool_decide (p ∈ unlink_denied w)); reflexivity.
Qed.

Lemma classify_ext ct active fs1 fs2 p :
  fs1 !! p = fs2 !! p -> classify ct active fs1 p = classify ct active fs2 p.
Proof. unfold classify. intros ->. reflexivity. Qed.

Lemma classify_absent ct active fs p :
  fs !! p = None -> classify ct active fs p = Keep.
Proof. unfold classify. intros ->. reflexivity. Qed.

Lemma classify_file ct active fs p :
  classify ct active fs p <> Keep -> exists t d, fs !! p = Some (File t d).
Proof.
  unfold classify. destruct (fs !! p) as [[t d|]|]; try congruence. eauto.
Qed.

(** What [unlink_attempt] leaves of the state. *)
Lemma unlink_attempt_frame p w :
  now (unlink_attempt p w) = now w
  /\ task_files (unlink_attempt p w) = task_files w
  /\ unlink_denied (unlink_attempt p w) = unlink_denied w
  /\ threads (unlink_attempt p w) = threads w
  /\ (forall q, q <> p -> nodes (unlink_attempt p w) !! q = nodes w !! q)
  /\ (forall r, r ∈ log w -> r ∈ log (unlink_attempt p w)).
Proof.
  unfold unlink_attempt. case_bool_decide; simpl; split_and!; try done.
  - intros r Hr. by right.
  - intros q Hq. by apply lookup_delete_ne.
Qed.

Lemma unlink_attempt_target p w :
  (p ∉ unlink_denied w -> nodes (unlink_attempt p w) !! p = None)
  /\ (p ∈ unlink_denied w ->
      nodes (unlink_attempt p w) = nodes w
      /\ (WARNING, MsgSweepDeleteFailed p (PermissionError p))
           ∈ log (unlink_attempt p w)).
Proof.
  unfold unlink_attempt. case_bool_decide; simpl; split; try done.
  - intros _. split; [done | by left].
  - intros _. apply lookup_delete_eq.
Qed.

(** The whole loop never raises, touches only the file system and the
    log, and removes exactly the listed paths that have a verdict other
    than [Keep] and whose unlink is permitted. *)
Lemma sweep_files_spec ct active l : forall st w,
  exists st' w',
    sweep_files ct active st l w = (Ok st', w')
    /\ now w' = now w /\ task_files w' = task_files w
    /\ unlink_denied w' = unlink_denied w /\ threads w' = threads w
    /\ forall q,
         nodes w' !! q =
         if decide (q ∈ l /\ classify ct active (nodes w) q <> Keep
                    /\ q ∉ unlink_denied w)
         then None else nodes w !! q.
Proof.
  induction l as [|p r IH]; intros st w.
  - exists st, w. split_and!; reflexivity.
  - cbn [sweep_files]. unfold bind at 1. rewrite sweep_file_eq.
    assert (Hgo : forall v, classify ct active (nodes w) p = v -> v <> Keep ->
      exists st' w',
        sweep_files ct active (count v st) r (unlink_attempt p w) = (Ok st', w')
        /\ now w' = now w /\ task_files w' = task_files w
        /\ unlink_denied w' = unlink_denied w /\ threads w' = threads w
        /\ forall q,
            nodes w' !! q =
            if decide (q ∈ p :: r /\ classify ct active (nodes w) q <> Keep
                       /\ q ∉ unlink_denied w)
            then None else nodes w !! q).
    { intros v Hv Hne.
      destruct (IH (count v st) (unlink_attempt p w))
        as (st' & w' & Hrun & Hn & Ht & Hd & Hth & Hq).
      exists st', w'. unfold unlink_attempt in *.
      destruct (bool_decide (p ∈ unlink_denied w)) eqn:Hden.
      - apply bool_decide_eq_true in Hden. simpl in *.
        split_and!; try assumption.
        intros q. rewrite Hq. repeat case_decide; try reflexivity.
        + exfalso. apply H0. destruct H as (? & ? & ?).
          split_and!; auto. by right.
        + exfalso. destruct H0 as (Hin & Hk & Hnd). apply H.
          split_and!; auto.
          apply elem_of_cons in Hin as [->|]; [done|done].
      - apply bool_decide_eq_false in Hden. simpl in *.
        split_and!; try assumption.
        intros q. rewrite Hq.
        destruct (decide (q = p)) as [->|Hqp].
        + rewrite (classify_absent _ _ (delete p (nodes w)))
            by apply lookup_delete_eq.
          rewrite lookup_delete_eq.
          repeat case_decide; try reflexivity;
            try (destruct H as (_ & ? & _); done).
          exfalso. apply H0. split_and!; [by left|congruence|done].
        + rewrite (classify_ext _ _ (delete p (nodes w)) (nodes w))
            by (by apply lookup_delete_ne).
          rewrite lookup_delete_ne by done.
          repeat case_decide; try reflexivity.
          * exfalso. apply H0. destruct H as (? & ? & ?).
            split_and!; auto. by right.
          * exfalso. destruct H0 as (Hin & Hk & Hnd). apply H.
            split_and!; auto.
            apply elem_of_cons in Hin as [->|]; done. }
    destruct (classify ct active (nodes w) p) eqn:Hc.
    + destruct (IH st w) as (st' & w' & Hrun & Hn & Ht & Hd & Hth & Hq).
      exists st', w'. split_and!; try assumption.
      intros q. rewrite Hq.
      repeat case_decide; try reflexivity.
      * exfalso. apply H0. destruct H as (? & ? & ?).
        split_and!; auto. by right.
      * exfalso. destruct H0 as (Hin & Hk & Hden).
        apply H. split_and!; auto.
        apply elem_of_cons in Hin as [->|]; [congruence|done].
    + apply (Hgo Orphan); done.
    + apply (Hgo Old); done.
Qed.

Lemma elem_of_top_level fs q :
  q ∈ top_level fs <-> Path.is_child DUIX_DATA_DIR q = true /\ is_Some (fs !! q).
Proof.
  unfold top_level. rewrite list_elem_of_filter, list_elem_of_fmap.
  split.
  - intros [Hc [[k v] [-> Hin]]]. split; [done|].
    apply elem_of_map_to_list in Hin. simpl. eauto.
  - intros [Hc [v Hv]]. split; [done|].
    exists (q, v). split; [done|]. by apply elem_of_map_to_list.
Qed.

Lemma NoDup_top_level fs : NoDup (top_level fs).
Proof. apply NoDup_filter, NoDup_fst_map_to_list. Qed.

(** ** Expiry of records *)

Lemma for_each_pop_task l : forall w,
  for_each l pop_task w =
  (Ok tt, set_task_files (foldl (fun m c => delete c m) (task_files w) l) w).
Proof.
  induction l as [|c r IH]; intros w; simpl.
  - unfold ret. by destruct w.
  - unfold bind, pop_task, modify. rewrite IH. by destruct w.
Qed.

Lemma lookup_foldl_delete {A} (l : list string) : forall (m : gmap string A) c,
  foldl (fun m c => delete c m) m l !! c
  = if decide (c ∈ l) then None else m !! c.
Proof.
  induction l as [|x r IH]; intros m c; simpl.
  - reflexivity.
  - rewrite IH. destruct (decide (c = x)) as [->|Hne].
    + rewrite lookup_delete_eq.
      rewrite (decide_True (P := x ∈ x :: r)) by (by left).
      by case_decide.
    + rewrite lookup_delete_ne by done.
      repeat case_decide; try done.
      * exfalso. apply H0. by right.
      * exfalso. apply elem_of_cons in H0 as [|]; done.
Qed.

Lemma elem_of_expired_codes ct (tf : gmap string task_info) c :
  c ∈ expired_codes ct tf <->
  exists i, tf !! c = Some i /\ ct - created_time i > MAX_FILE_AGE.
Proof.
  unfold expired_codes. rewrite list_elem_of_fmap. split.
  - intros [[k i] [-> Hin]]. apply list_elem_of_filter in Hin as [Hold Hin].
    apply elem_of_map_to_list in Hin. exists i. done.
  - intros [i [Hi Hold]]. exists (c, i). split; [done|].
    apply list_elem_of_filter. split; [done|]. by apply elem_of_map_to_list.
Qed.

(** [expire_tasks] never raises and drops exactly the records whose
    [created_time] lies more than [MAX_FILE_AGE] back. *)
Lemma expire_tasks_spec ct st w :
  exists w',
    expire_tasks ct st w =
      (Ok (Stats (orphan_files st) (old_files st)
                 (expired_tasks st + length (expired_codes ct (task_files w)))),
       w')
    /\ now w' = now w /\ nodes w' = nodes w
    /\ unlink_denied w' = unlink_denied w /\ threads w' = threads w
    /\ log w' = log w
    /\ forall c,
         task_files w' !! c =
         match task_files w !! c with
         | Some i =>
             if bool_decide (ct - created_time i > MAX_FILE_AGE)
             then None else Some i
         | None => None
         end.
Proof.
  unfold expire_tasks, bind, get_world. rewrite for_each_pop_task.
  eexists. split; [reflexivity|]. simpl. split_and!; try done.
  intros c. rewrite lookup_foldl_delete.
  pose proof (elem_of_expired_codes ct (task_files w) c) as Hex.
  destruct (task_files w !! c) as [i|] eqn:Hc.
  - case_decide as Hin; case_bool_decide as Hold; try done.
    + apply Hex in Hin as (i' & Hi' & Hold'). congruence.
    + exfalso. apply Hin, Hex. eauto.
  - case_decide; done.
Qed.

(** ** One sweep pass *)

(** A pass over an existing storage directory: it completes, leaves the
    clock, the refusals and the threads alone, removes exactly the
    directory entries with a verdict other than [Keep] whose unlink is
    permitted, and expires the old records. *)
Lemma periodic_cleanup_pass w :
  nodes w !! DUIX_DATA_DIR = Some Dir ->
  exists st w',
    periodic_cleanup w = (Ok (Some st), w')
    /\ now w' = now w /\ unlink_denied w' = unlink_denied w
    /\ threads w' = threads w
    /\ (forall q,
         nodes w' !! q =
         if decide (q ∈ top_level (nodes w)
                    /\ classify (now w) (active_file_set (task_files w))
                                (nodes w) q <> Keep
                    /\ q ∉ unlink_denied w)
         then None else nodes w !! q)
    /\ (forall c,
         task_files w' !! c =
         match task_files w !! c with
         | Some i =>
             if bool_decide (now w - created_time i > MAX_FILE_AGE)
             then None else Some i
         | None => None
         end).
Proof.
  intros Hdir.
  unfold periodic_cleanup, bind at 1, time_time, try_except.
  unfold bind at 1, get_world. unfold bind at 1, iterdir. rewrite Hdir.
  fold (top_level (nodes w)).
  destruct (sweep_files_spec (now w) (active_file_set (task_files w))
              (top_level (nodes w)) (Stats 0 0 0) w)
    as (st1 & w1 & Hrun & Hn1 & Ht1 & Hd1 & Hth1 & Hq1).
  unfold bind at 1. rewrite Hrun.
  destruct (expire_tasks_spec (now w) st1 w1)
    as (w2 & Hex & Hn2 & Hf2 & Hd2 & Hth2 & Hl2 & Hc2).
  unfold bind at 1. rewrite Hex.
  unfold bind, logger, modify, ret.
  case_bool_decide; simpl; eexists _, _; (split; [reflexivity|]); simpl;
    (split_and!; [congruence|congruence|congruence| |]).
  - intros q. rewrite Hf2. apply Hq1.
  - intros c. rewrite Hc2, Ht1. done.
  - intros q. rewrite Hf2. apply Hq1.
  - intros c. rewrite Hc2, Ht1. done.
Qed.

(** A pass that cannot list the storage directory is cut short: it logs
    the error and changes nothing else. *)
Lemma periodic_cleanup_no_dir w :
  nodes w !! DUIX_DATA_DIR <> Some Dir ->
  exists e,
    periodic_cleanup w = (Ok None, add_log (ERROR, MsgSweepError e) w).
Proof.
  intros Hdir.
  unfold periodic_cleanup, bind at 1, time_time, try_except.
  unfold bind at 1, get_world. unfold bind at 1, iterdir.
  destruct (nodes w !! DUIX_DATA_DIR) as [[t d|]|]; try done; eexists;
    reflexivity.
Qed.

(** In every case the pass returns normally and a path either keeps its
    node or loses it. *)
Lemma periodic_cleanup_total w :
  exists r w',
    periodic_cleanup w = (Ok r, w')
    /\ now w' = now w /\ unlink_denied w' = unlink_denied w
    /\ threads w' = threads w
    /\ forall q,
         nodes w' !! q = nodes w !! q
         \/ (nodes w' !! q = None
             /\ nodes w !! DUIX_DATA_DIR = Some Dir
             /\ q ∈ top_level (nodes w)
             /\ classify (now w) (active_file_set (task_files w))
                         (nodes w) q <> Keep
             /\ q ∉ unlink_denied w).
Proof.
  destruct (nodes w !! DUIX_DATA_DIR) as [n|] eqn:Hd;
    [destruct n as [t d|]|].
  - destruct (periodic_cleanup_no_dir w) as [e He]; [congruence|].
    rewrite He. eexists _, _. split; [reflexivity|]. simpl.
    split_and!; try done. intros q. by left.
  - destruct (periodic_cleanup_pass w Hd)
      as (st & w' & Hrun & Hn & Hden & Hth & Hq & _).
    rewrite Hrun. eexists _, _. split; [reflexivity|].
    split_and!; try done.
    intros q. rewrite Hq. case_decide as H; [right|by left].
    destruct H as (? & ? & ?). done.
  - destruct (periodic_cleanup_no_dir w) as [e He]; [congruence|].
    rewrite He. eexists _, _. split; [reflexivity|]. simpl.
    split_and!; try done. intros q. by left.
Qed.

(** ** The active file set *)

Lemma elem_of_add_keys (keys : list (option string)) : forall (acc : gset string) p,
  p ∈ foldl (fun acc v =>
               match v with
               | Some p => if truthy p then {[p]} ∪ acc else acc
               | None => acc
               end) acc keys
  <-> p ∈ acc \/ (truthy p = true /\ Some p ∈ keys).
Proof.
  induction keys as [|k r IH]; intros acc p; simpl.
  - split; [by left|]. intros [H|[_ H]]; [done|]. inversion H.
  - rewrite IH. destruct k as [x|].
    + destruct (truthy x) eqn:Hx.
      * rewrite elem_of_union, elem_of_singleton. split.
        -- intros [[->|H]|[Ht H]]; auto.
           ++ right. split; [done|by left].
           ++ right. split; [done|by right].
        -- intros [H|[Ht H]]; auto.
           apply elem_of_cons in H as [H|H]; auto.
           inversion H; subst. auto.
      * split.
        -- intros [H|[Ht H]]; auto. right. split; [done|by right].
        -- intros [H|[Ht H]]; auto.
           apply elem_of_cons in H as [H|H]; auto.
           inversion H; subst. congruence.
    + split.
      * intros [H|[Ht H]]; auto. right. split; [done|by right].
      * intros [H|[Ht H]]; auto.
        apply elem_of_cons in H as [H|H]; [done|auto].
Qed.

(** The set computed by the first locked block holds exactly the truthy
    paths that some record references. *)
Lemma elem_of_active_file_set (tf : gmap string task_info) p :
  p ∈ active_file_set tf
  <-> truthy p = true /\ exists c i, tf !! c = Some i /\ references i p.
Proof.
  unfold active_file_set.
  apply (map_fold_weak_ind
           (fun (acc : gset string) (m : gmap string task_info) =>
              p ∈ acc <->
              truthy p = true /\ exists c i, m !! c = Some i /\ references i p)).
  - split; [set_solver|]. intros [_ (c & i & H & _)].
    by rewrite lookup_empty in H.
  - intros c i m acc Hc IH. rewrite elem_of_add_keys, IH. split.
    + intros [[Ht (c' & i' & Hc' & Hr)]|[Ht Hr]].
      * split; [done|]. exists c', i'. split; [|done].
        rewrite lookup_insert_ne; [done|]. intros ->. congruence.
      * split; [done|]. exists c, i. split; [|done]. apply lookup_insert_eq.
    + intros [Ht (c' & i' & Hc' & Hr)].
      destruct (decide (c = c')) as [->|Hne].
      * rewrite lookup_insert_eq in Hc'. inversion Hc'; subst. right. done.
      * rewrite lookup_insert_ne in Hc' by done. left. split; [done|]. eauto.
Qed.

(** ** Frames *)

Lemma evolves_refl touch w : evolves touch w w.
Proof. unfold evolves. split_and!; done. Qed.

Lemma evolves_trans touch w1 w2 w3 :
  evolves touch w1 w2 -> evolves touch w2 w3 -> evolves touch w1 w3.
Proof.
  intros (Ht1 & Hth1 & Hd1 & Hn1 & Hq1 & Hdir1 & Hl1)
         (Ht2 & Hth2 & Hd2 & Hn2 & Hq2 & Hdir2 & Hl2).
  unfold evolves. split_and!; try congruence; try lia.
  - intros q Hq. rewrite Hq2, Hq1; done.
  - intros q Hq. auto.
  - intros r Hr. auto.
Qed.

Lemma evolves_weaken (touch touch' : string -> Prop) w w' :
  (forall q, touch q -> touch' q) -> evolves touch w w' -> evolves touch' w w'.
Proof.
  intros Hsub (Ht & Hth & Hd & Hn & Hq & Hdir & Hl).
  unfold evolves. split_and!; try done.
  intros q Hq'. apply Hq. intros Hq''. apply Hq'. auto.
Qed.

Lemma keeps_ret {A} touch (a : A) : keeps touch (ret a).
Proof. intros w. apply evolves_refl. Qed.

Lemma keeps_raise {A} touch e : keeps touch (@raise A e).
Proof. intros w. apply evolves_refl. Qed.

Lemma keeps_bind {A B} touch (m : M A) (k : A -> M B) :
  keeps touch m -> (forall a, keeps touch (k a)) -> keeps touch (bind m k).
Proof.
  intros Hm Hk w. unfold bind. specialize (Hm w).
  destruct (m w) as [[a|e] w1]; simpl in *; [|done].
  eapply evolves_trans; [exact Hm|]. apply Hk.
Qed.

Lemma keeps_try_except {A} touch (m : M A) (h : exn -> M A) :
  keeps touch m -> (forall e, keeps touch (h e)) -> keeps touch (try_except m h).
Proof.
  intros Hm Hh w. unfold try_except. specialize (Hm w).
  destruct (m w) as [[a|e] w1]; simpl in *; [done|].
  eapply evolves_trans; [exact Hm|]. apply Hh.
Qed.

Lemma keeps_for_each {A} touch (l : list A) (body : A -> M unit) :
  (forall x, x ∈ l -> keeps touch (body x)) -> keeps touch (for_each l body).
Proof.
  induction l as [|x r IH]; intros Hb; simpl.
  - apply keeps_ret.
  - apply keeps_bind.
    + apply Hb. by left.
    + intros _. apply IH. intros y Hy. apply Hb. by right.
Qed.

Lemma keeps_logger touch l m : keeps touch (logger l m).
Proof.
  intros w. unfold evolves. simpl. split_and!; try done.
  intros r Hr. by right.
Qed.

Lemma keeps_time_time touch : keeps touch time_time.
Proof. intros w. apply evolves_refl. Qed.

Lemma keeps_os_path_exists touch p : keeps touch (os_path_exists p).
Proof. intros w. apply evolves_refl. Qed.

Lemma keeps_os_path_getsize touch p : keeps touch (os_path_getsize p).
Proof.
  intros w. unfold os_path_getsize.
  destruct (nodes w !! p) as [[t d|]|]; apply evolves_refl.
Qed.

Lemma keeps_read_rb touch p : keeps touch (read_rb p).
Proof.
  intros w. unfold read_rb.
  destruct (nodes w !! p) as [[t d|]|]; apply evolves_refl.
Qed.

Lemma keeps_os_unlink (touch : string -> Prop) p :
  touch p -> keeps touch (os_unlink p).
Proof.
  intros Hp w. unfold os_unlink.
  destruct (nodes w !! p) as [[t d|]|] eqn:Hn; try apply evolves_refl.
  case_bool_decide; try apply evolves_refl.
  unfold evolves. simpl. split_and!; try done.
  - intros q Hq. apply lookup_delete_ne. intros ->. done.
  - intros q Hq. destruct (decide (q = p)) as [->|Hne].
    + by rewrite lookup_delete_eq in Hq.
    + by rewrite lookup_delete_ne in Hq.
Qed.

Lemma keeps_open_wb (touch : string -> Prop) p :
  touch p -> keeps touch (open_wb p).
Proof.
  intros Hp w. unfold open_wb.
  assert (Hw : evolves touch w
                 (set_nodes (<[p:=File (now w) []]> (nodes w)) w)).
  { unfold evolves. simpl. split_and!; try done.
    - intros q Hq. apply lookup_insert_ne. intros ->. done.
    - intros q Hq. destruct (decide (q = p)) as [->|Hne].
      + by rewrite lookup_insert_eq in Hq.
      + by rewrite lookup_insert_ne in Hq. }
  destruct (nodes w !! p) as [[t d|]|];
    destruct (nodes w !! Path.dirname p) as [[t' d'|]|];
    simpl; try apply evolves_refl; exact Hw.
Qed.

Lemma keeps_file_write (touch : string -> Prop) p b :
  touch p -> keeps touch (file_write p b).
Proof.
  intros Hp w. unfold file_write.
  assert (Hw : forall d, evolves touch w
                 (set_nodes (<[p:=File (now w) d]> (nodes w)) w)).
  { intros d. unfold evolves. simpl. split_and!; try done.
    - intros q Hq. apply lookup_insert_ne. intros ->. done.
    - intros q Hq. destruct (decide (q = p)) as [->|Hne].
      + by rewrite lookup_insert_eq in Hq.
      + by rewrite lookup_insert_ne in Hq. }
  destruct (nodes w !! p) as [[t d|]|]; simpl; apply Hw.
Qed.

Lemma keeps_requests_get touch f : keeps touch (requests_get f).
Proof.
  intros w. unfold requests_get, bind, modify.
  assert (Hw : evolves touch w (set_now (now w + Z.of_nat (elapsed f)) w)).
  { unfold evolves. simpl. split_and!; try done. lia. }
  destruct (reply f); simpl; exact Hw.
Qed.

Lemma keeps_raise_for_status touch ok : keeps touch (raise_for_status ok).
Proof. destruct ok; [apply keeps_ret|apply keeps_raise]. Qed.

(** ** Staging: [download_file] *)

Lemma keeps_write_chunks (touch : string -> Prop) p body :
  touch p -> keeps touch (write_chunks p body).
Proof.
  intros Hp. apply keeps_for_each. intros [b|] _.
  - destruct b; [apply keeps_ret|by apply keeps_file_write].
  - apply keeps_raise.
Qed.

Lemma write_chunks_file p body : forall w t d,
  nodes w !! p = Some (File t d) ->
  exists t' d', nodes (snd (write_chunks p body w)) !! p = Some (File t' d').
Proof.
  induction body as [|c r IH]; intros w t d Hp; simpl.
  - eauto.
  - unfold write_chunks in *. simpl. unfold bind.
    destruct c as [[|b0 b]|]; simpl.
    + eapply IH. exact Hp.
    + unfold file_write. rewrite Hp. eapply IH. simpl. apply lookup_insert_eq.
    + eauto.
Qed.

(** The [except] block of [download_file], run on the state [wb] the
    [try] body left: it always ends in the staging error carrying the
    original cause, and what it leaves at the target path depends only on
    what was there. *)
Lemma download_file_handler url lp (e : exn) wb :
  exists w',
    download_failed url lp e wb
    = (Raise (HTTPException 400 e), w')
    /\ match nodes wb !! lp with
       | None => nodes w' !! lp = None
       | Some Dir =>
           nodes w' !! lp = Some Dir
           /\ (WARNING, MsgPartialRemoveFailed (IsADirectoryError lp)) ∈ log w'
       | Some (File t d) =>
           if bool_decide (lp ∈ unlink_denied wb)
           then nodes w' !! lp = Some (File t d)
                /\ (WARNING, MsgPartialRemoveFailed (PermissionError lp))
                     ∈ log w'
           else nodes w' !! lp = None
       end
    /\ unlink_denied w' = unlink_denied wb.
Proof.
  unfold download_failed, bind at 1, os_path_exists.
  destruct (nodes wb !! lp) as [[t d|]|] eqn:Hlp.
  - rewrite bool_decide_eq_true_2 by eauto.
    unfold bind, try_except, os_unlink, logger, modify, raise. rewrite Hlp.
    case_bool_decide; simpl; eexists; (split; [reflexivity|]); simpl.
    + split; [|done]. split; [done|]. right. by left.
    + split; [|done]. apply lookup_delete_eq.
  - rewrite bool_decide_eq_true_2 by eauto.
    unfold bind, try_except, os_unlink, logger, modify, raise. rewrite Hlp.
    simpl. eexists; (split; [reflexivity|]); simpl.
    split; [|done]. split; [done|]. right. by left.
  - rewrite bool_decide_eq_false_2 by (intros [? ?]; congruence).
    unfold bind, logger, modify, raise, ret. simpl.
    eexists; (split; [reflexivity|]); simpl. done.
Qed.

(** A download touches nothing but its target path. *)
Lemma download_file_frame url ft hex f w :
  evolves (eq (local_path_of url ft hex (now w))) w
          (snd (download_file url ft hex f w)).
Proof.
  unfold download_file, bind at 1, time_time.
  fold (local_path_of url ft hex (now w)).
  set (lp := local_path_of url ft hex (now w)).
  apply (keeps_bind (eq lp)); [apply keeps_logger|]. intros _.
  apply keeps_try_except.
  - apply keeps_bind; [apply keeps_requests_get|]. intros r.
    apply keeps_bind; [apply keeps_raise_for_status|]. intros _.
    apply keeps_bind; [by apply keeps_open_wb|]. intros _.
    apply keeps_bind; [by apply keeps_write_chunks|]. intros _.
    apply keeps_bind; [apply keeps_os_path_getsize|]. intros n.
    apply keeps_bind; [apply keeps_logger|]. intros _. apply keeps_ret.
  - intros e. unfold download_failed.
    apply keeps_bind; [apply keeps_os_path_exists|]. intros present.
    apply keeps_bind.
    + destruct present; [|apply keeps_ret].
      apply keeps_try_except.
      * apply keeps_bind; [by apply keeps_os_unlink|]. intros _.
        apply keeps_logger.
      * intros ce. apply keeps_logger.
    + intros _. apply keeps_bind; [apply keeps_logger|]. intros _.
      apply keeps_raise.
Qed.

(** The two ways a download ends: with the pair of paths and a regular
    file at the local one, or with the staging error (status 400) after
    the [except] block dealt with the target path. *)
Lemma download_file_outcome url ft hex f w :
  let lp := local_path_of url ft hex (now w) in
  match download_file url ft hex f w with
  | (Ok r, w') =>
      r = ("/code/data/" +:+ choose_filename url ft hex (now w), lp)
      /\ exists t d, nodes w' !! lp = Some (File t d)
  | (Raise e, w') =>
      exists cause,
        e = HTTPException 400 cause
        /\ (nodes w' !! lp = None
            \/ (nodes w' !! lp = Some Dir
                /\ (WARNING, MsgPartialRemoveFailed (IsADirectoryError lp))
                     ∈ log w')
            \/ (lp ∈ unlink_denied w
                /\ (exists t d, nodes w' !! lp = Some (File t d))
                /\ (WARNING, MsgPartialRemoveFailed (PermissionError lp))
                     ∈ log w'))
  end.
Proof.
  intros lp.
  pose proof (download_file_frame url ft hex f w) as Hfr.
  change (local_path_of url ft hex (now w)) with lp in Hfr.
  destruct (download_file url ft hex f w) as [[r|e] w'] eqn:Hrun;
    simpl in Hfr; revert Hrun;
    unfold download_file, bind at 1, time_time; cbv zeta;
    change (Path.join DUIX_DATA_DIR (choose_filename url ft hex (now w)))
      with lp;
    generalize (choose_filename url ft hex (now w)); intros filename;
    clearbody lp;
    unfold bind at 1, logger at 1, modify; unfold try_except;
    match goal with
    | |- context [bind (requests_get f) ?k ?w0] =>
        destruct (bind (requests_get f) k w0) as [[r0|e0] wb] eqn:Hbody
    end.
  - (* the body completed *)
    intros [= <- <-]. clear Hfr. revert Hbody.
    unfold bind at 1, requests_get, bind at 1, modify.
    destruct (reply f) as [|ok body]; [discriminate|].
    unfold ret at 1. unfold bind at 1. destruct ok; [|discriminate].
    cbn [raise_for_status fst snd ret].
    unfold bind at 1, open_wb. cbn [nodes set_now add_log].
    set (w1 := set_now _ _).
    destruct (nodes w !! lp) as [[t0 d0|]|] eqn:Hlp; try discriminate;
      (destruct (nodes w !! Path.dirname lp) as [[t1 d1|]|];
         try discriminate);
      unfold bind at 1;
      (destruct (write_chunks_file lp body
                   (set_nodes (<[lp:=File (now w1) []]> (nodes w1)) w1)
                   (now w1) []) as (t' & d' & Hw);
         [apply lookup_insert_eq|]);
      (destruct (write_chunks lp body _) as [[[]|e] w2]; [|discriminate]);
      simpl in Hw; unfold bind at 1, os_path_getsize; rewrite Hw;
      unfold bind, logger, modify, ret; intros [= <- <-]; simpl;
      (split; [reflexivity|eauto]).
  - (* the handler never returns normally *)
    destruct (download_file_handler url lp e0 wb) as (w2 & Hrun & _).
    rewrite Hrun. discriminate.
  - discriminate.
  - (* the body raised: the handler runs on [wb] *)
    destruct (download_file_handler url lp e0 wb) as (w2 & Hrun & Hpost & Hd).
    rewrite Hrun. intros [= <- <-]. exists e0. split; [reflexivity|].
    destruct Hfr as (_ & _ & Hd' & _).
    destruct (nodes wb !! lp) as [[t d|]|] eqn:Hlp.
    + case_bool_decide as Hden.
      * right. right. destruct Hpost as [Hp Hl]. split_and!; eauto.
        rewrite <- Hd', Hd. exact Hden.
      * by left.
    + right. left. exact Hpost.
    + by left.
Qed.

(** ** Deferred reclamation: [do_cleanup], [cleanup_files] *)

(** One iteration of [do_cleanup]: it never raises; the path is removed,
    or was absent, or its removal failed and a warning was logged. *)
Lemma do_cleanup_one file_path w :
  try_except
    (present <- os_path_exists file_path ;;
     if present then os_unlink file_path else ret tt)
    (fun e => logger WARNING (MsgDeleteFailed file_path e)) w
  = (Ok tt,
     match nodes w !! file_path with
     | None => w
     | Some Dir =>
         add_log (WARNING,
                  MsgDeleteFailed file_path (IsADirectoryError file_path)) w
     | Some (File _ _) =>
         if bool_decide (file_path ∈ unlink_denied w)
         then add_log (WARNING,
                       MsgDeleteFailed file_path (PermissionError file_path)) w
         else set_nodes (delete file_path (nodes w)) w
     end).
Proof.
  unfold try_except, bind, os_path_exists, os_unlink.
  destruct (nodes w !! file_path) as [[t d|]|] eqn:Hp.
  - rewrite bool_decide_eq_true_2 by eauto. rewrite Hp.
    case_bool_decide; reflexivity.
  - rewrite bool_decide_eq_true_2 by eauto. rewrite Hp. reflexivity.
  - rewrite bool_decide_eq_false_2 by (intros [? ?]; congruence).
    reflexivity.
Qed.

Lemma do_cleanup_spec l : forall w,
  exists w',
    do_cleanup l w = (Ok tt, w')
    /\ evolves (fun q => q ∈ l) w w'
    /\ now w' = now w
    /\ (forall q, nodes w' !! q = nodes w !! q \/ nodes w' !! q = None)
    /\ (forall p, p ∈ l -> reclaimed p w w').
Proof.
  induction l as [|x r IH]; intros w.
  - exists w. split; [reflexivity|]. split; [apply evolves_refl|].
    split; [done|]. split; [intros q; by left|].
    intros p Hp. inversion Hp.
  - unfold do_cleanup in *. cbn [for_each]. unfold bind at 1.
    rewrite do_cleanup_one.
    set (w1 := match nodes w !! x with
               | Some (File _ _) => _ | Some Dir => _ | None => _ end).
    assert (H1 : evolves (fun q => q ∈ x :: r) w w1
                 /\ now w1 = now w
                 /\ (forall q, nodes w1 !! q = nodes w !! q
                               \/ nodes w1 !! q = None)
                 /\ reclaimed x w w1).
    { subst w1. unfold reclaimed.
      destruct (nodes w !! x) as [[t d|]|] eqn:Hx;
        [case_bool_decide as Hden|..].
      - split; [|split; [done|split]].
        + unfold evolves; simpl; split_and!; try done. intros ? ?; by right.
        + intros q; by left.
        + right. simpl. split_and!; [done|by left|]. eexists. by left.
      - split; [|split; [done|split]].
        + unfold evolves; simpl; split_and!; try done.
          * intros q Hq. apply lookup_delete_ne. intros ->. apply Hq. by left.
          * intros q Hq. destruct (decide (q = x)) as [->|Hne].
            -- by rewrite lookup_delete_eq in Hq.
            -- by rewrite lookup_delete_ne in Hq.
        + intros q. simpl. destruct (decide (q = x)) as [->|Hne].
          * right. apply lookup_delete_eq.
          * left. by apply lookup_delete_ne.
        + left. simpl. apply lookup_delete_eq.
      - split; [|split; [done|split]].
        + unfold evolves; simpl; split_and!; try done. intros ? ?; by right.
        + intros q; by left.
        + right. simpl. split_and!; [done|by right|]. eexists. by left.
      - split; [|split; [done|split]].
        + apply evolves_refl.
        + intros q; by left.
        + by left. }
    destruct H1 as (Hev1 & Hn1 & Hmono1 & Hx1).
    destruct (IH w1) as (w' & Hrun & Hev & Hn & Hmono & Hall).
    exists w'. split; [exact Hrun|]. split_and!.
    + eapply evolves_trans; [exact Hev1|].
      eapply evolves_weaken; [|exact Hev]. intros q Hq. by right.
    + congruence.
    + intros q. destruct (Hmono q) as [Hq|Hq]; [|by right].
      rewrite Hq. apply Hmono1.
    + assert (Hkeep : forall p, reclaimed p w w1 -> reclaimed p w w').
      { intros p [Hp|(Hp & Hwhy & e & He)].
        - left. destruct (Hmono p) as [Hq|Hq]; congruence.
        - destruct (Hmono p) as [Hq|Hq]; [|by left].
          right. split_and!; [congruence|done|].
          exists e. destruct Hev as (_ & _ & _ & _ & _ & _ & Hlog). auto. }
      intros p Hp. apply elem_of_cons in Hp as [->|Hp]; [by apply Hkeep|].
      destruct (Hall p Hp) as [Hgone|(Hsame & Hwhy & e & He)]; [by left|].
      destruct (Hmono1 p) as [Hq|Hq].
      * right. split_and!; [congruence| |eauto].
        destruct Hev1 as (_ & _ & Hd & _). rewrite <- Hd, <- Hq. exact Hwhy.
      * left. congruence.
Qed.

(** [cleanup_files] never raises.  With a positive delay it only starts
    a thread; otherwise it reclaims every listed path before it returns
    and starts nothing. *)
Lemma cleanup_files_spec l delay w :
  exists w',
    cleanup_files l delay w = (Ok tt, w')
    /\ task_files w' = task_files w /\ now w' = now w
    /\ unlink_denied w' = unlink_denied w
    /\ (forall r, r ∈ log w -> r ∈ log w')
    /\ if bool_decide (delay > 0)
       then nodes w' = nodes w
            /\ threads w' = threads w ++ [DoCleanup (now w + delay) l]
       else threads w' = threads w
            /\ (forall q, q ∉ l -> nodes w' !! q = nodes w !! q)
            /\ (forall q, nodes w' !! q = nodes w !! q \/ nodes w' !! q = None)
            /\ (forall p, p ∈ l -> reclaimed p w w').
Proof.
  unfold cleanup_files. case_bool_decide as Hd.
  - unfold bind, time_time, spawn, modify. eexists. split; [reflexivity|].
    simpl. split_and!; done.
  - destruct (do_cleanup_spec l w) as (w' & Hrun & Hev & Hn & Hmono & Hall).
    exists w'. destruct Hev as (Ht & Hth & Hden & _ & Hq & _ & Hlog).
    split_and!; try done.
Qed.

(** A second run finds nothing left to do: where every listed path is
    absent, refused or a directory, [do_cleanup] leaves the file system
    as it is. *)
Lemma do_cleanup_stuck l : forall w,
  (forall p, p ∈ l ->
     nodes w !! p = None \/ p ∈ unlink_denied w \/ nodes w !! p = Some Dir) ->
  nodes (snd (do_cleanup l w)) = nodes w.
Proof.
  induction l as [|x r IH]; intros w Hl; [reflexivity|].
  unfold do_cleanup in *. cbn [for_each]. unfold bind at 1.
  rewrite do_cleanup_one.
  assert (Hx : nodes w !! x = None \/ x ∈ unlink_denied w
               \/ nodes w !! x = Some Dir) by (apply Hl; by left).
  assert (Hr : forall p, p ∈ r ->
             nodes w !! p = None \/ p ∈ unlink_denied w
             \/ nodes w !! p = Some Dir) by (intros p Hp; apply Hl; by right).
  destruct (nodes w !! x) as [[t d|]|] eqn:Hn.
  - destruct Hx as [Hx|[Hx|Hx]]; [done| |done].
    rewrite bool_decide_eq_true_2 by done.
    rewrite IH; [done|]. simpl. exact Hr.
  - rewrite IH; [done|]. simpl. exact Hr.
  - by rewrite IH.
Qed.

Lemma do_cleanup_idempotent l w :
  nodes (snd (do_cleanup l (snd (do_cleanup l w))))
  = nodes (snd (do_cleanup l w)).
Proof.
  destruct (do_cleanup_spec l w) as (w' & Hrun & Hev & _ & _ & Hall).
  rewrite Hrun. simpl. apply do_cleanup_stuck. intros p Hp.
  destruct Hev as (_ & _ & Hden & _).
  destruct (Hall p Hp) as [Hg|(Hs & [Hd|Hd] & _)].
  - by left.
  - right. left. by rewrite Hden.
  - right. right. by rewrite Hs.
Qed.

(** ** Paths are never empty *)

Lemma append_nonempty_r (a b : string) : b <> "" -> a +:+ b <> "".
Proof. destruct a; simpl; [done|discriminate]. Qed.

Lemma append_nonempty_l (a b : string) : a <> "" -> a +:+ b <> "".
Proof. destruct a; simpl; [done|discriminate]. Qed.

Lemma join_nonempty_r a b : b <> "" -> Path.join a b <> "".
Proof.
  intros Hb. unfold Path.join.
  destruct (Path.starts_with_slash b); [done|].
  destruct (_ || _).
  - by apply append_nonempty_r.
  - apply append_nonempty_r. discriminate.
Qed.

Lemma join_nonempty_l a b : a <> "" -> Path.join a b <> "".
Proof.
  intros Ha. unfold Path.join.
  destruct (Path.starts_with_slash b) eqn:Hs.
  - destruct b; [discriminate|discriminate].
  - destruct (_ || _); by apply append_nonempty_l.
Qed.

Lemma truthy_nonempty s : truthy s = true <-> s <> "".
Proof.
  unfold truthy. case_bool_decide; simpl; split; done.
Qed.

Lemma choose_filename_nonempty url ft hex t :
  choose_filename url ft hex t <> "".
Proof.
  unfold choose_filename.
  destruct (truthy (Path.basename (urlparse_path url))) eqn:Ht; simpl.
  - destruct (Path.has_char _ _); simpl.
    + by apply truthy_nonempty.
    + apply append_nonempty_r. discriminate.
  - apply append_nonempty_r. discriminate.
Qed.

Lemma local_path_nonempty url ft hex t : local_path_of url ft hex t <> "".
Proof. apply join_nonempty_r, choose_filename_nonempty. Qed.

Lemma output_path_nonempty result_filename :
  output_path_of result_filename <> "".
Proof. apply join_nonempty_l, join_nonempty_r. discriminate. Qed.

(** ** Submission: [submit_task] *)

Lemma cleanup_files_now l : cleanup_files l 0 = do_cleanup l.
Proof. unfold cleanup_files. by rewrite bool_decide_eq_false_2 by lia. Qed.

(** The [except] block of [submit_task]: it reclaims the staged paths at
    once, pops the record of the job id if there is one, and raises the
    submission error (status 500) carrying the cause. *)
Lemma submit_failed_spec al vl tc e w :
  exists w',
    submit_failed al vl tc e w = (Raise (HTTPException 500 e), w')
    /\ threads w' = threads w /\ now w' = now w
    /\ unlink_denied w' = unlink_denied w
    /\ task_files w' =
         match tc with
         | Some c => if truthy c then delete c (task_files w) else task_files w
         | None => task_files w
         end
    /\ (forall q, q ∉ truthy_paths [al; vl] -> nodes w' !! q = nodes w !! q)
    /\ (forall q, nodes w' !! q = nodes w !! q \/ nodes w' !! q = None)
    /\ (forall p, p ∈ truthy_paths [al; vl] -> reclaimed p w w').
Proof.
  unfold submit_failed.
  set (l := truthy_paths [al; vl]).
  assert (Hclean : (match l with [] => ret tt | _ => cleanup_files l 0 end)
                   = do_cleanup l).
  { destruct l; [reflexivity|apply cleanup_files_now]. }
  rewrite Hclean.
  destruct (do_cleanup_spec l w) as (w1 & Hrun & Hev & Hn & Hmono & Hall).
  destruct Hev as (Ht & Hth & Hden & _ & Hq & _ & Hlog).
  unfold bind at 1. rewrite Hrun.
  assert (Hrec : forall w2, nodes w2 = nodes w1 ->
             (forall r, r ∈ log w1 -> r ∈ log w2) ->
             forall p, p ∈ l -> reclaimed p w w2).
  { intros w2 Hn2 Hl2 p Hp.
    destruct (Hall p Hp) as [Hg|(Hs & Hwhy & x & Hx)]; [left|right].
    - by rewrite Hn2.
    - rewrite Hn2. split_and!; eauto. }
  destruct tc as [c|]; [destruct (truthy c)|];
    unfold bind, pop_task, logger, modify, raise, ret; simpl;
    eexists; (split; [reflexivity|]); simpl;
    (split_and!; try done; try congruence);
    apply Hrec; simpl; try done; intros r Hr; right; done.
Qed.

(** Steps 2 and 3: either the record is stored under the job id, or the
    call raises and the state is the one before but for the log. *)
Lemma submit_to_engine_spec al vl tc secs r w :
  match submit_to_engine al vl tc secs r w with
  | (Ok c, w') =>
      c = tc
      /\ task_files w'
         = <[tc := TaskInfo al vl (now w + Z.of_nat secs) None None]>
             (task_files w)
      /\ nodes w' = nodes w /\ threads w' = threads w
      /\ unlink_denied w' = unlink_denied w
      /\ now w' = now w + Z.of_nat secs
  | (Raise e, w') =>
      task_files w' = task_files w
      /\ nodes w' = nodes w /\ threads w' = threads w
      /\ unlink_denied w' = unlink_denied w
      /\ now w' = now w + Z.of_nat secs
      /\ (forall x, x ∈ log w -> x ∈ log w')
  end.
Proof.
  unfold submit_to_engine, bind at 1, logger at 1, modify.
  unfold bind at 1, requests_post. unfold bind at 1, modify.
  destruct r as [|status_code text json]; simpl.
  - split_and!; try done. intros x Hx. by right.
  - unfold bind at 1. case_bool_decide; simpl.
    + split_and!; try done. intros x Hx. by right.
    + unfold bind at 1, response_json. destruct json as [code|]; simpl.
      * unfold bind at 1. case_bool_decide; simpl.
        -- split_and!; try done. intros x Hx. by right.
        -- split_and!; done.
      * split_and!; try done. intros x Hx. by right.
Qed.

Lemma logger_then {A} l m (k : M A) w :
  (logger l m ;;; k) w = k (add_log (l, m) w).
Proof. reflexivity. Qed.

(** The paths [submit_task] hands to its [except] block are the staged
    ones: each is a non-empty string, was a regular file when its
    download returned, and is not a directory when the block runs. *)
Lemma submit_task_failure au vu env w e w' :
  submit_task au vu env w = (Raise e, w') ->
  exists cause w2,
    e = HTTPException 500 cause
    /\ (task_files w' = task_files w
        \/ task_files w' = delete (uuid4 env) (task_files w))
    /\ threads w' = threads w
    /\ unlink_denied w2 = unlink_denied w
    /\ forall p, p ∈ staged_inputs au vu env w ->
         nodes w2 !! p <> Some Dir /\ reclaimed p w2 w'.
Proof.
  unfold submit_task, staged_inputs, catch_then.
  rewrite !logger_then.
  set (wl := add_log (INFO, MsgSubmitDownloading) w).
  pose proof (download_file_outcome au "audio" (audio_hex env)
                (audio_fetch env) wl) as Houta.
  pose proof (download_file_frame au "audio" (audio_hex env)
                (audio_fetch env) wl) as Hfra.
  pose proof (local_path_nonempty au "audio" (audio_hex env) (now wl))
    as Hnea.
  destruct (download_file au "audio" (audio_hex env) (audio_fetch env) wl)
    as [[[ac al]|e1] w1]; simpl in *.
  - destruct Houta as [[= -> ->] (ta & da & Hal)].
    set (al := local_path_of au "audio" (audio_hex env) (now w)) in *.
    pose proof (download_file_outcome vu "video" (video_hex env)
                  (video_fetch env) w1) as Houtv.
    pose proof (download_file_frame vu "video" (video_hex env)
                  (video_fetch env) w1) as Hfrv.
    pose proof (local_path_nonempty vu "video" (video_hex env) (now w1))
      as Hnev.
    destruct Hfra as (Hta & Htha & Hda & _ & _ & _ & _).
    subst wl. simpl in Hta, Htha, Hda.
    destruct (download_file vu "video" (video_hex env) (video_fetch env) w1)
      as [[[vc vl]|e2] w2]; simpl in *.
    + destruct Houtv as [[= -> ->] (tv & dv & Hvl)].
      set (vl := local_path_of vu "video" (video_hex env) (now w1)) in *.
      destruct Hfrv as (Htv & Hthv & Hdv & _ & _ & Hdirv & _).
      pose proof (submit_to_engine_spec al vl (uuid4 env) (post_elapsed env)
                    (post env) w2)
        as Heng.
      destruct (submit_to_engine al vl (uuid4 env) (post_elapsed env)
                  (post env) w2)
        as [[c|e3] w3]; [intros Hok; inversion Hok|].
      destruct Heng as (Ht3 & Hn3 & Hth3 & Hd3 & _ & _).
      destruct (submit_failed_spec (Some al) (Some vl) (Some (uuid4 env))
                  e3 w3)
        as (w4 & Hrun & Hth4 & _ & Hd4 & Ht4 & _ & _ & Hrec).
      rewrite Hrun. intros [= <- <-].
      exists e3, w3. split; [reflexivity|]. split_and!.
      * rewrite Ht4. destruct (truthy (uuid4 env)).
        -- right. congruence.
        -- left. congruence.
      * congruence.
      * congruence.
      * intros p Hp. split.
        -- rewrite Hn3. intros Hdir.
           apply elem_of_cons in Hp as [->|Hp].
           ++ apply Hdirv in Hdir. congruence.
           ++ apply list_elem_of_singleton in Hp as ->. congruence.
        -- apply Hrec. unfold truthy_paths. simpl.
           assert (Hta' : truthy al = true) by by apply truthy_nonempty.
           assert (Htv' : truthy vl = true) by by apply truthy_nonempty.
           rewrite Hta', Htv'. simpl. exact Hp.
    + destruct Houtv as (cause & -> & _).
      destruct Hfrv as (Htv & Hthv & Hdv & _ & _ & Hdirv & _).
      destruct (submit_failed_spec (Some al) None None
                  (HTTPException 400 cause) w2)
        as (w4 & Hrun & Hth4 & _ & Hd4 & Ht4 & _ & _ & Hrec).
      rewrite Hrun. intros [= <- <-].
      exists (HTTPException 400 cause), w2. split; [reflexivity|]. split_and!.
      * left. congruence.
      * congruence.
      * congruence.
      * intros p Hp. apply list_elem_of_singleton in Hp as ->. split.
        -- intros Hdir. apply Hdirv in Hdir. congruence.
        -- apply Hrec. unfold truthy_paths. simpl.
           assert (Hta' : truthy al = true) by by apply truthy_nonempty.
           rewrite Hta'. simpl. by left.
  - destruct Houta as (cause & -> & _).
    destruct Hfra as (Hta & Htha & Hda & _ & _ & _ & _).
    subst wl. simpl in Hta, Htha, Hda.
    destruct (submit_failed_spec None None None (HTTPException 400 cause) w1)
      as (w4 & Hrun & Hth4 & _ & Hd4 & Ht4 & _ & _ & Hrec).
    rewrite Hrun. intros [= <- <-].
    exists (HTTPException 400 cause), w1. split; [reflexivity|]. split_and!.
    + left. congruence.
    + congruence.
    + congruence.
    + intros p Hp. inversion Hp.
Qed.

(** ** Result fetch: [get_result] *)

(** The locked block: it never raises, and only the table (when the job
    is known) or the log (when it is not) changes. *)
Lemma attach_result_spec tc op w :
  exists w',
    attach_result tc op w
    = (Ok (op :: match task_files w !! tc with
                 | Some i =>
                     (if truthy (audio_local i) then [audio_local i] else [])
                       ++ (if truthy (video_local i)
                           then [video_local i] else [])
                 | None => []
                 end), w')
    /\ nodes w' = nodes w /\ threads w' = threads w /\ now w' = now w
    /\ unlink_denied w' = unlink_denied w
    /\ (forall r, r ∈ log w -> r ∈ log w')
    /\ match task_files w !! tc with
       | Some i =>
           task_files w' = <[tc := with_result i op (now w)]> (task_files w)
       | None =>
           task_files w' = task_files w
           /\ (WARNING, MsgNoMapping tc) ∈ log w'
       end.
Proof.
  unfold attach_result, bind at 1, get_world.
  destruct (task_files w !! tc) as [i|] eqn:Htc.
  - unfold bind, time_time, modify, ret. eexists. split; [reflexivity|].
    simpl. split_and!; done.
  - unfold bind, logger, modify, ret. eexists. split; [reflexivity|].
    simpl. split_and!; try done.
    + intros r Hr. by right.
    + by left.
Qed.

(** The choice of the paths to reclaim, for any job id argument. *)
Lemma files_to_cleanup_spec fn tco w :
  exists w',
    (match tco with
     | Some tc =>
         if truthy tc then attach_result tc (output_path_of fn)
         else ret [output_path_of fn]
     | None => ret [output_path_of fn]
     end) w
    = (Ok (files_to_cleanup_of fn (known_job tco (task_files w))), w')
    /\ nodes w' = nodes w /\ threads w' = threads w /\ now w' = now w
    /\ unlink_denied w' = unlink_denied w
    /\ (forall r, r ∈ log w -> r ∈ log w')
    /\ match known_job tco (task_files w) with
       | Some (tc, i) =>
           task_files w'
           = <[tc := with_result i (output_path_of fn) (now w)]> (task_files w)
       | None =>
           task_files w' = task_files w
           /\ forall tc, tco = Some tc -> truthy tc = true ->
                         (WARNING, MsgNoMapping tc) ∈ log w'
       end.
Proof.
  unfold known_job, files_to_cleanup_of.
  destruct tco as [tc|]; [destruct (truthy tc) eqn:Htc|].
  - destruct (attach_result_spec tc (output_path_of fn) w)
      as (w' & Hrun & Hn & Hth & Hnow & Hd & Hlog & Htf).
    exists w'. rewrite Hrun.
    destruct (task_files w !! tc) as [i|]; simpl.
    + split_and!; done.
    + split_and!; try done; try apply Htf.
      intros tc' [= <-] _. apply Htf.
  - exists w. split_and!; try done. intros tc' [= <-]. congruence.
  - exists w. split_and!; done.
Qed.

(** The last step of [get_result] starts the thread that will pop the
    record, when a truthy job id was given. *)
Lemma schedule_spec tco w :
  exists w',
    (match tco with
     | Some tc => if truthy tc then _schedule_task_cleanup tc else ret tt
     | None => ret tt
     end) w = (Ok tt, w')
    /\ nodes w' = nodes w /\ now w' = now w /\ task_files w' = task_files w
    /\ unlink_denied w' = unlink_denied w /\ log w' = log w
    /\ threads w' = threads w ++ mapping_cleanup tco (now w).
Proof.
  unfold mapping_cleanup.
  destruct tco as [tc|]; [destruct (truthy tc)|].
  - unfold _schedule_task_cleanup, bind, time_time, spawn, modify.
    eexists. split; [reflexivity|]. simpl. split_and!; done.
  - exists w. rewrite app_nil_r. split_and!; done.
  - exists w. rewrite app_nil_r. split_and!; done.
Qed.

(** [get_result], case by case on what lies at the result path. *)
Lemma get_result_spec fn tco w :
  match nodes w !! output_path_of fn with
  | Some (File t d) =>
      exists w',
        get_result fn tco w = (Ok (d, length d), w')
        /\ now w' = now w /\ unlink_denied w' = unlink_denied w
        /\ (forall r, r ∈ log w -> r ∈ log w')
        /\ match known_job tco (task_files w) with
           | Some (tc, i) =>
               task_files w'
               = <[tc := with_result i (output_path_of fn) (now w)]>
                   (task_files w)
           | None =>
               task_files w' = task_files w
               /\ forall tc, tco = Some tc -> truthy tc = true ->
                             (WARNING, MsgNoMapping tc) ∈ log w'
           end
        /\ let files :=
             files_to_cleanup_of fn (known_job tco (task_files w)) in
           if bool_decide (CLEANUP_DELAY > 0)
           then nodes w' = nodes w
                /\ threads w'
                   = threads w ++ DoCleanup (now w + CLEANUP_DELAY) files
                                 :: mapping_cleanup tco (now w)
           else threads w' = threads w ++ mapping_cleanup tco (now w)
                /\ (forall q, q ∉ files -> nodes w' !! q = nodes w !! q)
                /\ (forall q, nodes w' !! q = nodes w !! q
                              \/ nodes w' !! q = None)
                /\ (forall p, p ∈ files -> reclaimed p w w')
  | _ =>
      exists e w',
        get_result fn tco w = (Raise (HTTPException 500 e), w')
        /\ task_files w' = task_files w /\ nodes w' = nodes w
        /\ threads w' = threads w
  end.
Proof.
  unfold get_result, try_except. cbv zeta.
  change (Path.join (Path.join DUIX_DATA_DIR "temp") fn)
    with (output_path_of fn).
  set (op := output_path_of fn).
  destruct (nodes w !! op) as [[t d|]|] eqn:Hop;
    rewrite logger_then; unfold bind at 1, os_path_exists; simpl;
    rewrite Hop.
  - rewrite bool_decide_eq_true_2 by eauto.
    unfold bind at 1, ret at 1. unfold bind at 1, read_rb. simpl.
    rewrite Hop. rewrite logger_then.
    set (w1 := add_log _ (add_log _ w)).
    destruct (files_to_cleanup_spec fn tco w1)
      as (w2 & Hrun2 & Hn2 & Hth2 & Hnow2 & Hd2 & Hlog2 & Htf2).
    fold op in Hrun2.
    unfold bind at 1. rewrite Hrun2.
    set (files := files_to_cleanup_of fn (known_job tco (task_files w1))) in *.
    destruct (cleanup_files_spec files CLEANUP_DELAY w2)
      as (w3 & Hrun3 & Htf3 & Hnow3 & Hd3 & Hlog3 & Hcl3).
    unfold bind at 1. rewrite Hrun3.
    destruct (schedule_spec tco w3)
      as (w4 & Hrun4 & Hn4 & Hnow4 & Htf4 & Hd4 & Hlog4 & Hth4).
    unfold bind at 1. rewrite Hrun4. unfold ret.
    exists w4. split; [reflexivity|].
    subst w1. simpl in *.
    split; [congruence|]. split; [congruence|].
    assert (Hlog : forall r, r ∈ log w -> r ∈ log w4).
    { intros r Hr. rewrite Hlog4. apply Hlog3, Hlog2. right. by right. }
    split; [exact Hlog|]. split.
    + destruct (known_job tco (task_files w)) as [[tc i]|].
      * by rewrite Htf4, Htf3, Htf2.
      * destruct Htf2 as [Htf2 Hwarn]. split; [congruence|].
        intros tc Htc Htr. rewrite Hlog4. apply Hlog3. eauto.
    + case_bool_decide as Hdelay.
      * destruct Hcl3 as [Hn3 Hth3]. split; [congruence|].
        rewrite Hth4, Hth3, Hth2, Hnow3, Hnow2. simpl.
        by rewrite <- app_assoc.
      * destruct Hcl3 as (Hth3 & Hfr3 & Hmono3 & Hrec3).
        split; [rewrite Hth4, Hth3, Hth2, Hnow3, Hnow2; done|].
        split; [intros q Hq; rewrite Hn4, <- Hn2; by apply Hfr3|].
        split; [intros q; rewrite Hn4, <- Hn2; apply Hmono3|].
        intros p Hp. specialize (Hrec3 p Hp). unfold reclaimed in *.
        rewrite Hn4, Hlog4, <- Hn2, <- Hd2. exact Hrec3.
  - rewrite bool_decide_eq_true_2 by eauto.
    unfold bind at 1, ret at 1. unfold bind at 1, read_rb. simpl.
    rewrite Hop. unfold bind, logger, modify, raise. simpl.
    eexists _, _. split; [reflexivity|]. simpl. done.
  - rewrite bool_decide_eq_false_2 by (intros [? ?]; congruence).
    unfold bind, logger, modify, raise. simpl.
    eexists _, _. split; [reflexivity|]. simpl. done.
Qed.

(** ** How the table changes *)

Lemma references_cases i p :
  references i p <->
  p = audio_local i \/ p = video_local i \/ result_file i = Some p.
Proof.
  unfold references, path_keys. rewrite !elem_of_cons. split.
  - intros [[= ->]|[[= ->]|[H|H]]]; auto. inversion H.
  - intros [->|[->|H]]; auto.
Qed.

(** A submission that returns has stored one record, under the job id,
    with the two staged paths. *)
Lemma submit_task_success au vu env w c w' :
  submit_task au vu env w = (Ok c, w') ->
  c = uuid4 env
  /\ exists t1 t2 t3,
       task_files w'
       = <[uuid4 env :=
             TaskInfo (local_path_of au "audio" (audio_hex env) t1)
                      (local_path_of vu "video" (video_hex env) t2)
                      t3 None None]> (task_files w).
Proof.
  unfold submit_task, catch_then. rewrite logger_then.
  set (wl := add_log (INFO, MsgSubmitDownloading) w).
  pose proof (download_file_outcome au "audio" (audio_hex env)
                (audio_fetch env) wl) as Houta.
  pose proof (download_file_frame au "audio" (audio_hex env)
                (audio_fetch env) wl) as Hfra.
  destruct (download_file au "audio" (audio_hex env) (audio_fetch env) wl)
    as [[[ac al]|e1] w1]; simpl in *.
  - destruct Houta as [[= -> ->] _].
    destruct Hfra as (Hta & _). subst wl. simpl in Hta.
    pose proof (download_file_outcome vu "video" (video_hex env)
                  (video_fetch env) w1) as Houtv.
    pose proof (download_file_frame vu "video" (video_hex env)
                  (video_fetch env) w1) as Hfrv.
    destruct (download_file vu "video" (video_hex env) (video_fetch env) w1)
      as [[[vc vl]|e2] w2]; simpl in *.
    + destruct Houtv as [[= -> ->] _]. destruct Hfrv as (Htv & _).
      match goal with
      | |- context [submit_to_engine ?a ?v ?c ?n ?r ?w0] =>
          pose proof (submit_to_engine_spec a v c n r w0) as Heng;
          destruct (submit_to_engine a v c n r w0) as [[c'|e3] w3]
      end.
      * destruct Heng as (-> & Ht3 & _). intros [= <- <-].
        split; [done|]. eexists _, _, _. rewrite Ht3, Htv, Hta. done.
      * destruct (submit_failed_spec
                    (Some (local_path_of au "audio" (audio_hex env) (now w)))
                    (Some (local_path_of vu "video" (video_hex env) (now w1)))
                    (Some (uuid4 env)) e3 w3) as (w4 & Hrun & _).
        rewrite Hrun. discriminate.
    + destruct (submit_failed_spec
                  (Some (local_path_of au "audio" (audio_hex env) (now w)))
                  None None e2 w2) as (w4 & Hrun & _).
      rewrite Hrun. discriminate.
  - destruct (submit_failed_spec None None None e1 w1) as (w4 & Hrun & _).
    rewrite Hrun. discriminate.
Qed.

Lemma table_change_refl tf : table_change tf tf.
Proof. left. auto. Qed.

Lemma table_change_delete tf c : table_change tf (delete c tf).
Proof.
  left. intros c' i Hc. apply lookup_delete_Some in Hc as [_ Hc]. done.
Qed.

Lemma submit_task_table au vu env w :
  table_change (task_files w) (task_files (snd (submit_task au vu env w))).
Proof.
  destruct (submit_task au vu env w) as [[c|e] w'] eqn:Hrun; simpl.
  - apply submit_task_success in Hrun as (_ & t1 & t2 & t3 & ->).
    right. eexists _, _. split; [reflexivity|].
    intros p Hp. left. apply references_cases in Hp. simpl in Hp.
    destruct Hp as [->|[->|Hp]]; [apply local_path_nonempty..|done].
  - apply submit_task_failure in Hrun
      as (cause & w2 & _ & [-> | ->] & _).
    + apply table_change_refl.
    + apply table_change_delete.
Qed.

Lemma get_result_table fn tco w :
  table_change (task_files w) (task_files (snd (get_result fn tco w))).
Proof.
  pose proof (get_result_spec fn tco w) as Hspec.
  destruct (nodes w !! output_path_of fn) as [[t d|]|].
  - destruct Hspec as (w' & -> & _ & _ & _ & Htf & _). simpl.
    unfold known_job in Htf.
    destruct tco as [tc|]; [destruct (truthy tc)|];
      [destruct (task_files w !! tc) as [i|] eqn:Hi|..].
    + right. eexists _, _. split; [exact Htf|].
      intros p Hp. apply references_cases in Hp. simpl in Hp.
      destruct Hp as [->|[->|[= <-]]].
      * right. exists i. split; [done|]. apply references_cases. auto.
      * right. exists i. split; [done|]. apply references_cases. auto.
      * left. apply output_path_nonempty.
    + destruct Htf as [Htf _]. rewrite Htf. apply table_change_refl.
    + destruct Htf as [Htf _]. rewrite Htf. apply table_change_refl.
    + destruct Htf as [Htf _]. rewrite Htf. apply table_change_refl.
  - destruct Hspec as (e & w' & -> & Htf & _). simpl. rewrite Htf.
    apply table_change_refl.
  - destruct Hspec as (e & w' & -> & Htf & _). simpl. rewrite Htf.
    apply table_change_refl.
Qed.

Lemma periodic_cleanup_table w :
  forall c i,
    task_files (snd (periodic_cleanup w)) !! c = Some i ->
    task_files w !! c = Some i.
Proof.
  intros c i.
  destruct (nodes w !! DUIX_DATA_DIR) as [n|] eqn:Hd;
    [destruct n as [t d|]|].
  - destruct (periodic_cleanup_no_dir w) as [e ->]; [congruence|]. done.
  - destruct (periodic_cleanup_pass w Hd)
      as (st & w' & -> & _ & _ & _ & _ & Htf).
    simpl. rewrite Htf. destruct (task_files w !! c) as [i0|]; [|done].
    case_bool_decide; done.
  - destruct (periodic_cleanup_no_dir w) as [e ->]; [congruence|]. done.
Qed.

Lemma run_thread_table th w :
  table_change (task_files w) (task_files (snd (run_thread th w))).
Proof.
  destruct th as [wake l|wake tc]; simpl.
  - destruct (do_cleanup_spec l w) as (w' & -> & (Htf & _) & _).
    simpl. rewrite Htf. apply table_change_refl.
  - apply table_change_delete.
Qed.

Lemma step_table w w' :
  step w w' -> table_change (task_files w) (task_files w').
Proof.
  intros Hstep. destruct Hstep.
  - apply submit_task_table.
  - apply get_result_table.
  - left. apply periodic_cleanup_table.
  - apply (run_thread_table th (set_threads (before ++ after) w)).
  - apply table_change_refl.
  - apply table_change_refl.
Qed.

Lemma paths_nonempty_change tf tf' :
  table_change tf tf' -> paths_nonempty tf -> paths_nonempty tf'.
Proof.
  intros [Hsub|(c & i & -> & Hnew)] Hne c' i' p Hc Hp.
  - eapply Hne; eauto.
  - destruct (decide (c = c')) as [->|Hcc].
    + rewrite lookup_insert_eq in Hc. injection Hc as <-.
      destruct (Hnew p Hp) as [|(i0 & Hi0 & Hp0)]; [done|]. eapply Hne; eauto.
    + rewrite lookup_insert_ne in Hc by done. eapply Hne; eauto.
Qed.

(** In every reachable state the records hold non-empty paths only. *)
Lemma reachable_paths_nonempty w :
  reachable w -> paths_nonempty (task_files w).
Proof.
  induction 1 as [w0|w w' Hr IH Hstep].
  - intros c i p Hc. simpl in Hc. by rewrite lookup_empty in Hc.
  - eapply paths_nonempty_change; [|exact IH]. by apply step_table.
Qed.

(** ** The counters of a pass *)

Lemma filter_ext_in {A} (P Q : A -> Prop)
    `{forall x, Decision (P x)} `{forall x, Decision (Q x)} (l : list A) :
  (forall x, x ∈ l -> P x <-> Q x) -> filter P l = filter Q l.
Proof.
  induction l as [|x r IH]; intros Hpq; [reflexivity|].
  rewrite !filter_cons.
  assert (Hx : P x <-> Q x) by (apply Hpq; by left).
  rewrite IH by (intros y Hy; apply Hpq; by right).
  destruct (decide (P x)) as [HP|HP], (decide (Q x)) as [HQ|HQ];
    [done| | |done].
  - exfalso. apply HQ, Hx, HP.
  - exfalso. apply HP, Hx, HQ.
Qed.

Lemma is_orphan_ext ct active fs1 fs2 p :
  fs1 !! p = fs2 !! p -> is_orphan ct active fs1 p = is_orphan ct active fs2 p.
Proof. intros Hp. unfold is_orphan. by rewrite (classify_ext _ _ _ _ _ Hp). Qed.

Lemma is_old_ext ct active fs1 fs2 p :
  fs1 !! p = fs2 !! p -> is_old ct active fs1 p = is_old ct active fs2 p.
Proof. intros Hp. unfold is_old. by rewrite (classify_ext _ _ _ _ _ Hp). Qed.

(** Over a listing without repetition the loop counts each path once,
    under the verdict it has in the state the pass started from. *)
Lemma sweep_files_counts ct active l : forall st w st' w',
  NoDup l ->
  sweep_files ct active st l w = (Ok st', w') ->
  orphan_files st'
  = (orphan_files st
     + length (filter (fun p => is_orphan ct active (nodes w) p = true) l))%nat
  /\ old_files st'
     = (old_files st
        + length (filter (fun p => is_old ct active (nodes w) p = true) l))%nat
  /\ expired_tasks st' = expired_tasks st.
Proof.
  induction l as [|p r IH]; intros st w st' w' Hnd.
  - simpl. intros [= <- <-]. split_and!; lia.
  - apply NoDup_cons in Hnd as [Hp Hnd].
    cbn [sweep_files]. unfold bind at 1. rewrite sweep_file_eq.
    rewrite !filter_cons.
    assert (Hsame : forall w1,
      (forall q, q <> p -> nodes w1 !! q = nodes w !! q) ->
      filter (fun q => is_orphan ct active (nodes w1) q = true) r
      = filter (fun q => is_orphan ct active (nodes w) q = true) r
      /\ filter (fun q => is_old ct active (nodes w1) q = true) r
         = filter (fun q => is_old ct active (nodes w) q = true) r).
    { intros w1 Hfr. split; apply filter_ext_in; intros q Hq.
      - rewrite (is_orphan_ext ct active (nodes w1) (nodes w)); [done|].
        apply Hfr. intros ->. done.
      - rewrite (is_old_ext ct active (nodes w1) (nodes w)); [done|].
        apply Hfr. intros ->. done. }
    destruct (classify ct active (nodes w) p) eqn:Hc; intros Hrun.
    + apply (IH _ _ _ _ Hnd) in Hrun as (Ho & Hl & He).
      rewrite Ho, Hl, He.
      rewrite !decide_False by (unfold is_orphan, is_old; by rewrite Hc).
      done.
    + apply (IH _ _ _ _ Hnd) in Hrun as (Ho & Hl & He).
      destruct (unlink_attempt_frame p w) as (_ & _ & _ & _ & Hfr & _).
      destruct (Hsame _ Hfr) as [Hso Hsl]. rewrite Hso, Hsl in *.
      rewrite Ho, Hl, He.
      rewrite decide_True by (unfold is_orphan; by rewrite Hc).
      rewrite decide_False by (unfold is_old; by rewrite Hc).
      simpl. split_and!; lia.
    + apply (IH _ _ _ _ Hnd) in Hrun as (Ho & Hl & He).
      destruct (unlink_attempt_frame p w) as (_ & _ & _ & _ & Hfr & _).
      destruct (Hsame _ Hfr) as [Hso Hsl]. rewrite Hso, Hsl in *.
      rewrite Ho, Hl, He.
      rewrite decide_False by (unfold is_orphan; by rewrite Hc).
      rewrite decide_True by (unfold is_old; by rewrite Hc).
      simpl. split_and!; lia.
Qed.

(** The counters a completed pass ends with. *)
Lemma periodic_cleanup_stats w :
  nodes w !! DUIX_DATA_DIR = Some Dir ->
  let active := active_file_set (task_files w) in
  fst (periodic_cleanup w)
  = Ok (Some (Stats
        (length (filter (fun p => is_orphan (now w) active (nodes w) p = true)
                        (top_level (nodes w))))
        (length (filter (fun p => is_old (now w) active (nodes w) p = true)
                        (top_level (nodes w))))
        (length (expired_codes (now w) (task_files w))))).
Proof.
  intros Hdir active.
  unfold periodic_cleanup, bind at 1, time_time, try_except.
  unfold bind at 1, get_world. unfold bind at 1, iterdir. rewrite Hdir.
  fold (top_level (nodes w)). fold active.
  destruct (sweep_files_spec (now w) active (top_level (nodes w))
              (Stats 0 0 0) w)
    as (st1 & w1 & Hrun & Hn1 & Ht1 & Hd1 & Hth1 & Hq1).
  unfold bind at 1. rewrite Hrun.
  apply sweep_files_counts in Hrun as (Ho & Hl & He);
    [|apply NoDup_top_level].
  destruct (expire_tasks_spec (now w) st1 w1)
    as (w2 & Hex & _).
  unfold bind at 1. rewrite Hex.
  unfold bind, logger, modify, ret. simpl in *.
  rewrite Ho, Hl, He, Ht1.
  case_bool_decide; reflexivity.
Qed.

(** * The claims about the sweep *)

Lemma classify_active ct active fs p t d :
  fs !! p = Some (File t d) -> p ∈ active ->
  classify ct active fs p
  = if bool_decide (ct - t > MAX_FILE_AGE) then Old else Keep.
Proof.
  intros Hp Ha. unfold classify. rewrite Hp.
  by rewrite bool_decide_eq_true_2.
Qed.

Lemma classify_inactive ct active fs p t d :
  fs !! p = Some (File t d) -> p ∉ active ->
  classify ct active fs p
  = if bool_decide (ct - t > CLEANUP_DELAY) then Orphan else Keep.
Proof.
  intros Hp Ha. unfold classify. rewrite Hp.
  by rewrite bool_decide_eq_false_2.
Qed.

(** The sweep keeps an active file that is not too old. *)
Lemma sweep_keeps_young_active_file w p t d :
  nodes w !! p = Some (File t d) ->
  p ∈ active_file_set (task_files w) ->
  now w - t <= MAX_FILE_AGE ->
  nodes (snd (periodic_cleanup w)) !! p = Some (File t d).
Proof.
  intros Hp Ha Hage.
  destruct (periodic_cleanup_total w)
    as (r & w' & Hrun & _ & _ & _ & Hq).
  rewrite Hrun. simpl.
  destruct (Hq p) as [Hsame|(_ & _ & _ & Hc & _)]; [congruence|].
  exfalso. apply Hc. rewrite (classify_active _ _ _ _ t d Hp Ha).
  by rewrite bool_decide_eq_false_2 by lia.
Qed.

(** C1: a file whose path is in the active file set snapshot of a sweep
    pass is not deleted by that pass unless its age (pass start time
    minus last-modified time) exceeds MAX_FILE_AGE; a file of the storage
    directory that is absent from the snapshot is deleted once its age
    exceeds the grace threshold CLEANUP_DELAY, however old it is (the
    unlink being permitted). *)
Theorem active_file_kept_unless_too_old w p t d :
  nodes w !! p = Some (File t d) ->
  let active := active_file_set (task_files w) in
  let w' := snd (periodic_cleanup w) in
  (p ∈ active -> now w - t <= MAX_FILE_AGE ->
   nodes w' !! p = Some (File t d))
  /\ (p ∉ active ->
      nodes w !! DUIX_DATA_DIR = Some Dir ->
      Path.is_child DUIX_DATA_DIR p = true ->
      now w - t > CLEANUP_DELAY ->
      p ∉ unlink_denied w ->
      nodes w' !! p = None).
Proof.
  intros Hp active w'. subst w'. split.
  - intros Ha Hage. by apply sweep_keeps_young_active_file.
  - intros Ha Hdir Hchild Hage Hden.
    destruct (periodic_cleanup_pass w Hdir)
      as (st & w' & Hrun & _ & _ & _ & Hq & _).
    rewrite Hrun. simpl. rewrite Hq.
    rewrite decide_True; [done|]. split_and!; [|
      rewrite (classify_inactive _ _ _ _ t d Hp Ha);
      by rewrite bool_decide_eq_true_2 |done].
    apply elem_of_top_level. split; [done|]. rewrite Hp. eauto.
Qed.

(** C3: for a regular file directly under the storage directory that is
    not in the active file set, a sweep pass completes and
    - leaves the file as it is when its age is at most CLEANUP_DELAY,
    - counts it as an orphan exactly when its age exceeds CLEANUP_DELAY,
      the orphan counter of the pass being the number of such files,
    - and then removes it, or, when the unlink is refused, logs the
      failure and goes on;
    so the file is gone after the pass only if its age exceeded the
    threshold. *)
Theorem orphan_swept_iff_past_grace w p t d :
  nodes w !! DUIX_DATA_DIR = Some Dir ->
  Path.is_child DUIX_DATA_DIR p = true ->
  nodes w !! p = Some (File t d) ->
  p ∉ active_file_set (task_files w) ->
  let active := active_file_set (task_files w) in
  let w' := snd (periodic_cleanup w) in
  (now w - t <= CLEANUP_DELAY -> nodes w' !! p = Some (File t d))
  /\ (now w - t > CLEANUP_DELAY -> p ∉ unlink_denied w ->
      nodes w' !! p = None)
  /\ (now w - t > CLEANUP_DELAY -> p ∈ unlink_denied w ->
      nodes w' !! p = Some (File t d))
  /\ (nodes w' !! p = None <->
      now w - t > CLEANUP_DELAY /\ p ∉ unlink_denied w)
  /\ (is_orphan (now w) active (nodes w) p = true <->
      now w - t > CLEANUP_DELAY)
  /\ exists st,
       fst (periodic_cleanup w) = Ok (Some st)
       /\ orphan_files st
          = length (filter (fun q => is_orphan (now w) active (nodes w) q = true)
                           (top_level (nodes w))).
Proof.
  intros Hdir Hchild Hp Ha active w'. subst w'.
  pose proof (periodic_cleanup_stats w Hdir) as Hst.
  destruct (periodic_cleanup_pass w Hdir)
    as (st & w' & Hrun & _ & _ & _ & Hq & _).
  rewrite Hrun in *. simpl in *.
  pose proof (classify_inactive (now w) active _ _ t d Hp Ha) as Hc.
  assert (Htop : p ∈ top_level (nodes w)).
  { apply elem_of_top_level. split; [done|]. rewrite Hp. eauto. }
  assert (Hkeep : now w - t <= CLEANUP_DELAY -> nodes w' !! p = Some (File t d)).
  { intros Hage. rewrite Hq, decide_False; [done|].
    intros (_ & Hne & _). apply Hne. fold active. rewrite Hc.
    by rewrite bool_decide_eq_false_2 by lia. }
  assert (Hgone : now w - t > CLEANUP_DELAY -> p ∉ unlink_denied w ->
                  nodes w' !! p = None).
  { intros Hage Hden. rewrite Hq, decide_True; [done|].
    split_and!; [done| |done]. fold active. rewrite Hc.
    by rewrite bool_decide_eq_true_2. }
  assert (Hstay : now w - t > CLEANUP_DELAY -> p ∈ unlink_denied w ->
                  nodes w' !! p = Some (File t d)).
  { intros Hage Hden. rewrite Hq, decide_False; [done|].
    intros (_ & _ & Hnd). done. }
  split_and!; try done.
  - split.
    + intros Hnone.
      destruct (decide (now w - t > CLEANUP_DELAY)) as [Hage|Hage].
      * split; [done|]. intros Hden. rewrite Hstay in Hnone; done.
      * rewrite Hkeep in Hnone by lia. done.
    + intros [Hage Hden]. by apply Hgone.
  - unfold is_orphan. rewrite Hc. case_bool_decide; split; done.
  - eexists. split; [exact Hst|]. reflexivity.
Qed.

(** C4, as amended: while a job record exists, a sweep pass never
    deletes a file the record references unless the age of the file
    itself (pass start time minus last-modified time) exceeds
    MAX_FILE_AGE; the record's creation time plays no part in that
    decision. *)
Theorem record_file_kept_unless_file_too_old w c i p t d :
  task_files w !! c = Some i ->
  references i p ->
  nodes w !! p = Some (File t d) ->
  now w - t <= MAX_FILE_AGE ->
  nodes (snd (periodic_cleanup w)) !! p = Some (File t d).
Proof.
  intros Hc Hr Hp Hage.
  destruct (decide (p = "")) as [->|Hne].
  - (* the empty string names no directory entry *)
    destruct (periodic_cleanup_total w)
      as (r & w' & Hrun & _ & _ & _ & Hq).
    rewrite Hrun. simpl.
    destruct (Hq "") as [Hsame|(_ & _ & Htop & _)]; [congruence|].
    apply elem_of_top_level in Htop as [Hchild _].
    unfold Path.is_child in Hchild.
    destruct DUIX_DATA_DIR; discriminate.
  - apply (sweep_keeps_young_active_file w p t d Hp); [|done].
    apply elem_of_active_file_set. split; [by apply truthy_nonempty|].
    eauto.
Qed.

(** * The claims about the registry *)



(** * The claims about failures *)

(** C6: when [submit_task] fails, it fails with the submission error
    (status 500) carrying the cause; the table holds no record it did not
    hold before (it is the table before, less the record of the job id if
    the engine had been called); no thread was started, the reclamation
    having run before the error is raised; and every input staged so far
    is gone, or its unlink was refused and the refusal is in the log. *)
Theorem submit_failure_reclaims au vu env w e w' :
  submit_task au vu env w = (Raise e, w') ->
  (exists cause, e = HTTPException 500 cause)
  /\ (forall c i, task_files w' !! c = Some i -> task_files w !! c = Some i)
  /\ (task_files w' = task_files w
      \/ task_files w' = delete (uuid4 env) (task_files w))
  /\ threads w' = threads w
  /\ forall p, p ∈ staged_inputs au vu env w ->
       nodes w' !! p = None
       \/ (p ∈ unlink_denied w
           /\ exists x, (WARNING, MsgDeleteFailed p x) ∈ log w').
Proof.
  intros Hrun.
  apply submit_task_failure in Hrun
    as (cause & w2 & -> & Htf & Hth & Hden & Hst).
  split; [eauto|]. split.
  { intros c i Hc. destruct Htf as [Htf|Htf]; rewrite Htf in Hc; [done|].
    apply lookup_delete_Some in Hc as [_ Hc]. done. }
  split; [done|]. split; [done|].
  intros p Hp. destruct (Hst p Hp) as [Hnd [Hgone|(Hsame & Hwhy & Hlog)]].
  - by left.
  - right. split; [|done]. destruct Hwhy as [Hd|Hd]; [|done].
    by rewrite <- Hden.
Qed.

(** C7: when [download_file] fails, it fails with the staging error
    (status 400) carrying the original cause, whatever happened to the
    removal of the partial file; no regular file is left at the target
    path unless its unlink was refused, in which case the refusal is in
    the log as a warning; no other path is touched. *)
Theorem download_failure_removes_partial_file url ft hex f w e w' :
  download_file url ft hex f w = (Raise e, w') ->
  let lp := local_path_of url ft hex (now w) in
  (exists cause, e = HTTPException 400 cause)
  /\ (lp ∉ unlink_denied w -> forall t d, nodes w' !! lp <> Some (File t d))
  /\ ((exists t d, nodes w' !! lp = Some (File t d)) ->
      (WARNING, MsgPartialRemoveFailed (PermissionError lp)) ∈ log w')
  /\ (forall q, q <> lp -> nodes w' !! q = nodes w !! q).
Proof.
  intros Hrun lp.
  pose proof (download_file_outcome url ft hex f w) as Hout.
  pose proof (download_file_frame url ft hex f w) as Hfr.
  rewrite Hrun in Hout, Hfr. simpl in Hout, Hfr. fold lp in Hout, Hfr.
  destruct Hout as (cause & -> & Hcases).
  split; [eauto|]. split_and!.
  - intros Hden t d Hfile.
    destruct Hcases as [Hn|[[Hn _]|[Hd _]]]; congruence.
  - intros (t & d & Hfile).
    destruct Hcases as [Hn|[[Hn _]|(_ & _ & Hlog)]]; [congruence..|done].
  - intros q Hq. destruct Hfr as (_ & _ & _ & _ & Hframe & _).
    apply Hframe. congruence.
Qed.

(** C8: [cleanup_files] never raises, for any list of paths and any
    delay, and neither does the thread it starts when the delay is
    positive; a path that does not exist is left absent, and a path that
    is not listed is left as it is.  With a positive delay nothing is
    removed by the call: one thread is started, which does the work
    when it runs.  With delay 0 nothing is deferred: when the call
    returns, every listed path is gone, or its unlink was refused (or
    the path is a directory), the failure is in the log as a warning and
    the path is as it was; so every listed regular file whose unlink is
    permitted is gone.  Reclaiming the same list again changes nothing
    more. *)
Theorem cleanup_files_total l delay w :
  exists w',
    cleanup_files l delay w = (Ok tt, w')
    /\ (forall p, nodes w !! p = None -> nodes w' !! p = None)
    /\ (forall q, q ∉ l -> nodes w' !! q = nodes w !! q)
    /\ (forall wake w1, exists w2,
          run_thread (DoCleanup wake l) w1 = (Ok tt, w2)
          /\ (forall p, nodes w1 !! p = None -> nodes w2 !! p = None)
          /\ (forall q, q ∉ l -> nodes w2 !! q = nodes w1 !! q)
          /\ (forall p, p ∈ l -> reclaimed p w1 w2)
          /\ (forall p t d, p ∈ l -> nodes w1 !! p = Some (File t d) ->
                            p ∉ unlink_denied w1 -> nodes w2 !! p = None))
    /\ (delay > 0 ->
        nodes w' = nodes w
        /\ threads w' = threads w ++ [DoCleanup (now w + delay) l])
    /\ (delay <= 0 ->
        threads w' = threads w
        /\ (forall p, p ∈ l -> reclaimed p w w')
        /\ (forall p t d, p ∈ l -> nodes w !! p = Some (File t d) ->
                          p ∉ unlink_denied w -> nodes w' !! p = None)
        /\ nodes (snd (cleanup_files l delay w')) = nodes w').
Proof.
  assert (Hgone : forall p t d w0 w1,
            reclaimed p w0 w1 -> nodes w0 !! p = Some (File t d) ->
            p ∉ unlink_denied w0 -> nodes w1 !! p = None).
  { intros p t d w0 w1 [Hg|(_ & [Hden|Hdir] & _)] Hfile Hperm.
    - exact Hg.
    - done.
    - congruence. }
  destruct (cleanup_files_spec l delay w)
    as (w' & Hrun & _ & _ & _ & _ & Hcase).
  exists w'. split; [done|].
  assert (Hthread : forall wake w1, exists w2,
            run_thread (DoCleanup wake l) w1 = (Ok tt, w2)
            /\ (forall p, nodes w1 !! p = None -> nodes w2 !! p = None)
            /\ (forall q, q ∉ l -> nodes w2 !! q = nodes w1 !! q)
            /\ (forall p, p ∈ l -> reclaimed p w1 w2)
            /\ (forall p t d, p ∈ l -> nodes w1 !! p = Some (File t d) ->
                              p ∉ unlink_denied w1 -> nodes w2 !! p = None)).
  { intros wake w1. simpl.
    destruct (do_cleanup_spec l w1)
      as (w2 & Hrun2 & (_ & _ & _ & _ & Hfr2 & _) & _ & Hmono2 & Hrec2).
    exists w2. split; [done|]. split.
    { intros p Hp. destruct (Hmono2 p); congruence. }
    split; [exact Hfr2|]. split; [exact Hrec2|].
    intros p t d Hp. apply Hgone. by apply Hrec2. }
  case_bool_decide as Hd.
  - destruct Hcase as [Hn Hth].
    split; [intros p Hp; by rewrite Hn|].
    split; [intros q _; by rewrite Hn|].
    split; [exact Hthread|].
    split; [done|]. intros Hle. lia.
  - destruct Hcase as (Hth & Hfr & Hmono & Hrec).
    split; [intros p Hp; destruct (Hmono p); congruence|].
    split; [exact Hfr|].
    split; [exact Hthread|].
    split; [intros Hpos; lia|]. intros _.
    split; [done|]. split; [exact Hrec|]. split.
    + intros p t d Hp. apply Hgone. by apply Hrec.
    + assert (Hnow : cleanup_files l delay = do_cleanup l).
      { unfold cleanup_files. by rewrite bool_decide_eq_false_2 by done. }
      rewrite Hnow in *.
      assert (Hw : w' = snd (do_cleanup l w)) by (by rewrite Hrun).
      rewrite Hw. apply do_cleanup_idempotent.
Qed.

(** C9: a result fetch for a job identifier that is not in the table,
    the result file being on disk, returns the bytes of the file and
    their number; the table is unchanged; the only path handed to the
    reclaimer is the result path (a warning tells that the job is
    unknown). *)
Theorem fetch_for_unknown_job fn tc w t d :
  nodes w !! output_path_of fn = Some (File t d) ->
  task_files w !! tc = None ->
  exists w',
    get_result fn (Some tc) w = (Ok (d, length d), w')
    /\ task_files w' = task_files w
    /\ (truthy tc = true -> (WARNING, MsgNoMapping tc) ∈ log w')
    /\ if bool_decide (CLEANUP_DELAY > 0)
       then nodes w' = nodes w
            /\ threads w'
               = threads w
                   ++ DoCleanup (now w + CLEANUP_DELAY) [output_path_of fn]
                   :: mapping_cleanup (Some tc) (now w)
       else threads w' = threads w ++ mapping_cleanup (Some tc) (now w)
            /\ forall q, q <> output_path_of fn ->
                         nodes w' !! q = nodes w !! q.
Proof.
  intros Hop Htc.
  pose proof (get_result_spec fn (Some tc) w) as Hspec.
  rewrite Hop in Hspec.
  assert (Hk : known_job (Some tc) (task_files w) = None).
  { unfold known_job. rewrite Htc. by destruct (truthy tc). }
  rewrite Hk in Hspec.
  destruct Hspec as (w' & Hrun & _ & _ & _ & [Htf Hwarn] & Hcase).
  exists w'. split; [done|]. split; [done|]. split; [by apply Hwarn|].
  simpl in Hcase. unfold files_to_cleanup_of in Hcase. simpl in Hcase.
  case_bool_decide.
  - exact Hcase.
  - destruct Hcase as (Hth & Hfr & _). split; [done|].
    intros q Hq. apply Hfr. intros Hin.
    apply list_elem_of_singleton in Hin. done.
Qed.

(** * The claim about the reach of the sweep *)

Lemma append_assoc (a b c : string) : (a +:+ b) +:+ c = a +:+ (b +:+ c).
Proof.
  induction a as [|x a IH]; [done|].
  change (String x ((a +:+ b) +:+ c) = String x (a +:+ (b +:+ c))).
  by f_equal.
Qed.

Lemma strip_prefix_app (a b c : string) :
  Path.strip_prefix (a +:+ b) (a +:+ c) = Path.strip_prefix b c.
Proof.
  induction a as [|x a IH]; [done|].
  change (Path.strip_prefix (String x (a +:+ b)) (String x (a +:+ c))
          = Path.strip_prefix b c).
  simpl. by rewrite Ascii.eqb_refl.
Qed.

Lemma ends_with_slash_app (a b : string) :
  b <> "" -> Path.ends_with_slash (a +:+ b) = Path.ends_with_slash b.
Proof.
  intros Hb. induction a as [|x a IH]; [done|].
  change (Path.ends_with_slash (String x (a +:+ b)) = Path.ends_with_slash b).
  simpl. destruct (a +:+ b) eqn:Hab; [|done].
  exfalso. by apply (append_nonempty_r a b).
Qed.

(** The path of a result file given by a relative name lies under the
    temp subdirectory and is no entry of the storage directory. *)
Lemma output_path_not_child fn :
  Path.starts_with_slash fn = false ->
  Path.is_child DUIX_DATA_DIR (output_path_of fn) = false.
Proof.
  intros Hfn. unfold output_path_of.
  set (T := Path.join DUIX_DATA_DIR "temp").
  assert (HT : T <> "") by (apply join_nonempty_r; discriminate).
  assert (Hjoin : Path.join T fn = T +:+ "/" +:+ fn).
  { unfold Path.join at 1. rewrite Hfn.
    rewrite bool_decide_eq_false_2 by done. simpl.
    assert (Hend : Path.ends_with_slash T = false).
    { subst T. unfold Path.join. simpl.
      destruct (_ || _); rewrite ends_with_slash_app; done. }
    by rewrite Hend. }
  rewrite Hjoin. subst T. unfold Path.join, Path.is_child. simpl.
  destruct (_ || _).
  - rewrite append_assoc, strip_prefix_app. reflexivity.
  - rewrite !append_assoc, strip_prefix_app. simpl. reflexivity.
Qed.

(** C10: a sweep pass changes the file system only by removing regular
    files that are entries of the storage directory itself: it removes
    no directory (so not the temp subdirectory) and leaves the result
    file of any relative result name, which lies under temp, as it is.
    Such a file is reclaimed through a result fetch, which hands its
    path to the reclaimer: to a thread that wakes after CLEANUP_DELAY,
    or at once when the delay is not positive. *)
Theorem sweep_reaches_top_level_files_only w :
  let w' := snd (periodic_cleanup w) in
  (forall q, nodes w' !! q <> nodes w !! q ->
     nodes w' !! q = None
     /\ Path.is_child DUIX_DATA_DIR q = true
     /\ exists t d, nodes w !! q = Some (File t d))
  /\ (forall q, nodes w !! q = Some Dir -> nodes w' !! q = Some Dir)
  /\ (forall fn, Path.starts_with_slash fn = false ->
        nodes w' !! output_path_of fn = nodes w !! output_path_of fn)
  /\ (forall fn tco t d,
        nodes w !! output_path_of fn = Some (File t d) ->
        let wr := snd (get_result fn tco w) in
        if bool_decide (CLEANUP_DELAY > 0)
        then exists rest sched,
               threads wr
               = threads w
                   ++ DoCleanup (now w + CLEANUP_DELAY)
                                (output_path_of fn :: rest) :: sched
        else reclaimed (output_path_of fn) w wr).
Proof.
  intros w'. subst w'.
  destruct (periodic_cleanup_total w)
    as (r & w' & Hrun & _ & _ & _ & Hq).
  rewrite Hrun. simpl.
  assert (Hchg : forall q, nodes w' !! q <> nodes w !! q ->
            nodes w' !! q = None
            /\ Path.is_child DUIX_DATA_DIR q = true
            /\ exists t d, nodes w !! q = Some (File t d)).
  { intros q Hne.
    destruct (Hq q) as [Hsame|(Hnone & _ & Htop & Hc & _)]; [done|].
    apply elem_of_top_level in Htop as [Hchild _].
    apply classify_file in Hc. done. }
  split; [exact Hchg|]. split_and!.
  - intros q Hdir.
    destruct (Hq q) as [Hsame|(_ & _ & _ & Hc & _)]; [congruence|].
    apply classify_file in Hc as (t & d & Hf). congruence.
  - intros fn Hfn.
    destruct (Hq (output_path_of fn)) as [Hsame|(_ & _ & Htop & _)]; [done|].
    apply elem_of_top_level in Htop as [Hchild _].
    rewrite output_path_not_child in Hchild by done. discriminate.
  - intros fn tco t d Hop. cbv zeta.
    pose proof (get_result_spec fn tco w) as Hspec. rewrite Hop in Hspec.
    destruct Hspec as (wr & Hrunr & _ & _ & _ & _ & Hcase).
    rewrite Hrunr. simpl in *.
    case_bool_decide.
    + destruct Hcase as [_ Hth]. unfold files_to_cleanup_of in Hth.
      simpl in Hth. eauto.
    + destruct Hcase as (_ & _ & _ & Hrec). apply Hrec.
      unfold files_to_cleanup_of. by left.
Qed.

(** * Further properties of the service *)

(** ** The clock *)

Lemma steady_ret {A} (a : A) : steady (ret a).
Proof. intros w. reflexivity. Qed.

Lemma steady_raise {A} e : steady (@raise A e).
Proof. intros w. reflexivity. Qed.

Lemma steady_bind {A B} (m : M A) (k : A -> M B) :
  steady m -> (forall a, steady (k a)) -> steady (bind m k).
Proof.
  intros Hm Hk w. unfold bind. specialize (Hm w).
  destruct (m w) as [[a|e] w1]; simpl in *; [|done].
  by rewrite Hk.
Qed.

Lemma steady_try_except {A} (m : M A) (h : exn -> M A) :
  steady m -> (forall e, steady (h e)) -> steady (try_except m h).
Proof.
  intros Hm Hh w. unfold try_except. specialize (Hm w).
  destruct (m w) as [[a|e] w1]; simpl in *; [done|].
  by rewrite Hh.
Qed.

Lemma steady_for_each {A} (l : list A) (body : A -> M unit) :
  (forall x, steady (body x)) -> steady (for_each l body).
Proof.
  intros Hb. induction l as [|x r IH]; simpl.
  - apply steady_ret.
  - apply steady_bind; [apply Hb|]. intros _. exact IH.
Qed.

Lemma steady_logger l m : steady (logger l m).
Proof. intros w. reflexivity. Qed.

Lemma steady_os_path_exists p : steady (os_path_exists p).
Proof. intros w. reflexivity. Qed.

Lemma steady_os_path_getsize p : steady (os_path_getsize p).
Proof.
  intros w. unfold os_path_getsize. by destruct (nodes w !! p) as [[t d|]|].
Qed.

Lemma steady_os_unlink p : steady (os_unlink p).
Proof.
  intros w. unfold os_unlink.
  destruct (nodes w !! p) as [[t d|]|]; try done. by case_bool_decide.
Qed.

Lemma steady_open_wb p : steady (open_wb p).
Proof.
  intros w. unfold open_wb.
  by destruct (nodes w !! p) as [[t d|]|];
    destruct (nodes w !! Path.dirname p) as [[t' d'|]|].
Qed.

Lemma steady_file_write p b : steady (file_write p b).
Proof.
  intros w. unfold file_write. by destruct (nodes w !! p) as [[t d|]|].
Qed.

Lemma steady_write_chunks p body : steady (write_chunks p body).
Proof.
  apply steady_for_each. intros [b|].
  - destruct b; [apply steady_ret|apply steady_file_write].
  - apply steady_raise.
Qed.

Lemma steady_download_failed url lp e : steady (download_failed url lp e).
Proof.
  unfold download_failed.
  apply steady_bind; [apply steady_os_path_exists|]. intros present.
  apply steady_bind.
  - destruct present; [|apply steady_ret].
    apply steady_try_except.
    + apply steady_bind; [apply steady_os_unlink|]. intros _.
      apply steady_logger.
    + intros ce. apply steady_logger.
  - intros _. apply steady_bind; [apply steady_logger|]. intros _.
    apply steady_raise.
Qed.

(** A download lets exactly the time of its network call pass, however it
    ends. *)
Lemma download_file_clock url ft hex f w :
  now (snd (download_file url ft hex f w)) = now w + Z.of_nat (elapsed f).
Proof.
  unfold download_file, bind at 1, time_time. cbv zeta.
  rewrite logger_then. unfold try_except, bind at 1, requests_get.
  unfold bind at 1, modify. cbn [snd fst].
  set (lp := Path.join DUIX_DATA_DIR (choose_filename url ft hex (now w))).
  set (wg := set_now _ _).
  assert (Hwg : now wg = now w + Z.of_nat (elapsed f)) by reflexivity.
  destruct (reply f) as [|ok body]; cbn [raise ret fst snd].
  - rewrite steady_download_failed. exact Hwg.
  - match goal with
    | |- context [bind (raise_for_status ok) ?k wg] =>
        assert (Hk : steady (bind (raise_for_status ok) k))
    end.
    { apply steady_bind.
      - destruct ok; [apply steady_ret|apply steady_raise].
      - intros _. apply steady_bind; [apply steady_open_wb|]. intros _.
        apply steady_bind; [apply steady_write_chunks|]. intros _.
        apply steady_bind; [apply steady_os_path_getsize|]. intros n.
        apply steady_bind; [apply steady_logger|]. intros _.
        apply steady_ret. }
    specialize (Hk wg).
    destruct (bind (raise_for_status ok) _ wg) as [[r|e] wb]; simpl in *.
    + congruence.
    + rewrite steady_download_failed. congruence.
Qed.


(** ** What a download writes *)

(** Writing a body into a file just opened: the file holds what it held
    plus the bytes delivered up to the first fault, and the loop raises
    exactly when the body has a fault. *)
Lemma write_chunks_exact p body : forall w d,
  nodes w !! p = Some (File (now w) d) ->
  exists w',
    write_chunks p body w
    = (if intact body then Ok tt else Raise ChunkError, w')
    /\ now w' = now w
    /\ nodes w' !! p = Some (File (now w) (d ++ chunk_bytes body)).
Proof.
  induction body as [|c r IH]; intros w d Hp.
  - exists w. simpl. rewrite app_nil_r. done.
  - unfold write_chunks in *. cbn [for_each intact forallb chunk_bytes].
    change (forallb _ r) with (intact r).
    unfold bind at 1. destruct c as [[|b0 b]|].
    + unfold ret at 1. cbn [andb app]. by apply IH.
    + unfold file_write at 1. rewrite Hp. cbn [andb].
      destruct (IH (set_nodes (<[p:=File (now w) (d ++ b0 :: b)]> (nodes w)) w)
                   (d ++ b0 :: b)) as (w' & Hrun & Hn & Hf).
      { simpl. apply lookup_insert_eq. }
      exists w'. cbv beta iota. rewrite Hrun. simpl in *.
      split; [done|]. split; [done|].
      by rewrite <- app_assoc in Hf.
    + exists w. unfold raise. cbn [andb]. rewrite app_nil_r. done.
Qed.

(** A download goes through exactly when it is [streamable], and then
    the local file holds the bytes of the body, dated at the end of the
    network call. *)
Lemma download_file_run url ft hex f w :
  let lp := local_path_of url ft hex (now w) in
  match streamable f (nodes w) lp with
  | Some body =>
      exists w',
        download_file url ft hex f w
        = (Ok ("/code/data/" +:+ choose_filename url ft hex (now w), lp), w')
        /\ nodes w' !! lp
           = Some (File (now w + Z.of_nat (elapsed f)) (chunk_bytes body))
  | None =>
      exists e w', download_file url ft hex f w = (Raise e, w')
  end.
Proof.
  intros lp. unfold streamable.
  assert (Hfail : forall e wb, exists e' w',
            download_failed url lp e wb = (Raise e', w')).
  { intros e wb.
    destruct (download_file_handler url lp e wb) as (w' & Hrun & _). eauto. }
  assert (Hopen :
    download_file url ft hex f w
    = try_except
        (response <- requests_get f ;;
         raise_for_status (fst response) ;;;
         open_wb lp ;;;
         write_chunks lp (snd response) ;;;
         file_size <- os_path_getsize lp ;;
         logger INFO (MsgDownloadDone lp file_size) ;;;
         ret ("/code/data/" +:+ choose_filename url ft hex (now w), lp))
        (download_failed url lp)
        (add_log (INFO, MsgDownloadStart ft url) w)) by reflexivity.
  rewrite Hopen. clear Hopen.
  generalize (choose_filename url ft hex (now w)). intros filename.
  clearbody lp.
  destruct (reply f) as [|ok body] eqn:Hr; [|destruct ok];
    [| destruct (nodes w !! lp) as [[t0 d0|]|] eqn:Hlp;
       [destruct (nodes w !! Path.dirname lp) as [[t1 d1|]|] eqn:Hdir;
          [| destruct (intact body) eqn:Hin |]
       | | destruct (nodes w !! Path.dirname lp) as [[t1 d1|]|] eqn:Hdir;
             [| destruct (intact body) eqn:Hin |]]
     |];
    unfold try_except, bind at 1, requests_get;
    unfold bind at 1, modify; cbn [snd fst]; rewrite Hr;
    cbn [raise ret fst snd]; try apply Hfail;
    cbn [raise_for_status];
    try (unfold bind at 1, raise; apply Hfail);
    unfold bind at 1, ret at 1; unfold bind at 1, open_wb;
    cbn [nodes set_now add_log]; rewrite Hlp; try apply Hfail;
    rewrite Hdir; try apply Hfail;
    match goal with
    | |- context [set_nodes (<[lp:=File ?t []]> ?fs) ?w0] =>
        destruct (write_chunks_exact lp body
                    (set_nodes (<[lp:=File t []]> fs) w0) [])
          as (w2 & Hrun & Hn & Hf); [apply lookup_insert_eq|]
    end;
    unfold bind at 1; rewrite Hrun, Hin; simpl in Hf, Hn;
    try apply Hfail;
    unfold bind at 1, os_path_getsize; rewrite Hf;
    unfold bind, logger, modify, ret;
    (eexists; split; [reflexivity|]); simpl; exact Hf.
Qed.


(** ** A submission, case by case *)

Lemma submit_to_engine_run al vl tc secs r w :
  match rejection r with
  | Some e =>
      exists w',
        submit_to_engine al vl tc secs r w = (Raise e, w')
        /\ nodes w' = nodes w /\ task_files w' = task_files w
        /\ threads w' = threads w /\ now w' = now w + Z.of_nat secs
        /\ unlink_denied w' = unlink_denied w
  | None =>
      exists w',
        submit_to_engine al vl tc secs r w = (Ok tc, w')
        /\ nodes w' = nodes w
        /\ task_files w'
           = <[tc := TaskInfo al vl (now w + Z.of_nat secs) None None]>
               (task_files w)
        /\ threads w' = threads w /\ now w' = now w + Z.of_nat secs
        /\ unlink_denied w' = unlink_denied w
  end.
Proof.
  unfold rejection, submit_to_engine, requests_post, response_json.
  destruct r as [|status_code text json].
  - eexists. unfold bind, logger, modify, raise, ret. cbn.
    split; [reflexivity|]. done.
  - destruct (bool_decide (status_code ≠ 200)) eqn:Hs.
    + eexists. unfold bind, logger, modify, raise, ret. cbn.
      rewrite Hs. split; [reflexivity|]. done.
    + destruct json as [code|].
      * destruct (bool_decide (code ≠ Some 10000)) eqn:Hc.
        -- eexists. unfold bind, logger, modify, raise, ret. cbn.
           rewrite Hs, Hc. split; [reflexivity|]. done.
        -- eexists. unfold bind, logger, time_time, modify, raise, ret. cbn.
           rewrite Hs, Hc. split; [reflexivity|]. done.
      * eexists. unfold bind, logger, modify, raise, ret. cbn.
        rewrite Hs. split; [reflexivity|]. done.
Qed.

(** [submit_task] along its three stages: the audio download, the video
    download, the engine. *)
Lemma submit_task_run au vu env w :
  let wl := add_log (INFO, MsgSubmitDownloading) w in
  match download_file au "audio" (audio_hex env) (audio_fetch env) wl with
  | (Raise e1, w1) =>
      exists w',
        submit_task au vu env w = (Raise (HTTPException 500 e1), w')
        /\ task_files w' = task_files w1 /\ threads w' = threads w1
        /\ forall q, nodes w' !! q = nodes w1 !! q
  | (Ok a, w1) =>
      match download_file vu "video" (video_hex env) (video_fetch env) w1
      with
      | (Raise e2, w2) =>
          exists w',
            submit_task au vu env w = (Raise (HTTPException 500 e2), w')
            /\ task_files w' = task_files w2 /\ threads w' = threads w2
            /\ forall q, q <> snd a -> nodes w' !! q = nodes w2 !! q
      | (Ok v, w2) =>
          match rejection (post env) with
          | Some e3 =>
              exists w',
                submit_task au vu env w = (Raise (HTTPException 500 e3), w')
                /\ threads w' = threads w2
                /\ task_files w'
                   = (if truthy (uuid4 env)
                      then delete (uuid4 env) (task_files w2)
                      else task_files w2)
                /\ forall q, q <> snd a -> q <> snd v ->
                             nodes w' !! q = nodes w2 !! q
          | None =>
              exists w',
                submit_task au vu env w = (Ok (uuid4 env), w')
                /\ nodes w' = nodes w2
                /\ task_files w'
                   = <[uuid4 env :=
                         TaskInfo (snd a) (snd v)
                                  (now w2 + Z.of_nat (post_elapsed env))
                                  None None]>
                       (task_files w2)
                /\ threads w' = threads w2
                /\ now w' = now w2 + Z.of_nat (post_elapsed env)
          end
      end
  end.
Proof.
  intros wl.
  assert (Hnot : forall (l : list string) q, (forall p, p ∈ l -> q <> p) -> q ∉ l).
  { intros l q Hl Hin. by apply (Hl q). }
  destruct (download_file au "audio" (audio_hex env) (audio_fetch env) wl)
    as [[a|e1] w1] eqn:Ha.
  - destruct (download_file vu "video" (video_hex env) (video_fetch env) w1)
      as [[v|e2] w2] eqn:Hv.
    + pose proof (submit_to_engine_run (snd a) (snd v) (uuid4 env)
                    (post_elapsed env) (post env) w2) as Heng.
      destruct (rejection (post env)) as [e3|].
      * destruct Heng as (w3 & Hrun3 & Hn3 & Ht3 & Hth3 & _).
        destruct (submit_failed_spec (Some (snd a)) (Some (snd v))
                    (Some (uuid4 env)) e3 w3)
          as (w4 & Hrun4 & Hth4 & _ & _ & Ht4 & Hfr4 & _).
        exists w4. unfold submit_task, catch_then. rewrite logger_then.
        fold wl. rewrite Ha, Hv, Hrun3. split; [exact Hrun4|].
        split; [congruence|]. split; [rewrite Ht4, Ht3; done|].
        intros q Hqa Hqv. rewrite <- Hn3. apply Hfr4.
        apply Hnot. intros p Hp. unfold truthy_paths in Hp.
        apply list_elem_of_omap in Hp as (o & Ho & Hp).
        destruct o as [x|]; simpl in Hp; [|done].
        destruct (truthy x); [|done]. injection Hp as <-.
        apply elem_of_cons in Ho as [[= ->]|Ho]; [done|].
        apply list_elem_of_singleton in Ho as [= ->]. done.
      * destruct Heng as (w3 & Hrun3 & Hn3 & Ht3 & Hth3 & Hnow3 & _).
        exists w3. unfold submit_task, catch_then. rewrite logger_then.
        fold wl. rewrite Ha, Hv, Hrun3. done.
    + destruct (submit_failed_spec (Some (snd a)) None None e2 w2)
        as (w4 & Hrun4 & Hth4 & _ & _ & Ht4 & Hfr4 & _).
      exists w4. unfold submit_task, catch_then. rewrite logger_then.
      fold wl. rewrite Ha, Hv. split; [exact Hrun4|].
      split; [done|]. split; [done|].
      intros q Hqa. apply Hfr4.
      apply Hnot. intros p Hp. unfold truthy_paths in Hp.
      apply list_elem_of_omap in Hp as (o & Ho & Hp).
      destruct o as [x|]; simpl in Hp; [|done].
      destruct (truthy x); [|done]. injection Hp as <-.
      apply elem_of_cons in Ho as [[= ->]|Ho]; [done|].
      apply list_elem_of_singleton in Ho. done.
  - destruct (submit_failed_spec None None None e1 w1)
      as (w4 & Hrun4 & Hth4 & _ & _ & Ht4 & Hfr4 & _).
    exists w4. unfold submit_task, catch_then. rewrite logger_then.
    fold wl. rewrite Ha. split; [exact Hrun4|].
    split; [done|]. split; [done|].
    intros q. apply Hfr4. unfold truthy_paths. simpl. apply not_elem_of_nil.
Qed.


Lemma streamable_Some f fs lp body :
  streamable f fs lp = Some body
  <-> reply f = GetReply true body
      /\ intact body = true
      /\ fs !! lp <> Some Dir
      /\ fs !! Path.dirname lp = Some Dir.
Proof.
  unfold streamable. split.
  - destruct (reply f) as [|[|] b]; try done.
    destruct (fs !! lp) as [[t d|]|] eqn:Hlp; try done;
      (destruct (fs !! Path.dirname lp) as [[t' d'|]|]; try done;
       destruct (intact b) eqn:Hb; try done;
       intros [= ->]; done).
  - intros (-> & -> & Hlp & ->).
    destruct (fs !! lp) as [[t d|]|]; done.
Qed.

(** ** Downloads *)

(** X1.  A download that returns has stored the whole body: the reply had a
    success status and streamed to its end, the returned pair is the
    container path under [/code/data/] and the local path, and the local
    path now holds exactly the bytes of the body, in order, whatever was
    there before.  No other path, no record and no thread changed. *)
Theorem download_stores_body url ft hex f w r w' :
  download_file url ft hex f w = (Ok r, w') ->
  let lp := local_path_of url ft hex (now w) in
  exists body,
    reply f = GetReply true body
    /\ intact body = true
    /\ r = ("/code/data/" +:+ choose_filename url ft hex (now w), lp)
    /\ nodes w' !! lp
       = Some (File (now w + Z.of_nat (elapsed f)) (chunk_bytes body))
    /\ (forall q, q <> lp -> nodes w' !! q = nodes w !! q)
    /\ task_files w' = task_files w
    /\ threads w' = threads w.
Proof.
  intros Hrun lp.
  pose proof (download_file_run url ft hex f w) as Hcase.
  pose proof (download_file_frame url ft hex f w) as Hfr.
  rewrite Hrun in Hfr. simpl in Hfr.
  destruct Hfr as (Htf & Hth & _ & _ & Hnodes & _).
  cbv zeta in Hcase. fold lp in Hcase.
  destruct (streamable f (nodes w) lp) as [body|] eqn:Hs.
  - destruct Hcase as (w1 & Hrun1 & Hfile).
    rewrite Hrun in Hrun1. injection Hrun1 as -> ->.
    apply streamable_Some in Hs as (Hreply & Hin & _ & _).
    exists body. split; [done|]. split; [done|]. split; [done|].
    split; [done|]. split; [|done].
    intros q Hq. apply Hnodes. intros Heq. by apply Hq.
  - destruct Hcase as (e & w1 & Hrun1). rewrite Hrun in Hrun1. done.
Qed.

(** X2.  A download raises status 400 whenever the request raises, the
    status is an error, the body breaks before its end, the local path
    is a directory, or its parent is missing or no directory.  So a
    download that returns had a success status, a body that streamed to
    its end, and a local path that is no directory inside an existing
    directory. *)
Theorem download_returns_only_if url ft hex f w :
  let lp := local_path_of url ft hex (now w) in
  (reply f = GetRaises
   \/ (exists body, reply f = GetReply false body)
   \/ (exists body, reply f = GetReply true body /\ intact body = false)
   \/ nodes w !! lp = Some Dir
   \/ nodes w !! Path.dirname lp <> Some Dir ->
   exists cause w',
     download_file url ft hex f w = (Raise (HTTPException 400 cause), w'))
  /\ ((exists r w', download_file url ft hex f w = (Ok r, w')) ->
      exists body,
        reply f = GetReply true body
        /\ intact body = true
        /\ nodes w !! lp <> Some Dir
        /\ nodes w !! Path.dirname lp = Some Dir).
Proof.
  intros lp.
  pose proof (download_file_run url ft hex f w) as Hcase.
  pose proof (download_file_outcome url ft hex f w) as Hout.
  cbv zeta in Hcase, Hout. fold lp in Hcase, Hout.
  destruct (streamable f (nodes w) lp) as [body|] eqn:Hs.
  - apply streamable_Some in Hs as (Hreply & Hin & Hlp & Hdir). split.
    + intros [Hr|[[b Hr]|[(b & Hr & Hb)|[Hd|Hp]]]]; exfalso.
      * congruence.
      * congruence.
      * rewrite Hreply in Hr. injection Hr as <-. congruence.
      * done.
      * done.
    + intros _. by exists body.
  - destruct Hcase as (e & w1 & Hrun1). rewrite Hrun1 in Hout.
    destruct Hout as (cause & -> & _). split.
    + intros _. eauto.
    + intros (r & w2 & Hrun2). rewrite Hrun1 in Hrun2. done.
Qed.


(** What a returned download leaves behind, for the callers. *)
Lemma download_file_ok url ft hex f w r w' :
  download_file url ft hex f w = (Ok r, w') ->
  let lp := local_path_of url ft hex (now w) in
  snd r = lp
  /\ now w' = now w + Z.of_nat (elapsed f)
  /\ (exists body,
        reply f = GetReply true body
        /\ nodes w' !! lp = Some (File (now w') (chunk_bytes body)))
  /\ (forall q, q <> lp -> nodes w' !! q = nodes w !! q)
  /\ task_files w' = task_files w
  /\ threads w' = threads w.
Proof.
  intros Hrun lp.
  pose proof (download_file_run url ft hex f w) as Hcase.
  pose proof (download_file_frame url ft hex f w) as Hfr.
  pose proof (download_file_clock url ft hex f w) as Hclock.
  rewrite Hrun in Hfr, Hclock. simpl in Hfr, Hclock.
  destruct Hfr as (Htf & Hth & _ & _ & Hnodes & _).
  cbv zeta in Hcase. fold lp in Hcase.
  destruct (streamable f (nodes w) lp) as [body|] eqn:Hs.
  - destruct Hcase as (w1 & Hrun1 & Hfile).
    rewrite Hrun in Hrun1. injection Hrun1 as -> ->.
    apply streamable_Some in Hs as (Hreply & _).
    split; [done|]. split; [done|].
    split; [rewrite Hclock; eauto|]. split; [|done].
    intros q Hq. apply Hnodes. intros Heq. by apply Hq.
  - destruct Hcase as (e & w1 & Hrun1). rewrite Hrun in Hrun1. done.
Qed.

(** ** Submissions *)

(** X3.  A submission that returns has registered the job: the result is
    the generated job id, the engine accepted the request, and the table
    holds for that id a record with the two local paths and no result
    yet.  Its creation time is read once the engine has answered: it
    is the time of the call plus the time the two downloads and the
    engine call took.  The files carry the times their downloads
    ended.  The video path holds the bytes of the video body; the audio
    path holds those of the audio body unless the two paths coincide, in
    which case the video has overwritten the audio.  No thread was
    started. *)
Theorem submit_success_registers_job au vu env w c w' :
  submit_task au vu env w = (Ok c, w') ->
  let t1 := now w + Z.of_nat (elapsed (audio_fetch env)) in
  let t2 := t1 + Z.of_nat (elapsed (video_fetch env)) in
  let t3 := t2 + Z.of_nat (post_elapsed env) in
  let al := local_path_of au "audio" (audio_hex env) (now w) in
  let vl := local_path_of vu "video" (video_hex env) t1 in
  c = uuid4 env
  /\ rejection (post env) = None
  /\ task_files w'
     = <[uuid4 env := TaskInfo al vl t3 None None]> (task_files w)
  /\ now w' = t3
  /\ threads w' = threads w
  /\ (exists body,
        reply (video_fetch env) = GetReply true body
        /\ nodes w' !! vl = Some (File t2 (chunk_bytes body)))
  /\ (exists body,
        reply (audio_fetch env) = GetReply true body
        /\ (al <> vl ->
            nodes w' !! al = Some (File t1 (chunk_bytes body)))).
Proof.
  intros Hrun t1 t2 t3 al vl.
  pose proof (submit_task_run au vu env w) as Hcase. cbv zeta in Hcase.
  destruct (download_file au "audio" (audio_hex env) (audio_fetch env)
              (add_log (INFO, MsgSubmitDownloading) w))
    as [[a|e1] w1] eqn:Ha.
  - apply download_file_ok in Ha
      as (Hsa & Hnow1 & (ba & Hra & Hfa) & _ & Htf1 & Hth1).
    simpl in Hsa, Hnow1, Hfa, Htf1, Hth1. fold t1 in Hnow1.
    rewrite Hnow1 in Hfa. fold al in Hsa, Hfa.
    destruct (download_file vu "video" (video_hex env) (video_fetch env) w1)
      as [[v|e2] w2] eqn:Hv.
    + apply download_file_ok in Hv
        as (Hsv & Hnow2 & (bv & Hrv & Hfv) & Hfr2 & Htf2 & Hth2).
      rewrite Hnow1 in Hsv, Hfv, Hfr2, Hnow2.
      fold vl in Hsv, Hfv, Hfr2. fold t2 in Hnow2.
      destruct (rejection (post env)) as [e3|].
      * destruct Hcase as (w3 & Hrun3 & _). rewrite Hrun in Hrun3. done.
      * destruct Hcase as (w3 & Hrun3 & Hn3 & Ht3 & Hth3 & Hnow3).
        rewrite Hrun in Hrun3. injection Hrun3 as -> ->.
        split; [done|]. split; [done|].
        split; [rewrite Ht3, Hsa, Hsv, Hnow2, Htf2, Htf1; done|].
        split; [rewrite Hnow3, Hnow2; done|]. split; [congruence|].
        rewrite Hn3. split.
        -- exists bv. split; [done|]. rewrite Hfv, Hnow2. done.
        -- exists ba. split; [done|]. intros Hne.
           rewrite Hfr2 by done. done.
    + destruct Hcase as (w3 & Hrun3 & _). rewrite Hrun in Hrun3. done.
  - destruct Hcase as (w3 & Hrun3 & _). rewrite Hrun in Hrun3. done.
Qed.

(** X4.  Once both downloads have returned, the engine's reply alone
    decides the submission: it returns the job id when the reply has
    status 200 and a JSON body with code 10000, and otherwise raises
    status 500 carrying the reason.  No record of another job is
    changed either way. *)
Theorem submit_outcome_by_engine_reply au vu env w :
  length (staged_inputs au vu env w) = 2%nat ->
  exists w',
    submit_task au vu env w
    = (match rejection (post env) with
       | None => Ok (uuid4 env)
       | Some e => Raise (HTTPException 500 e)
       end, w')
    /\ forall c, c <> uuid4 env -> task_files w' !! c = task_files w !! c.
Proof.
  intros Hlen.
  pose proof (submit_task_run au vu env w) as Hcase. cbv zeta in Hcase.
  unfold staged_inputs in Hlen. rewrite logger_then in Hlen.
  destruct (download_file au "audio" (audio_hex env) (audio_fetch env)
              (add_log (INFO, MsgSubmitDownloading) w))
    as [[a|e1] w1] eqn:Ha; [|done].
  apply download_file_ok in Ha as (_ & _ & _ & _ & Htf1 & _).
  simpl in Htf1.
  destruct (download_file vu "video" (video_hex env) (video_fetch env) w1)
    as [[v|e2] w2] eqn:Hv; [|done].
  apply download_file_ok in Hv as (_ & _ & _ & _ & Htf2 & _).
  destruct (rejection (post env)) as [e3|].
  - destruct Hcase as (w3 & Hrun3 & _ & Ht3 & _). exists w3. split; [done|].
    intros c Hc. rewrite Ht3.
    destruct (truthy (uuid4 env)).
    + rewrite lookup_delete_ne by done. congruence.
    + congruence.
  - destruct Hcase as (w3 & Hrun3 & _ & Ht3 & _). exists w3.
    split; [done|]. intros c Hc. rewrite Ht3.
    rewrite lookup_insert_ne by done. congruence.
Qed.


(** X5.  Whatever its outcome, a submission changes the file system at two
    paths at most: the local path chosen for the audio when the call
    starts, and the local path chosen for the video once the audio
    download is over.  Every other path keeps its node. *)
Theorem submit_touches_only_its_two_paths au vu env w q :
  q <> local_path_of au "audio" (audio_hex env) (now w) ->
  q <> local_path_of vu "video" (video_hex env)
         (now w + Z.of_nat (elapsed (audio_fetch env))) ->
  nodes (snd (submit_task au vu env w)) !! q = nodes w !! q.
Proof.
  intros Hqa Hqv.
  pose proof (submit_task_run au vu env w) as Hcase. cbv zeta in Hcase.
  set (wl := add_log (INFO, MsgSubmitDownloading) w) in *.
  pose proof (download_file_frame au "audio" (audio_hex env)
                (audio_fetch env) wl) as Hfa.
  pose proof (download_file_clock au "audio" (audio_hex env)
                (audio_fetch env) wl) as Hca.
  pose proof (download_file_outcome au "audio" (audio_hex env)
                (audio_fetch env) wl) as Hoa.
  cbv zeta in Hoa.
  destruct (download_file au "audio" (audio_hex env) (audio_fetch env) wl)
    as [[a|e1] w1].
  - destruct Hoa as [-> _].
    destruct Hfa as (_ & _ & _ & _ & Hn1 & _).
    change (now wl) with (now w) in *. change (nodes wl) with (nodes w) in *.
    cbn [snd] in Hn1, Hca, Hcase.
    assert (Hq1 : nodes w1 !! q = nodes w !! q).
    { apply Hn1. intros Heq. by apply Hqa. }
    pose proof (download_file_frame vu "video" (video_hex env)
                  (video_fetch env) w1) as Hfv.
    pose proof (download_file_outcome vu "video" (video_hex env)
                  (video_fetch env) w1) as Hov.
    cbv zeta in Hov. rewrite Hca in Hfv, Hov.
    destruct (download_file vu "video" (video_hex env) (video_fetch env) w1)
      as [[v|e2] w2].
    + destruct Hov as [-> _].
      destruct Hfv as (_ & _ & _ & _ & Hn2 & _). cbn [snd] in Hn2, Hcase.
      assert (Hq2 : nodes w2 !! q = nodes w !! q).
      { rewrite <- Hq1. apply Hn2. intros Heq. by apply Hqv. }
      destruct (rejection (post env)) as [e3|].
      * destruct Hcase as (w3 & -> & _ & _ & Hn3). cbn [snd].
        rewrite Hn3 by done. done.
      * destruct Hcase as (w3 & -> & Hn3 & _). cbn [snd].
        rewrite Hn3. done.
    + destruct Hfv as (_ & _ & _ & _ & Hn2 & _). cbn [snd] in Hn2.
      assert (Hq2 : nodes w2 !! q = nodes w !! q).
      { rewrite <- Hq1. apply Hn2. intros Heq. by apply Hqv. }
      destruct Hcase as (w3 & -> & _ & _ & Hn3). cbn [snd].
      rewrite Hn3 by done. done.
  - destruct Hfa as (_ & _ & _ & _ & Hn1 & _). cbn [snd] in Hn1.
    change (now wl) with (now w) in *. change (nodes wl) with (nodes w) in *.
    assert (Hq1 : nodes w1 !! q = nodes w !! q).
    { apply Hn1. intros Heq. by apply Hqa. }
    destruct Hcase as (w3 & -> & _ & _ & Hn3). cbn [snd].
    rewrite Hn3. done.
Qed.


(** ** Fetching a result *)

(** X6.  Asking for a result whose file does not exist raises status 500
    with the missing name as reason, and does nothing else but log: the
    record of the job, if there is one, is left as it was, and no cleanup
    is scheduled. *)
Theorem fetch_without_file fn tco w :
  nodes w !! output_path_of fn = None ->
  get_result fn tco w
  = (Raise (HTTPException 500 (ResultFileMissing fn)),
     add_log (ERROR, MsgGetResultFailed (ResultFileMissing fn))
       (add_log (INFO, MsgGetResult (output_path_of fn)) w)).
Proof.
  intros Hnone. unfold get_result, output_path_of, try_except in *.
  cbv zeta. rewrite logger_then.
  unfold bind at 1, os_path_exists. cbn [nodes add_log].
  rewrite Hnone.
  rewrite bool_decide_eq_false_2 by (intros [x Hx]; done).
  reflexivity.
Qed.

(** X7.  Fetching the result of a registered job returns the bytes of the
    result file and their number, stores the result path and the time in
    the job's record, deletes nothing yet, and starts two threads: one
    that removes the result file and the job's two inputs after the
    cleanup delay, one that drops the record ten seconds later. *)
Theorem fetch_for_known_job fn tc i w t d :
  nodes w !! output_path_of fn = Some (File t d) ->
  truthy tc = true ->
  task_files w !! tc = Some i ->
  CLEANUP_DELAY > 0 ->
  exists w',
    get_result fn (Some tc) w = (Ok (d, length d), w')
    /\ task_files w'
       = <[tc := TaskInfo (audio_local i) (video_local i) (created_time i)
                          (Some (output_path_of fn)) (Some (now w))]>
           (task_files w)
    /\ nodes w' = nodes w
    /\ now w' = now w
    /\ threads w'
       = threads w
           ++ [DoCleanup (now w + CLEANUP_DELAY)
                 (output_path_of fn
                    :: (if truthy (audio_local i) then [audio_local i] else [])
                    ++ (if truthy (video_local i) then [video_local i] else []));
               CleanupTaskMapping (now w + (CLEANUP_DELAY + 10)) tc].
Proof.
  intros Hfile Htc Hrec Hdelay.
  pose proof (get_result_spec fn (Some tc) w) as Hspec.
  rewrite Hfile in Hspec.
  destruct Hspec as (w' & Hrun & Hnow & _ & _ & Htab & Hsched).
  unfold known_job in Htab, Hsched. rewrite Htc, Hrec in Htab, Hsched.
  cbv zeta in Hsched.
  rewrite bool_decide_eq_true_2 in Hsched by done.
  destruct Hsched as [Hnodes Hthreads].
  exists w'. split; [done|]. split; [done|]. split; [done|].
  split; [done|].
  rewrite Hthreads. unfold mapping_cleanup, files_to_cleanup_of.
  rewrite Htc. done.
Qed.

(** X8.  The whole life of a fetched job: once the two threads started by
    the fetch have run, the job's record is gone, every file the fetch
    listed (the result and the job's inputs) is gone unless its removal
    was refused and logged, and no other path and no other record has
    changed. *)
Theorem fetched_job_is_reclaimed fn tc i w t d :
  nodes w !! output_path_of fn = Some (File t d) ->
  truthy tc = true ->
  task_files w !! tc = Some i ->
  CLEANUP_DELAY > 0 ->
  let files := files_to_cleanup_of fn (Some (tc, i)) in
  let reclaim := DoCleanup (now w + CLEANUP_DELAY) files in
  let forget := CleanupTaskMapping (now w + (CLEANUP_DELAY + 10)) tc in
  let w1 := snd (get_result fn (Some tc) w) in
  let w2 := snd (run_thread reclaim w1) in
  let w3 := snd (run_thread forget w2) in
  threads w1 = threads w ++ [reclaim; forget]
  /\ task_files w3 = delete tc (task_files w)
  /\ (forall p, p ∈ files -> reclaimed p w w3)
  /\ (forall q, q ∉ files -> nodes w3 !! q = nodes w !! q).
Proof.
  intros Hfile Htc Hrec Hdelay files reclaim forget w1 w2 w3.
  pose proof (get_result_spec fn (Some tc) w) as Hspec.
  rewrite Hfile in Hspec.
  destruct Hspec as (w' & Hrun & Hnow & Hden & _ & Htab & Hsched).
  unfold known_job in Htab, Hsched. rewrite Htc, Hrec in Htab, Hsched.
  cbv zeta in Hsched.
  rewrite bool_decide_eq_true_2 in Hsched by done.
  destruct Hsched as [Hnodes Hthreads].
  assert (Hw1 : w1 = w') by (unfold w1; rewrite Hrun; done).
  destruct (do_cleanup_spec files w1)
    as (w2' & Hrun2 & (Htf2 & _ & _ & _ & Hfr2 & _) & _ & _ & Hrec2).
  assert (Hw2 : w2 = w2') by (unfold w2, reclaim; simpl; rewrite Hrun2; done).
  assert (Hn3 : nodes w3 = nodes w2) by done.
  assert (Hl3 : log w3 = log w2) by done.
  assert (Ht3 : task_files w3 = delete tc (task_files w2)) by done.
  split.
  { rewrite Hw1, Hthreads. unfold mapping_cleanup. rewrite Htc. done. }
  split.
  { rewrite Ht3, Hw2, Htf2, Hw1, Htab.
    apply map_eq. intros c. destruct (decide (c = tc)) as [->|Hne].
    - by rewrite !lookup_delete_eq.
    - rewrite !lookup_delete_ne by done. by rewrite lookup_insert_ne. }
  split.
  - intros p Hp. specialize (Hrec2 p Hp). rewrite <- Hw2 in Hrec2.
    unfold reclaimed in *. rewrite Hn3, Hl3.
    rewrite Hw1, Hnodes, Hden in Hrec2. done.
  - intros q Hq. rewrite Hn3, Hw2, Hfr2 by done. rewrite Hw1, Hnodes. done.
Qed.

(** X9.  A result name that starts with a slash is not looked up under the
    temp directory: [os.path.join] returns the name itself, so the fetch
    returns the bytes of whatever regular file has that absolute path
    and hands that very path to the cleanup, which removes it when it
    runs. *)
Theorem absolute_result_name_escapes_temp fn tco w t d :
  Path.starts_with_slash fn = true ->
  nodes w !! fn = Some (File t d) ->
  output_path_of fn = fn
  /\ exists w',
       get_result fn tco w = (Ok (d, length d), w')
       /\ if bool_decide (CLEANUP_DELAY > 0)
          then exists rest,
                 threads w'
                 = threads w
                     ++ DoCleanup (now w + CLEANUP_DELAY) (fn :: rest)
                     :: mapping_cleanup tco (now w)
          else reclaimed fn w w'.
Proof.
  intros Habs Hfile.
  assert (Hout : output_path_of fn = fn).
  { unfold output_path_of, Path.join at 1. by rewrite Habs. }
  split; [done|].
  pose proof (get_result_spec fn tco w) as Hspec.
  rewrite Hout, Hfile in Hspec.
  destruct Hspec as (w' & Hrun & _ & _ & _ & _ & Hsched).
  exists w'. split; [done|]. cbv zeta in Hsched.
  unfold files_to_cleanup_of in Hsched. rewrite Hout in Hsched.
  case_bool_decide.
  - destruct Hsched as [_ Hthreads]. eexists. exact Hthreads.
  - destruct Hsched as (_ & _ & _ & Hrecl). apply Hrecl. by left.
Qed.


(** ** The sweep's log, expiry and repeated passes *)

(** What the directory loop writes to the log: one warning for each
    attempt that was refused, and nothing else. *)
Lemma sweep_files_log ct active l : forall st w,
  exists warnings,
    log (snd (sweep_files ct active st l w)) = warnings ++ log w
    /\ Forall (fun r => exists p,
                 p ∈ l /\ p ∈ unlink_denied w
                 /\ r = (WARNING, MsgSweepDeleteFailed p (PermissionError p)))
              warnings
    /\ forall p, p ∈ l -> classify ct active (nodes w) p <> Keep ->
                 p ∈ unlink_denied w ->
                 (WARNING, MsgSweepDeleteFailed p (PermissionError p))
                   ∈ warnings.
Proof.
  induction l as [|p0 r IH]; intros st w.
  - exists []. split; [done|]. split; [done|].
    intros p Hp. by apply elem_of_nil in Hp.
  - cbn [sweep_files]. unfold bind at 1. rewrite sweep_file_eq.
    assert (Hweak : forall (ws : list log_record) (den : gset string),
      Forall (fun r0 => exists p,
                p ∈ r /\ p ∈ den
                /\ r0 = (WARNING, MsgSweepDeleteFailed p (PermissionError p)))
             ws ->
      Forall (fun r0 => exists p,
                p ∈ p0 :: r /\ p ∈ den
                /\ r0 = (WARNING, MsgSweepDeleteFailed p (PermissionError p)))
             ws).
    { intros ws den Hws. eapply Forall_impl; [exact Hws|].
      intros r0 (p & Hp & Hd & ->).
      exists p. split; [by right|]. done. }
    assert (Hgo : forall v, classify ct active (nodes w) p0 = v -> v <> Keep ->
      exists warnings,
        log (snd (sweep_files ct active (count v st) r (unlink_attempt p0 w)))
        = warnings ++ log w
        /\ Forall (fun r0 => exists p,
                     p ∈ p0 :: r /\ p ∈ unlink_denied w
                     /\ r0 = (WARNING,
                              MsgSweepDeleteFailed p (PermissionError p)))
                  warnings
        /\ forall p, p ∈ p0 :: r -> classify ct active (nodes w) p <> Keep ->
                     p ∈ unlink_denied w ->
                     (WARNING, MsgSweepDeleteFailed p (PermissionError p))
                       ∈ warnings).
    { intros v Hv Hne.
      destruct (IH (count v st) (unlink_attempt p0 w))
        as (ws & Hlog & Hall & Hin).
      destruct (unlink_attempt_frame p0 w) as (_ & _ & Hd & _ & Hfr & _).
      rewrite Hd in Hall, Hin.
      unfold unlink_attempt in Hlog, Hin, Hfr |- *.
      destruct (bool_decide (p0 ∈ unlink_denied w)) eqn:Hden.
      - apply bool_decide_eq_true in Hden. cbn [log add_log nodes] in *.
        exists (ws ++ [(WARNING,
                        MsgSweepDeleteFailed p0 (PermissionError p0))]).
        split; [rewrite Hlog, <- app_assoc; done|]. split.
        + apply Forall_app. split; [by apply Hweak|].
          apply Forall_singleton. exists p0. split; [by left|]. done.
        + intros p Hp Hc Hd'. apply elem_of_app.
          destruct (decide (p = p0)) as [->|Hpp].
          * right. by apply list_elem_of_singleton.
          * left. apply Hin; [|done|done].
            apply elem_of_cons in Hp as [->|Hp]; done.
      - apply bool_decide_eq_false in Hden. cbn [log set_nodes nodes] in *.
        exists ws. split; [done|]. split; [by apply Hweak|].
        intros p Hp Hc Hd'.
        destruct (decide (p = p0)) as [->|Hpp]; [done|].
        apply Hin; [|rewrite (classify_ext _ _ _ (nodes w)); [done|]|done].
        + apply elem_of_cons in Hp as [->|Hp]; done.
        + by apply lookup_delete_ne. }
    destruct (classify ct active (nodes w) p0) eqn:Hc.
    + destruct (IH st w) as (ws & Hlog & Hall & Hin).
      exists ws. split; [done|]. split; [by apply Hweak|].
      intros p Hp Hcp Hd. apply Hin; [|done|done].
      apply elem_of_cons in Hp as [->|Hp]; [congruence|done].
    + apply (Hgo Orphan); done.
    + apply (Hgo Old); done.
Qed.

(** The log of a pass that could list the storage directory: the
    warnings of the directory loop, then the summary if anything was
    counted. *)
Lemma periodic_cleanup_log w :
  nodes w !! DUIX_DATA_DIR = Some Dir ->
  exists st w' warnings,
    periodic_cleanup w = (Ok (Some st), w')
    /\ log w'
       = (if bool_decide (0 < total_cleaned st)%nat
          then [(INFO, MsgSweepSummary (total_cleaned st))] else [])
           ++ warnings ++ log w
    /\ Forall (fun r => exists p,
                 p ∈ top_level (nodes w) /\ p ∈ unlink_denied w
                 /\ r = (WARNING, MsgSweepDeleteFailed p (PermissionError p)))
              warnings
    /\ forall p, p ∈ top_level (nodes w) ->
                 classify (now w) (active_file_set (task_files w)) (nodes w) p
                 <> Keep ->
                 p ∈ unlink_denied w ->
                 (WARNING, MsgSweepDeleteFailed p (PermissionError p))
                   ∈ warnings.
Proof.
  intros Hdir.
  unfold periodic_cleanup, bind at 1, time_time, try_except.
  unfold bind at 1, get_world. unfold bind at 1, iterdir. rewrite Hdir.
  fold (top_level (nodes w)).
  destruct (sweep_files_log (now w) (active_file_set (task_files w))
              (top_level (nodes w)) (Stats 0 0 0) w)
    as (ws & Hlog & Hall & Hin).
  destruct (sweep_files_spec (now w) (active_file_set (task_files w))
              (top_level (nodes w)) (Stats 0 0 0) w)
    as (st1 & w1 & Hrun & _).
  rewrite Hrun in Hlog. cbn [snd] in Hlog.
  unfold bind at 1. rewrite Hrun.
  destruct (expire_tasks_spec (now w) st1 w1)
    as (w2 & Hex & _ & _ & _ & _ & Hl2 & _).
  unfold bind at 1. rewrite Hex.
  unfold bind, logger, modify, ret, total_cleaned. cbn [orphan_files old_files expired_tasks].
  case_bool_decide; eexists _, _, ws; (split; [reflexivity|]);
    cbn [log add_log app orphan_files old_files expired_tasks];
    rewrite Hl2, Hlog.
  - rewrite bool_decide_eq_true_2 by done. done.
  - rewrite bool_decide_eq_false_2 by done. done.
Qed.


Lemma length_filter_split {A} (P : A -> Prop) `{!forall x, Decision (P x)}
    (l : list A) :
  (length (filter P l) + length (filter (fun x => ~ P x) l))%nat = length l.
Proof.
  induction l as [|x l IH]; [done|].
  rewrite !filter_cons. destruct (decide (P x)) as [Hx|Hx].
  - rewrite decide_False by (intros Hn; by apply Hn).
    simpl. by rewrite IH.
  - rewrite decide_True by done. simpl. rewrite <- IH. lia.
Qed.

Lemma size_map_filter {A} (P : string * A -> Prop)
    `{!forall x, Decision (P x)} (m : gmap string A) :
  size (filter P m) = length (filter P (map_to_list m)).
Proof.
  rewrite <- length_map_to_list, map_filter_alt.
  apply Permutation_length, map_to_list_to_map.
  apply (sublist_NoDup _ (map_to_list m).*1);
    [apply NoDup_fst_map_to_list|].
  apply fmap_sublist, sublist_filter.
Qed.

(** The records and the counter of the expiry block add up. *)
Lemma expiry_accounting ct (tf tf' : gmap string task_info) :
  (forall c,
     tf' !! c =
     match tf !! c with
     | Some i =>
         if bool_decide (ct - created_time i > MAX_FILE_AGE)
         then None else Some i
     | None => None
     end) ->
  (length (expired_codes ct tf) + size tf')%nat = size tf.
Proof.
  intros Hlook.
  assert (Heq : tf' = filter (fun kv => ~ ct - created_time (snd kv)
                                          > MAX_FILE_AGE) tf).
  { apply map_eq. intros c. rewrite Hlook.
    destruct (tf !! c) as [i|] eqn:Hc.
    - case_bool_decide as Hold; symmetry.
      + apply map_lookup_filter_None. right. intros i' Hi'.
        rewrite Hc in Hi'. injection Hi' as <-. simpl. intros Hn. by apply Hn.
      + apply map_lookup_filter_Some. done.
    - symmetry. apply map_lookup_filter_None. by left. }
  rewrite Heq, size_map_filter. unfold expired_codes.
  rewrite length_fmap, <- length_map_to_list.
  apply (length_filter_split
           (fun kv : string * task_info =>
              ct - created_time (snd kv) > MAX_FILE_AGE)).
Qed.



(** X11.  The counters count attempts, not removals: a file of the storage
    directory that is past its limit but whose removal is refused stays
    where it is, is counted all the same, and the refusal is logged; the
    summary of that pass includes it. *)
Theorem refused_unlink_is_still_counted w p t d :
  nodes w !! DUIX_DATA_DIR = Some Dir ->
  Path.is_child DUIX_DATA_DIR p = true ->
  nodes w !! p = Some (File t d) ->
  now w - t > (if bool_decide (p ∈ active_file_set (task_files w))
               then MAX_FILE_AGE else CLEANUP_DELAY) ->
  p ∈ unlink_denied w ->
  exists st w',
    periodic_cleanup w = (Ok (Some st), w')
    /\ nodes w' !! p = Some (File t d)
    /\ (0 < orphan_files st + old_files st)%nat
    /\ (WARNING, MsgSweepDeleteFailed p (PermissionError p)) ∈ log w'
    /\ (INFO, MsgSweepSummary (total_cleaned st)) ∈ log w'.
Proof.
  intros Hdir Hchild Hfile Hage Hden.
  set (active := active_file_set (task_files w)) in *.
  assert (Htop : p ∈ top_level (nodes w)).
  { apply elem_of_top_level. split; [done|]. by rewrite Hfile. }
  assert (Hverdict : classify (now w) active (nodes w) p <> Keep
                     /\ (is_orphan (now w) active (nodes w) p = true
                         \/ is_old (now w) active (nodes w) p = true)).
  { unfold is_orphan, is_old, classify. rewrite Hfile.
    destruct (bool_decide (p ∈ active));
      rewrite bool_decide_eq_true_2 by done; split; auto; done. }
  destruct Hverdict as [Hne Hcount].
  destruct (periodic_cleanup_log w Hdir)
    as (st & w' & ws & Hrun & Hlog & _ & Hwarn).
  destruct (periodic_cleanup_pass w Hdir)
    as (st0 & w0 & Hrun0 & _ & _ & _ & Hnodes & _).
  rewrite Hrun in Hrun0. injection Hrun0 as <- <-.
  pose proof (periodic_cleanup_stats w Hdir) as Hstats.
  cbv zeta in Hstats. rewrite Hrun in Hstats. cbn [fst] in Hstats.
  injection Hstats as Hst. fold active in Hst.
  assert (Hpos : (0 < orphan_files st + old_files st)%nat).
  { rewrite Hst. cbn [orphan_files old_files].
    destruct Hcount as [Ho|Ho].
    - assert (Hin : p ∈ filter
                (fun q => is_orphan (now w) active (nodes w) q = true)
                (top_level (nodes w)))
        by (by apply list_elem_of_filter).
      destruct (filter _ (top_level (nodes w))) as [|x l] eqn:Hl.
      + by apply elem_of_nil in Hin.
      + simpl. lia.
    - assert (Hin : p ∈ filter
                (fun q => is_old (now w) active (nodes w) q = true)
                (top_level (nodes w)))
        by (by apply list_elem_of_filter).
      destruct (filter (fun q => is_old _ _ _ q = true)
                       (top_level (nodes w))) as [|x l] eqn:Hl.
      + by apply elem_of_nil in Hin.
      + simpl. lia. }
  exists st, w'. split; [done|]. split.
  { rewrite Hnodes. rewrite decide_False; [done|].
    intros (_ & _ & Hn). by apply Hn. }
  split; [done|].
  rewrite Hlog.
  rewrite bool_decide_eq_true_2 by (unfold total_cleaned; lia).
  split.
  - apply elem_of_app. right. apply elem_of_app. left. by apply Hwarn.
  - by left.
Qed.

(** X12.  A pass that could list the storage directory drops exactly the
    records created more than [MAX_FILE_AGE] ago, whether or not their
    result was fetched, and leaves every other record as it was; the
    third counter is the number of records dropped. *)
Theorem sweep_expires_exactly_old_records w :
  nodes w !! DUIX_DATA_DIR = Some Dir ->
  exists st w',
    periodic_cleanup w = (Ok (Some st), w')
    /\ (forall c i,
          task_files w' !! c = Some i
          <-> task_files w !! c = Some i
              /\ now w - created_time i <= MAX_FILE_AGE)
    /\ (expired_tasks st + size (task_files w'))%nat = size (task_files w).
Proof.
  intros Hdir.
  destruct (periodic_cleanup_pass w Hdir)
    as (st & w' & Hrun & _ & _ & _ & _ & Htab).
  pose proof (periodic_cleanup_stats w Hdir) as Hstats.
  cbv zeta in Hstats. rewrite Hrun in Hstats. cbn [fst] in Hstats.
  injection Hstats as Hst.
  exists st, w'. split; [done|]. split.
  - intros c i. rewrite Htab.
    destruct (task_files w !! c) as [i0|]; [|split; [done|by intros [? _]]].
    case_bool_decide as Hold.
    + split; [done|]. intros [[= ->] Hyoung]. lia.
    + split.
      * intros [= ->]. split; [done|lia].
      * by intros [? _].
  - rewrite Hst. cbn [expired_tasks]. by apply expiry_accounting.
Qed.

(** X13.  When the storage directory cannot be listed the pass is cut
    short before the expiry block: it logs the error and returns, and
    nothing else happens; in particular records older than
    [MAX_FILE_AGE] stay in the table. *)
Theorem sweep_without_storage_dir w :
  nodes w !! DUIX_DATA_DIR <> Some Dir ->
  exists e w',
    periodic_cleanup w = (Ok None, w')
    /\ (e = FileNotFoundError DUIX_DATA_DIR
        \/ e = NotADirectoryError DUIX_DATA_DIR)
    /\ w' = add_log (ERROR, MsgSweepError e) w
    /\ task_files w' = task_files w
    /\ nodes w' = nodes w.
Proof.
  intros Hdir.
  unfold periodic_cleanup, bind at 1, time_time, try_except.
  unfold bind at 1, get_world. unfold bind at 1, iterdir.
  destruct (nodes w !! DUIX_DATA_DIR) as [[t d|]|]; [|done|].
  - exists (NotADirectoryError DUIX_DATA_DIR). eexists.
    split; [reflexivity|]. split; [by right|]. done.
  - exists (FileNotFoundError DUIX_DATA_DIR). eexists.
    split; [reflexivity|]. split; [by left|]. done.
Qed.

(** X14.  Files outlive their records by one pass.  A file of the storage
    directory that only expired records point to, and that is older
    than the cleanup delay, is gone after two passes (however much time
    lies between them), even where the first pass still spared it as
    the file of a live job. *)
Theorem expired_job_files_gone_after_two_passes w p t d delta :
  nodes w !! DUIX_DATA_DIR = Some Dir ->
  Path.is_child DUIX_DATA_DIR p = true ->
  nodes w !! p = Some (File t d) ->
  p ∉ unlink_denied w ->
  (forall c i, task_files w !! c = Some i -> references i p ->
               now w - created_time i > MAX_FILE_AGE) ->
  now w - t > CLEANUP_DELAY ->
  0 <= delta ->
  let w1 := snd (periodic_cleanup w) in
  let w2 := snd (periodic_cleanup (set_now (now w1 + delta) w1)) in
  nodes w2 !! p = None.
Proof.
  intros Hdir Hchild Hfile Hden Hexp Hage Hdelta w1 w2.
  destruct (periodic_cleanup_pass w Hdir)
    as (st & w1' & Hrun & Hnow1 & Hden1 & _ & Hnodes1 & Htab1).
  assert (Hw1 : w1 = w1') by (unfold w1; by rewrite Hrun).
  rewrite <- Hw1 in Hnow1, Hden1, Hnodes1, Htab1. clear Hrun Hw1 w1'.
  set (wt := set_now (now w1 + delta) w1) in *.
  assert (Hdir1 : nodes wt !! DUIX_DATA_DIR = Some Dir).
  { change (nodes wt) with (nodes w1). rewrite Hnodes1.
    rewrite decide_False; [done|]. intros (_ & Hc & _). apply Hc.
    unfold classify. by rewrite Hdir. }
  destruct (periodic_cleanup_pass wt Hdir1)
    as (st2 & w2' & Hrun2 & _ & _ & _ & Hnodes2 & _).
  assert (Hw2 : w2 = w2') by (unfold w2; by rewrite Hrun2).
  rewrite <- Hw2 in Hnodes2. clear Hrun2 Hw2 w2'.
  change (nodes wt) with (nodes w1) in Hnodes2.
  change (task_files wt) with (task_files w1) in Hnodes2.
  change (unlink_denied wt) with (unlink_denied w1) in Hnodes2.
  change (now wt) with (now w1 + delta) in Hnodes2.
  rewrite Hnodes2.
  destruct (nodes w1 !! p) as [n|] eqn:Hp1; [|by case_decide].
  assert (Hn : n = File t d).
  { rewrite Hnodes1, Hfile in Hp1. case_decide; congruence. }
  subst n.
  rewrite decide_True; [done|]. split; [|split].
  - apply elem_of_top_level. split; [done|]. by rewrite Hp1.
  - assert (Hinactive : p ∉ active_file_set (task_files w1)).
    { intros Hact. apply elem_of_active_file_set in Hact
        as (_ & c & i & Hc & Href).
      rewrite Htab1 in Hc.
      destruct (task_files w !! c) as [i0|] eqn:Hc0; [|done].
      case_bool_decide as Hold; [done|]. injection Hc as ->.
      apply Hold. by apply (Hexp c i). }
    unfold classify. rewrite Hp1.
    rewrite bool_decide_eq_false_2 by done.
    rewrite bool_decide_eq_true_2 by lia. done.
  - by rewrite Hden1.
Qed.

(** X15.  Being the file of a live job does not protect a file for ever:
    a file of the storage directory that a record points to is removed
    by the pass once its own modification time lies more than
    [MAX_FILE_AGE] back, and is counted as an old file; the record
    itself may stay. *)
Theorem stale_active_file_swept w p t d :
  nodes w !! DUIX_DATA_DIR = Some Dir ->
  Path.is_child DUIX_DATA_DIR p = true ->
  nodes w !! p = Some (File t d) ->
  p ∈ active_file_set (task_files w) ->
  now w - t > MAX_FILE_AGE ->
  p ∉ unlink_denied w ->
  exists st w',
    periodic_cleanup w = (Ok (Some st), w')
    /\ nodes w' !! p = None
    /\ (0 < old_files st)%nat
    /\ forall c i, task_files w !! c = Some i ->
                   now w - created_time i <= MAX_FILE_AGE ->
                   task_files w' !! c = Some i.
Proof.
  intros Hdir Hchild Hfile Hact Hage Hden.
  set (active := active_file_set (task_files w)) in *.
  assert (Htop : p ∈ top_level (nodes w)).
  { apply elem_of_top_level. split; [done|]. by rewrite Hfile. }
  assert (Hold : classify (now w) active (nodes w) p = Old).
  { unfold classify. rewrite Hfile.
    by rewrite !bool_decide_eq_true_2 by done. }
  destruct (periodic_cleanup_pass w Hdir)
    as (st & w' & Hrun & _ & _ & _ & Hnodes & Htab).
  pose proof (periodic_cleanup_stats w Hdir) as Hstats.
  cbv zeta in Hstats. rewrite Hrun in Hstats. cbn [fst] in Hstats.
  injection Hstats as Hst. fold active in Hst, Hnodes.
  exists st, w'. split; [done|]. split.
  { rewrite Hnodes. rewrite decide_True; [done|].
    split; [done|]. split; [by rewrite Hold|done]. }
  split.
  - rewrite Hst. cbn [old_files].
    assert (Hin : p ∈ filter
              (fun q => is_old (now w) active (nodes w) q = true)
              (top_level (nodes w))).
    { apply list_elem_of_filter. split; [|done].
      unfold is_old. by rewrite Hold. }
    destruct (filter (fun q => is_old _ _ _ q = true)
                     (top_level (nodes w))) as [|x l] eqn:Hl.
    + by apply elem_of_nil in Hin.
    + simpl. lia.
  - intros c i Hc Hyoung. rewrite Htab, Hc.
    rewrite bool_decide_eq_false_2 by lia. done.
Qed.


(** ** Invariants of the reachable states *)

Lemma submit_task_clock au vu env w :
  now w <= now (snd (submit_task au vu env w)).
Proof.
  unfold submit_task, catch_then. rewrite logger_then.
  set (wl := add_log (INFO, MsgSubmitDownloading) w).
  pose proof (download_file_clock au "audio" (audio_hex env)
                (audio_fetch env) wl) as Hca.
  change (now wl) with (now w) in Hca.
  destruct (download_file au "audio" (audio_hex env) (audio_fetch env) wl)
    as [[a|e1] w1]; cbn [snd] in Hca.
  - pose proof (download_file_clock vu "video" (video_hex env)
                  (video_fetch env) w1) as Hcv.
    destruct (download_file vu "video" (video_hex env) (video_fetch env) w1)
      as [[v|e2] w2]; cbn [snd] in Hcv.
    + pose proof (submit_to_engine_run (snd a) (snd v) (uuid4 env)
                    (post_elapsed env) (post env) w2) as Heng.
      destruct (rejection (post env)) as [e3|].
      * destruct Heng as (w3 & -> & _ & _ & _ & Hn3 & _).
        destruct (submit_failed_spec (Some (snd a)) (Some (snd v))
                    (Some (uuid4 env)) e3 w3) as (w4 & -> & _ & Hn4 & _).
        cbn [snd]. lia.
      * destruct Heng as (w3 & -> & _ & _ & _ & Hn3 & _). simpl. lia.
    + destruct (submit_failed_spec (Some (snd a)) None None e2 w2)
        as (w4 & -> & _ & Hn4 & _).
      cbn [snd]. lia.
  - destruct (submit_failed_spec None None None e1 w1)
      as (w4 & -> & _ & Hn4 & _).
    cbn [snd]. lia.
Qed.

(** The records after a submission: those there were, and at most one new
    one, created at the time the call returns and without a result. *)
Lemma submit_task_records au vu env w c i :
  task_files (snd (submit_task au vu env w)) !! c = Some i ->
  task_files w !! c = Some i
  \/ (created_time i = now (snd (submit_task au vu env w))
      /\ result_file i = None /\ result_retrieved_time i = None).
Proof.
  pose proof (submit_task_run au vu env w) as Hcase. cbv zeta in Hcase.
  set (wl := add_log (INFO, MsgSubmitDownloading) w) in *.
  pose proof (download_file_frame au "audio" (audio_hex env)
                (audio_fetch env) wl) as (Ht1 & _).
  change (task_files wl) with (task_files w) in Ht1.
  destruct (download_file au "audio" (audio_hex env) (audio_fetch env) wl)
    as [[a|e1] w1]; cbn [snd] in Ht1.
  - pose proof (download_file_frame vu "video" (video_hex env)
                  (video_fetch env) w1) as (Ht2 & _).
    destruct (download_file vu "video" (video_hex env) (video_fetch env) w1)
      as [[v|e2] w2]; cbn [snd] in Ht2.
    + destruct (rejection (post env)) as [e3|].
      * destruct Hcase as (w3 & -> & _ & Ht3 & _). cbn [snd].
        rewrite Ht3, Ht2, Ht1. intros Hc. left.
        destruct (truthy (uuid4 env)); [|done].
        apply lookup_delete_Some in Hc as [_ Hc]. done.
      * destruct Hcase as (w3 & -> & _ & Ht3 & _ & Hn3). cbn [snd].
        rewrite Ht3, Ht2, Ht1.
        destruct (decide (c = uuid4 env)) as [->|Hne].
        -- rewrite lookup_insert_eq. intros [= <-]. right. done.
        -- rewrite lookup_insert_ne by done. by left.
    + destruct Hcase as (w3 & -> & Ht3 & _). cbn [snd].
      rewrite Ht3, Ht2, Ht1. by left.
  - destruct Hcase as (w3 & -> & Ht3 & _). cbn [snd].
    rewrite Ht3, Ht1. by left.
Qed.

Lemma get_result_clock fn tco w :
  now (snd (get_result fn tco w)) = now w.
Proof.
  pose proof (get_result_spec fn tco w) as Hspec.
  destruct (nodes w !! output_path_of fn) as [[t d|]|] eqn:Hout.
  - destruct Hspec as (w' & -> & Hnow & _). done.
  - clear Hspec. unfold get_result, output_path_of, try_except in *.
    cbv zeta. rewrite logger_then.
    unfold bind at 1, os_path_exists. cbn [nodes add_log]. rewrite Hout.
    rewrite bool_decide_eq_true_2 by eauto.
    unfold bind at 1, ret. unfold bind at 1, read_rb.
    cbn [nodes add_log]. rewrite Hout. reflexivity.
  - clear Hspec. unfold get_result, output_path_of, try_except in *.
    cbv zeta. rewrite logger_then.
    unfold bind at 1, os_path_exists. cbn [nodes add_log]. rewrite Hout.
    rewrite bool_decide_eq_false_2 by (intros [x Hx]; done).
    reflexivity.
Qed.

(** The records after a fetch: those there were, one of them possibly
    stamped with the result path and the time of the fetch. *)
Lemma get_result_records fn tco w c i :
  task_files (snd (get_result fn tco w)) !! c = Some i ->
  task_files w !! c = Some i
  \/ exists i0,
       task_files w !! c = Some i0
       /\ i = with_result i0 (output_path_of fn) (now w).
Proof.
  pose proof (get_result_spec fn tco w) as Hspec.
  destruct (nodes w !! output_path_of fn) as [[t d|]|].
  - destruct Hspec as (w' & -> & _ & _ & _ & Htab & _). cbn [snd].
    destruct (known_job tco (task_files w)) as [[tc i0]|] eqn:Hk.
    + rewrite Htab.
      assert (Hi0 : task_files w !! tc = Some i0).
      { unfold known_job in Hk. destruct tco as [tc'|]; [|done].
        destruct (truthy tc'); [|done].
        destruct (task_files w !! tc') as [i1|] eqn:Hc'; [|done].
        by injection Hk as -> ->. }
      destruct (decide (c = tc)) as [->|Hne].
      * rewrite lookup_insert_eq. intros [= <-]. right. eauto.
      * rewrite lookup_insert_ne by done. by left.
    + destruct Htab as [-> _]. by left.
  - destruct Hspec as (e & w' & -> & Htab & _). cbn [snd].
    rewrite Htab. by left.
  - destruct Hspec as (e & w' & -> & Htab & _). cbn [snd].
    rewrite Htab. by left.
Qed.

Lemma timely_later tf t t' : t <= t' -> timely tf t -> timely tf t'.
Proof.
  intros Hle Htf c i Hc. destruct (Htf c i Hc) as (Hcr & Hret & Hboth).
  split; [lia|]. split; [|done].
  intros r Hr. specialize (Hret r Hr). lia.
Qed.

Lemma timely_subset tf tf' t :
  (forall c i, tf' !! c = Some i -> tf !! c = Some i) ->
  timely tf t -> timely tf' t.
Proof. intros Hsub Htf c i Hc. apply (Htf c i). by apply Hsub. Qed.

Lemma step_timely w w' :
  step w w' -> timely (task_files w) (now w) ->
  timely (task_files w') (now w').
Proof.
  intros Hstep Htf.
  destruct Hstep as [w au vu env|w fn tco|w|w th before after Hth Hwake
                    |w dt Hdt|w fs denied].
  - intros c i Hc.
    destruct (submit_task_records au vu env w c i Hc)
      as [Hold|(Hcr & Hrf & Hrt)].
    + pose proof (submit_task_clock au vu env w) as Hclock.
      apply (timely_later _ _ _ Hclock Htf c i Hold).
    + rewrite Hcr, Hrf, Hrt. split; [lia|]. split; [done|done].
  - rewrite get_result_clock. intros c i Hc.
    destruct (get_result_records fn tco w c i Hc) as [Hold|(i0 & Hi0 & ->)].
    + by apply (Htf c i).
    + destruct (Htf c i0 Hi0) as (Hcr & _ & _).
      cbn [with_result created_time result_retrieved_time result_file].
      split; [done|]. split; [|done].
      intros r [= <-]. lia.
  - destruct (periodic_cleanup_total w) as (r & w' & Hrun & Hnow & _).
    rewrite Hrun. cbn [snd]. rewrite Hnow.
    apply (timely_subset (task_files w)); [|done].
    intros c i Hc.
    assert (Hcases : nodes w !! DUIX_DATA_DIR = Some Dir
                     \/ nodes w !! DUIX_DATA_DIR <> Some Dir).
    { destruct (nodes w !! DUIX_DATA_DIR) as [[t d|]|]; auto. }
    destruct Hcases as [Hdir|Hdir].
    + destruct (periodic_cleanup_pass w Hdir)
        as (st & w2 & Hrun2 & _ & _ & _ & _ & Htab).
      rewrite Hrun in Hrun2. injection Hrun2 as _ <-.
      rewrite Htab in Hc.
      destruct (task_files w !! c) as [i0|]; [|done].
      by case_bool_decide.
    + destruct (periodic_cleanup_no_dir w Hdir) as (e & Hrun2).
      rewrite Hrun in Hrun2. injection Hrun2 as _ ->. done.
  - destruct th as [wake l|wake tc]; cbn [run_thread].
    + destruct (do_cleanup_spec l (set_threads (before ++ after) w))
        as (w2 & -> & (Htab & _) & Hnow & _).
      cbn [snd]. rewrite Htab, Hnow. done.
    + unfold pop_task, modify. cbn.
      apply (timely_subset (task_files w)); [|done].
      intros c i Hc. apply lookup_delete_Some in Hc as [_ Hc]. done.
  - apply (timely_later _ (now w)); [cbn; lia|done].
  - done.
Qed.

Lemma reachable_timely w :
  reachable w -> timely (task_files w) (now w).
Proof.
  induction 1 as [w0|w w' Hr IH Hstep].
  - intros c i Hc. simpl in Hc. by rewrite lookup_empty in Hc.
  - by apply (step_timely w w').
Qed.

(** X16.  In every state the service can reach, the two input paths of a
    record are non-empty strings.  So the guards on them never drop a
    path: all the paths a record holds protect their files in the
    sweep, and a fetch for the job hands the result and both inputs to
    the cleanup. *)
Theorem recorded_paths_are_never_empty w c i :
  reachable w ->
  task_files w !! c = Some i ->
  audio_local i <> "" /\ video_local i <> ""
  /\ (forall p, references i p -> p ∈ active_file_set (task_files w))
  /\ forall fn,
       files_to_cleanup_of fn (Some (c, i))
       = [output_path_of fn; audio_local i; video_local i].
Proof.
  intros Hreach Hc.
  pose proof (reachable_paths_nonempty w Hreach) as Hne.
  assert (Ha : audio_local i <> "").
  { apply (Hne c i); [done|]. unfold references, path_keys. by left. }
  assert (Hv : video_local i <> "").
  { apply (Hne c i); [done|]. unfold references, path_keys.
    right. by left. }
  split; [done|]. split; [done|]. split.
  - intros p Hp. apply elem_of_active_file_set. split; [|eauto].
    apply truthy_nonempty. by apply (Hne c i).
  - intros fn. unfold files_to_cleanup_of.
    apply truthy_nonempty in Ha, Hv. rewrite Ha, Hv. done.
Qed.

(** X17.  In every state the service can reach the times of a record are
    in order: its creation lies in the past, so its age in the sweep is
    never negative; a fetch time, if set, lies between the creation and
    now; and the result path and the fetch time are set together. *)
Theorem record_times_are_ordered w c i :
  reachable w ->
  task_files w !! c = Some i ->
  0 <= now w - created_time i
  /\ (forall r, result_retrieved_time i = Some r ->
                created_time i <= r <= now w)
  /\ (result_file i = None <-> result_retrieved_time i = None).
Proof.
  intros Hreach Hc.
  destruct (reachable_timely w Hreach c i Hc) as (Hcr & Hret & Hboth).
  split; [lia|]. done.
Qed.


(** ** Further edge cases *)

(** X18.  A download that fails before a byte is written (the request
    raises, or the status is an error) still runs the cleanup of the
    [except] block on its target path: a regular file that was there
    before, from an earlier download of the same name, is removed. *)
Theorem unanswered_download_removes_existing_file url ft hex f w t d :
  let lp := local_path_of url ft hex (now w) in
  (reply f = GetRaises \/ exists body, reply f = GetReply false body) ->
  nodes w !! lp = Some (File t d) ->
  lp ∉ unlink_denied w ->
  exists w',
    download_file url ft hex f w
    = (Raise (HTTPException 400
                (match reply f with
                 | GetRaises => RequestException
                 | GetReply _ _ => HTTPError
                 end)), w')
    /\ nodes w' !! lp = None.
Proof.
  intros lp Hreply Hfile Hden.
  assert (Hfail : forall e wb,
            nodes wb !! lp = Some (File t d) ->
            unlink_denied wb = unlink_denied w ->
            exists w',
              download_failed url lp e wb = (Raise (HTTPException 400 e), w')
              /\ nodes w' !! lp = None).
  { intros e wb Hlp Hd.
    destruct (download_file_handler url lp e wb) as (w' & Hrun & Hcase & _).
    rewrite Hlp, Hd in Hcase.
    rewrite bool_decide_eq_false_2 in Hcase by done. eauto. }
  assert (Hopen :
    download_file url ft hex f w
    = try_except
        (response <- requests_get f ;;
         raise_for_status (fst response) ;;;
         open_wb lp ;;;
         write_chunks lp (snd response) ;;;
         file_size <- os_path_getsize lp ;;
         logger INFO (MsgDownloadDone lp file_size) ;;;
         ret ("/code/data/" +:+ choose_filename url ft hex (now w), lp))
        (download_failed url lp)
        (add_log (INFO, MsgDownloadStart ft url) w)) by reflexivity.
  rewrite Hopen. clear Hopen.
  generalize (choose_filename url ft hex (now w)). intros filename.
  clearbody lp.
  unfold try_except, bind at 1, requests_get.
  unfold bind at 1, modify. cbn [snd fst].
  destruct Hreply as [Hr|[body Hr]]; rewrite Hr; cbn [raise ret fst snd].
  - by apply Hfail.
  - cbn [raise_for_status]. unfold bind at 1, raise. by apply Hfail.
Qed.

Lemma basename_no_slash p :
  Path.has_char Path.slash (Path.basename p) = false.
Proof.
  induction p as [|a r IH]; [done|].
  cbn [Path.basename].
  destruct (Path.has_char Path.slash r) eqn:Hr; [done|].
  destruct (Ascii.eqb a Path.slash) eqn:Ha; [done|].
  cbn [Path.has_char]. by rewrite Ha.
Qed.

(** X19.  When the URL's path ends in a name with a dot (other than the
    directory references [.] and [..]), that name alone decides where
    the download is stored: the local path is the storage directory, a
    slash and the name, whatever the file type, the time and the random
    suffix, so two downloads of equally named URLs write the same file.
    The path is an entry of the storage directory, within the sweep's
    reach. *)
Theorem named_download_lands_in_storage_dir url ft hex t :
  DUIX_DATA_DIR <> "" ->
  Path.ends_with_slash DUIX_DATA_DIR = false ->
  let name := Path.basename (urlparse_path url) in
  name <> "" ->
  Path.has_char Path.dot name = true ->
  name <> "." -> name <> ".." ->
  local_path_of url ft hex t = DUIX_DATA_DIR +:+ "/" +:+ name
  /\ Path.is_child DUIX_DATA_DIR (local_path_of url ft hex t) = true.
Proof.
  intros Hdir Hend name Hname Hdot _ _.
  pose proof (basename_no_slash (urlparse_path url)) as Hslash.
  fold name in Hslash.
  assert (Hpath : local_path_of url ft hex t = DUIX_DATA_DIR +:+ "/" +:+ name).
  { unfold local_path_of, choose_filename. cbv zeta. fold name.
    apply truthy_nonempty in Hname. rewrite Hname, Hdot. cbn [negb orb].
    unfold Path.join.
    assert (Hstart : Path.starts_with_slash name = false).
    { destruct name as [|a r]; [done|].
      cbn [Path.has_char] in Hslash. cbn [Path.starts_with_slash].
      by destruct (Ascii.eqb a Path.slash). }
    rewrite Hstart, Hend.
    by rewrite bool_decide_eq_false_2 by done. }
  split; [done|]. rewrite Hpath.
  unfold Path.is_child. rewrite strip_prefix_app.
  change (Path.strip_prefix "/" ("/" +:+ name)) with (Some name).
  cbv beta iota. rewrite Hslash. by rewrite bool_decide_eq_false_2 by done.
Qed.

(** X20.  An empty job id counts as no job id: the fetch looks up no
    record, logs no warning about a missing one, leaves the table alone
    and starts no thread for the record. *)
Theorem empty_job_id_is_no_job_id fn w :
  get_result fn (Some "") w = get_result fn None w
  /\ task_files (snd (get_result fn (Some "") w)) = task_files w
  /\ forall wake,
       CleanupTaskMapping wake "" ∈ threads (snd (get_result fn (Some "") w))
       -> CleanupTaskMapping wake "" ∈ threads w.
Proof.
  split; [reflexivity|].
  pose proof (get_result_spec fn (Some "") w) as Hspec.
  destruct (nodes w !! output_path_of fn) as [[t d|]|].
  - destruct Hspec as (w' & -> & _ & _ & _ & Htab & Hsched). cbn [snd].
    change (known_job (Some "") (task_files w)) with (@None (string * task_info))
      in Htab, Hsched.
    destruct Htab as [Htab _]. split; [done|].
    intros wake Hin. cbv zeta in Hsched.
    change (mapping_cleanup (Some "") (now w)) with (@nil thread) in Hsched.
    case_bool_decide.
    + destruct Hsched as [_ Hth]. rewrite Hth in Hin.
      apply elem_of_app in Hin as [Hin|Hin]; [done|].
      apply list_elem_of_singleton in Hin. done.
    + destruct Hsched as [Hth _]. rewrite Hth, app_nil_r in Hin. done.
  - destruct Hspec as (e & w' & -> & Htab & _ & Hth). cbn [snd].
    split; [done|]. intros wake. by rewrite Hth.
  - destruct Hspec as (e & w' & -> & Htab & _ & Hth). cbn [snd].
    split; [done|]. intros wake. by rewrite Hth.
Qed.


(** X21.  A sweep pass never raises, whatever the state: it returns its
    counters, or nothing when the storage directory could not be listed.
    It leaves the clock and the threads alone, adds no record, and so
    never sends its worker loop into the error branch. *)
Theorem sweep_never_raises w :
  exists r w',
    periodic_cleanup w = (Ok r, w')
    /\ (r = None <-> nodes w !! DUIX_DATA_DIR <> Some Dir)
    /\ now w' = now w
    /\ threads w' = threads w
    /\ forall c i, task_files w' !! c = Some i -> task_files w !! c = Some i.
Proof.
  assert (Hcases : nodes w !! DUIX_DATA_DIR = Some Dir
                   \/ nodes w !! DUIX_DATA_DIR <> Some Dir).
  { destruct (nodes w !! DUIX_DATA_DIR) as [[t d|]|]; auto. }
  destruct Hcases as [Hdir|Hdir].
  - destruct (periodic_cleanup_pass w Hdir)
      as (st & w' & Hrun & Hnow & _ & Hth & _ & Htab).
    exists (Some st), w'. split; [done|].
    split; [split; [done|by intros Hno]|].
    split; [done|]. split; [done|].
    intros c i. rewrite Htab.
    destruct (task_files w !! c) as [i0|]; [|done].
    by case_bool_decide.
  - destruct (periodic_cleanup_no_dir w Hdir) as (e & Hrun).
    eexists None, _. split; [exact Hrun|]. done.
Qed.

End Properties.

(** * The properties at work on the default configuration *)


(** C1 at work: midway through, the staged audio of job-1 is kept and the
    stray file, a thousand seconds old, is removed. *)
Lemma active_file_kept_unless_too_old_witness :
  let w' := snd (periodic_cleanup Default.data_dir Default.cleanup_delay
                                  Default.max_file_age Default.midway) in
  nodes w' !! "/code/data/audio.mp3" = Some (File 1050 [x41; x42])
  /\ nodes w' !! "/code/data/stray.bin" = None.
Proof.
  split.
  - apply (active_file_kept_unless_too_old
             Default.data_dir Default.cleanup_delay Default.max_file_age
             Default.midway "/code/data/audio.mp3" 1050 [x41; x42]).
    + compute_done.
    + compute_done.
    + compute_done.
  - apply (active_file_kept_unless_too_old
             Default.data_dir Default.cleanup_delay Default.max_file_age
             Default.midway "/code/data/stray.bin" 4000 [x00]).
    + compute_done.
    + compute_done.
    + compute_done.
    + compute_done.
    + compute_done.
    + compute_done.
Defined.

(** C3 at work: ten seconds after it was written the stray file survives a
    pass; a thousand seconds after, the pass removes it. *)
Lemma orphan_swept_iff_past_grace_witness :
  nodes (snd (periodic_cleanup Default.data_dir Default.cleanup_delay
                               Default.max_file_age Default.early))
    !! "/code/data/stray.bin" = Some (File 4000 [x00])
  /\ nodes (snd (periodic_cleanup Default.data_dir Default.cleanup_delay
                                  Default.max_file_age Default.midway))
       !! "/code/data/stray.bin" = None.
Proof.
  split.
  - destruct (orphan_swept_iff_past_grace
                Default.data_dir Default.cleanup_delay Default.max_file_age
                Default.early "/code/data/stray.bin" 4000 [x00])
      as (Hkeep & _); [compute_done..|].
    apply Hkeep. compute_done.
  - destruct (orphan_swept_iff_past_grace
                Default.data_dir Default.cleanup_delay Default.max_file_age
                Default.midway "/code/data/stray.bin" 4000 [x00])
      as (_ & Hgone & _); [compute_done..|].
    apply Hgone; compute_done.
Defined.

(** C4 as stated fails: two hours and ten seconds after the audio of
    job-1 was staged, the record of job-1 is there, it is 7160 seconds
    old (not past MAX_FILE_AGE = 7200), its audio path is in the active
    set, and the pass deletes the audio file, which is 7210 seconds old;
    the record is still there after the pass. *)
Lemma stale_input_of_live_record_swept :
  let w := Default.aged in
  let w' := snd (periodic_cleanup Default.data_dir Default.cleanup_delay
                                  Default.max_file_age w) in
  reachable Default.data_dir Default.cleanup_delay Default.max_file_age
            Url.path w
  /\ exists i,
       task_files w !! "job-1" = Some i
       /\ references i "/code/data/audio.mp3"
       /\ "/code/data/audio.mp3" ∈ active_file_set (task_files w)
       /\ now w - created_time i <= Default.max_file_age
       /\ nodes w !! "/code/data/audio.mp3" = Some (File 1050 [x41; x42])
       /\ nodes w' !! "/code/data/audio.mp3" = None
       /\ task_files w' !! "job-1" = Some i.
Proof.
  split.
  - apply (reachable_step _ _ _ _ (snd Default.submit1)).
    + apply (reachable_step _ _ _ _ Default.started).
      * apply reachable_init.
      * apply step_submit.
    + apply (step_tick _ _ _ _ (snd Default.submit1) 7160). compute_done.
  - exists (TaskInfo "/code/data/audio.mp3"
                     "/code/data/1050_video_fedcba98.mp4" 1100 None None).
    split_and!; try compute_done. by left.
Qed.

(** C4 as amended, at work: midway through, the audio of job-1 is 3950
    seconds old and the pass keeps it. *)
Lemma record_file_kept_unless_file_too_old_witness :
  nodes (snd (periodic_cleanup Default.data_dir Default.cleanup_delay
                               Default.max_file_age Default.midway))
    !! "/code/data/audio.mp3" = Some (File 1050 [x41; x42]).
Proof.
  apply (record_file_kept_unless_file_too_old
           Default.data_dir Default.cleanup_delay Default.max_file_age
           Default.midway "job-1"
           (TaskInfo "/code/data/audio.mp3"
                     "/code/data/1050_video_fedcba98.mp4" 1100 None None)).
  - compute_done.
  - by left.
  - compute_done.
  - compute_done.
Defined.




(** C6 at work: the audio is staged, the video download cannot connect;
    the submission fails with status 500, the audio file is gone and the
    table is as it was. *)
Lemma submit_failure_reclaims_witness :
  fst Default.failed_submit
  = Raise (HTTPException 500 (HTTPException 400 RequestException))
  /\ staged_inputs Default.data_dir Url.path "http://host/media/audio.mp3"
                   "http://host/media/video.mp4" Default.env_video_fails
                   Default.started
     = ["/code/data/audio.mp3"]
  /\ nodes (snd Default.failed_submit) !! "/code/data/audio.mp3" = None
  /\ forall c i, task_files (snd Default.failed_submit) !! c = Some i ->
                 task_files Default.started !! c = Some i.
Proof.
  destruct (submit_failure_reclaims
              Default.data_dir Url.path "http://host/media/audio.mp3"
              "http://host/media/video.mp4" Default.env_video_fails
              Default.started
              (HTTPException 500 (HTTPException 400 RequestException))
              (snd Default.failed_submit))
    as (_ & Hsub & _ & _ & Hstaged); [compute_done|].
  split; [compute_done|]. split; [compute_done|]. split; [|exact Hsub].
  assert (Hin : "/code/data/audio.mp3"
                ∈ staged_inputs Default.data_dir Url.path
                    "http://host/media/audio.mp3"
                    "http://host/media/video.mp4" Default.env_video_fails
                    Default.started) by compute_done.
  destruct (Hstaged "/code/data/audio.mp3" Hin) as [Hgone|[Hden _]].
  - exact Hgone.
  - exfalso. revert Hden. compute_done.
Defined.

(** C7 at work: the stream breaks after the first chunk was written; the
    download fails with status 400 and no file is left at its target. *)
Lemma download_failure_removes_partial_file_witness :
  fst Default.failed_download = Raise (HTTPException 400 ChunkError)
  /\ forall t d,
       nodes (snd Default.failed_download) !! "/code/data/video.mp4"
       <> Some (File t d).
Proof.
  destruct (download_failure_removes_partial_file
              Default.data_dir Url.path "http://host/media/video.mp4" "video"
              "fedcba9876543210" Default.broken_fetch Default.started
              (HTTPException 400 ChunkError) (snd Default.failed_download))
    as (_ & Hgone & _); [compute_done|].
  split; [compute_done|].
  apply Hgone. compute_done.
Defined.

(** C8 at work: reclaiming at once the staged audio of job-1 and a path
    that does not exist; the call returns, the audio is gone, the
    missing path is still missing and the video, not listed, is as it
    was. *)
Lemma cleanup_files_total_witness :
  exists w',
    cleanup_files ["/code/data/audio.mp3"; "/code/data/missing"] 0
                  (snd Default.submit1) = (Ok tt, w')
    /\ threads w' = threads (snd Default.submit1)
    /\ nodes w' !! "/code/data/audio.mp3" = None
    /\ nodes w' !! "/code/data/missing" = None
    /\ nodes w' !! "/code/data/1050_video_fedcba98.mp4"
       = Some (File 1100 [x43; x44]).
Proof.
  destruct (cleanup_files_total
              ["/code/data/audio.mp3"; "/code/data/missing"] 0
              (snd Default.submit1))
    as (w' & Hrun & Habsent & Hframe & _ & _ & Hnow).
  destruct Hnow as (Hth & _ & Hgone & _); [compute_done|].
  exists w'. split; [exact Hrun|]. split; [exact Hth|]. split; [|split].
  - apply (Hgone "/code/data/audio.mp3" 1050 [x41; x42]); compute_done.
  - apply Habsent. compute_done.
  - rewrite Hframe by compute_done. compute_done.
Defined.

(** C9 at work: the result is on disk, the job id is unknown; the fetch
    returns the byte of the file and the table stays empty. *)
Lemma fetch_for_unknown_job_witness :
  exists w',
    get_result Default.data_dir Default.cleanup_delay "out.mp4" (Some "ghost")
               Default.produced
    = (Ok ([x47], 1%nat), w')
    /\ task_files w' = task_files Default.produced.
Proof.
  destruct (fetch_for_unknown_job
              Default.data_dir Default.cleanup_delay "out.mp4" "ghost"
              Default.produced 1900 [x47])
    as (w' & Hrun & Htf & _); [compute_done..|].
  exists w'. split; [exact Hrun|exact Htf].
Defined.

(** C10 at work: a result file under temp, a day old and referenced by no
    record, is still there after a pass. *)
Lemma sweep_reaches_top_level_files_only_witness :
  nodes (snd (periodic_cleanup Default.data_dir Default.cleanup_delay
                               Default.max_file_age Default.forgotten))
    !! output_path_of Default.data_dir "out.mp4"
  = Some (File 1900 [x47]).
Proof.
  destruct (sweep_reaches_top_level_files_only
              Default.data_dir Default.cleanup_delay Default.max_file_age
              Default.forgotten)
    as (_ & _ & Htemp & _).
  rewrite (Htemp "out.mp4"); compute_done.
Defined.

(** * The further properties at work on the default configuration *)

(** X1 at work: the audio of job-1 downloaded on its own; after 50
    seconds its two bytes are in the storage directory. *)
Lemma download_stores_body_witness :
  nodes (snd Default.fetched) !! "/code/data/audio.mp3"
  = Some (File 1050 [x41; x42]).
Proof.
  destruct (download_stores_body
              Default.data_dir Url.path "http://host/media/audio.mp3" "audio"
              "0123456789abcdef" (Default.ok_fetch 50 [x41; x42])
              Default.started
              ("/code/data/audio.mp3", "/code/data/audio.mp3")
              (snd Default.fetched))
    as (body & Hreply & _ & _ & Hfile & _); [compute_done|].
  injection Hreply as <-. exact Hfile.
Defined.

(** X2 at work: the stream breaks after the first chunk; the download
    raises status 400. *)
Lemma download_returns_only_if_witness :
  exists cause,
    fst Default.failed_download = Raise (HTTPException 400 cause).
Proof.
  destruct (download_returns_only_if
              Default.data_dir Url.path "http://host/media/video.mp4" "video"
              "fedcba9876543210" Default.broken_fetch Default.started)
    as (Hraises & _).
  destruct Hraises as (cause & w' & Hrun).
  - right. right. left. exists [Data [x01]; Fault]. split; reflexivity.
  - exists cause. unfold Default.failed_download. rewrite Hrun. reflexivity.
Defined.

(** X3 at work: the downloads take 50 seconds each and the engine three
    seconds to answer; job-5 is created at 1103, over files written at
    1050 and 1100. *)
Lemma submit_success_registers_job_witness :
  task_files (snd Default.slow_submit)
  = <["job-5" := TaskInfo "/code/data/audio.mp3"
                          "/code/data/1050_video_fedcba98.mp4"
                          1103 None None]> (task_files Default.started)
  /\ now (snd Default.slow_submit) = 1103
  /\ threads (snd Default.slow_submit) = [].
Proof.
  destruct (submit_success_registers_job
              Default.data_dir Url.path "http://host/media/audio.mp3"
              "http://host/video" Default.env_slow Default.started
              "job-5" (snd Default.slow_submit))
    as (_ & _ & Htab & Hnow & Hth & _); [compute_done|].
  split; [exact Htab|]. split; [exact Hnow|exact Hth].
Defined.

(** X4 at work: both downloads return and the engine answers with code
    10001; the submission fails with that reason. *)
Lemma submit_outcome_by_engine_reply_witness :
  fst Default.rejected_submit
  = Raise (HTTPException 500 (DuixSubmitRejected (Some 10001))).
Proof.
  destruct (submit_outcome_by_engine_reply
              Default.data_dir Url.path "http://host/media/audio.mp3"
              "http://host/video" Default.env_rejected Default.started)
    as (w' & Hrun & _); [compute_done|].
  unfold Default.rejected_submit. rewrite Hrun. reflexivity.
Defined.

(** X5 at work: the second submission leaves the video of job-1 alone. *)
Lemma submit_touches_only_its_two_paths_witness :
  nodes (snd Default.submit2) !! "/code/data/1050_video_fedcba98.mp4"
  = nodes (snd Default.submit1) !! "/code/data/1050_video_fedcba98.mp4".
Proof.
  apply (submit_touches_only_its_two_paths
           Default.data_dir Url.path "http://host/media/audio.mp3"
           "http://host/video" Default.env2 (snd Default.submit1)
           "/code/data/1050_video_fedcba98.mp4"); compute_done.
Defined.

(** X6 at work: job-1 is registered but the engine has produced nothing
    yet; the fetch fails and the record stays. *)
Lemma fetch_without_file_witness :
  fst (get_result Default.data_dir Default.cleanup_delay "out.mp4"
                  (Some "job-1") (snd Default.submit1))
  = Raise (HTTPException 500 (ResultFileMissing "out.mp4"))
  /\ task_files (snd (get_result Default.data_dir Default.cleanup_delay
                                 "out.mp4" (Some "job-1")
                                 (snd Default.submit1)))
     = task_files (snd Default.submit1).
Proof.
  rewrite (fetch_without_file
             Default.data_dir Default.cleanup_delay "out.mp4" (Some "job-1")
             (snd Default.submit1)) by compute_done.
  split; compute_done.
Defined.

(** X7 at work: the result of job-1 is fetched at time 1500; the cleanup
    of its three files is due at 1560, that of its record at 1570. *)
Lemma fetch_for_known_job_witness :
  exists w',
    get_result Default.data_dir Default.cleanup_delay "out.mp4"
               (Some "job-1") Default.delivered
    = (Ok ([x47], 1%nat), w')
    /\ threads w'
       = [DoCleanup 1560 ["/code/data/temp/out.mp4"; "/code/data/audio.mp3";
                          "/code/data/1050_video_fedcba98.mp4"];
          CleanupTaskMapping 1570 "job-1"].
Proof.
  destruct (fetch_for_known_job
              Default.data_dir Default.cleanup_delay "out.mp4" "job-1"
              (TaskInfo "/code/data/audio.mp3"
                        "/code/data/1050_video_fedcba98.mp4" 1100 None None)
              Default.delivered 1400 [x47])
    as (w' & Hrun & _ & _ & _ & Hth); [compute_done..|].
  exists w'. split; [exact Hrun|exact Hth].
Defined.

(** X8 at work: once both threads have run, job-1 and its three files are
    gone. *)
Lemma fetched_job_is_reclaimed_witness :
  let w1 := snd (get_result Default.data_dir Default.cleanup_delay "out.mp4"
                            (Some "job-1") Default.delivered) in
  let w2 := snd (run_thread
                   (DoCleanup 1560
                      ["/code/data/temp/out.mp4"; "/code/data/audio.mp3";
                       "/code/data/1050_video_fedcba98.mp4"]) w1) in
  let w3 := snd (run_thread (CleanupTaskMapping 1570 "job-1") w2) in
  task_files w3 = delete "job-1" (task_files Default.delivered)
  /\ nodes w3 !! "/code/data/audio.mp3" = None.
Proof.
  intros w1 w2 w3.
  assert (Hfile : nodes Default.delivered
                    !! output_path_of Default.data_dir "out.mp4"
                  = Some (File 1400 [x47])) by compute_done.
  assert (Hid : truthy "job-1" = true) by compute_done.
  assert (Hjob : task_files Default.delivered !! "job-1"
                 = Some (TaskInfo "/code/data/audio.mp3"
                                  "/code/data/1050_video_fedcba98.mp4"
                                  1100 None None)) by compute_done.
  assert (Hdelay : Default.cleanup_delay > 0) by compute_done.
  pose proof (fetched_job_is_reclaimed
                Default.data_dir Default.cleanup_delay "out.mp4" "job-1" _
                Default.delivered 1400 [x47] Hfile Hid Hjob Hdelay) as Hlife.
  cbv zeta in Hlife. destruct Hlife as (_ & Htab & Hrec & _).
  split; [exact Htab|].
  destruct (Hrec "/code/data/audio.mp3") as [Hgone|(_ & [Hden|Hdir] & _)].
  - compute_done.
  - exact Hgone.
  - exfalso. revert Hden. compute_done.
  - exfalso.
    assert (Hnode : nodes Default.delivered !! "/code/data/audio.mp3"
                    = Some (File 1050 [x41; x42])) by compute_done.
    rewrite Hnode in Hdir. discriminate Hdir.
Defined.

(** X9 at work: asked for the result named [/code/data/audio.mp3], the
    fetch returns the staged audio of job-1 and schedules its removal. *)
Lemma absolute_result_name_escapes_temp_witness :
  exists w' rest,
    get_result Default.data_dir Default.cleanup_delay "/code/data/audio.mp3"
               None (snd Default.submit1)
    = (Ok ([x41; x42], 2%nat), w')
    /\ threads w' = [DoCleanup 1160 ("/code/data/audio.mp3" :: rest)].
Proof.
  destruct (absolute_result_name_escapes_temp
              Default.data_dir Default.cleanup_delay "/code/data/audio.mp3"
              None (snd Default.submit1) 1050 [x41; x42])
    as (_ & w' & Hrun & Hsched); [compute_done..|].
  destruct Hsched as (rest & Hth).
  exists w', rest. split; [exact Hrun|exact Hth].
Defined.


(** X11 at work: the removal of the stray file is refused; the file
    stays, and the pass counts and reports it all the same. *)
Lemma refused_unlink_is_still_counted_witness :
  exists st w',
    periodic_cleanup Default.data_dir Default.cleanup_delay
                     Default.max_file_age Default.guarded
    = (Ok (Some st), w')
    /\ nodes w' !! "/code/data/stray.bin" = Some (File 4000 [x00])
    /\ (INFO, MsgSweepSummary (total_cleaned st)) ∈ log w'.
Proof.
  destruct (refused_unlink_is_still_counted
              Default.data_dir Default.cleanup_delay Default.max_file_age
              Default.guarded "/code/data/stray.bin" 4000 [x00])
    as (st & w' & Hrun & Hfile & _ & _ & Hsum); [compute_done..|].
  exists st, w'. split; [exact Hrun|]. split; [exact Hfile|exact Hsum].
Defined.

(** X12 at work: at time 8350 the record of job-1 is 7250 seconds old and
    is dropped. *)
Lemma sweep_expires_exactly_old_records_witness :
  exists st w',
    periodic_cleanup Default.data_dir Default.cleanup_delay
                     Default.max_file_age Default.lapsed
    = (Ok (Some st), w')
    /\ task_files w' !! "job-1" = None
    /\ (expired_tasks st + size (task_files w'))%nat = 1%nat.
Proof.
  destruct (sweep_expires_exactly_old_records
              Default.data_dir Default.cleanup_delay Default.max_file_age
              Default.lapsed)
    as (st & w' & Hrun & Hiff & Hcount); [compute_done|].
  exists st, w'. split; [exact Hrun|].
  assert (Hjob : task_files Default.lapsed !! "job-1"
                 = Some (TaskInfo "/code/data/audio.mp3"
                                  "/code/data/1050_video_fedcba98.mp4"
                                  1100 None None)) by compute_done.
  assert (Hsize : size (task_files Default.lapsed) = 1%nat) by compute_done.
  split.
  - destruct (task_files w' !! "job-1") as [i|] eqn:Hi; [|reflexivity].
    apply Hiff in Hi as [Hi Hyoung]. exfalso.
    rewrite Hjob in Hi. injection Hi as <-.
    revert Hyoung. compute_done.
  - rewrite Hcount. exact Hsize.
Defined.

(** X13 at work: the storage directory has vanished; the pass only logs
    the error, and the record of job-1, 98900 seconds old, stays. *)
Lemma sweep_without_storage_dir_witness :
  fst (periodic_cleanup Default.data_dir Default.cleanup_delay
                        Default.max_file_age Default.uprooted)
  = Ok None
  /\ is_Some (task_files
                (snd (periodic_cleanup Default.data_dir Default.cleanup_delay
                                       Default.max_file_age Default.uprooted))
              !! "job-1").
Proof.
  destruct (sweep_without_storage_dir
              Default.data_dir Default.cleanup_delay Default.max_file_age
              Default.uprooted)
    as (e & w' & Hrun & _ & _ & Htab & _); [compute_done|].
  rewrite Hrun. split; [reflexivity|].
  cbn [snd]. rewrite Htab. compute_done.
Defined.

(** X14 at work: the audio of job-1, rewritten at time 1200, is spared by
    the pass at time 8350 that drops the record, and removed by the pass
    five minutes later. *)
Lemma expired_job_files_gone_after_two_passes_witness :
  let w1 := snd (periodic_cleanup Default.data_dir Default.cleanup_delay
                                  Default.max_file_age Default.lapsed) in
  let w2 := snd (periodic_cleanup Default.data_dir Default.cleanup_delay
                                  Default.max_file_age
                                  (set_now (now w1 + 300) w1)) in
  nodes w1 !! "/code/data/audio.mp3" = Some (File 1200 [x45])
  /\ nodes w2 !! "/code/data/audio.mp3" = None.
Proof.
  split; [compute_done|].
  apply (expired_job_files_gone_after_two_passes
           Default.data_dir Default.cleanup_delay Default.max_file_age
           Default.lapsed "/code/data/audio.mp3" 1200 [x45] 300);
    try compute_done.
  intros c i Hc Href.
  assert (Htab : task_files Default.lapsed
                 = <["job-1" := TaskInfo "/code/data/audio.mp3"
                       "/code/data/1050_video_fedcba98.mp4"
                       1100 None None]> ∅) by compute_done.
  rewrite Htab in Hc.
  destruct (decide (c = "job-1")) as [->|Hne].
  - rewrite lookup_insert_eq in Hc. injection Hc as <-. compute_done.
  - rewrite lookup_insert_ne, lookup_empty in Hc by done. discriminate Hc.
Defined.

(** X15 at work: at time 8260 the audio of job-1 is 7210 seconds old and
    is removed, while the record, 7160 seconds old, stays. *)
Lemma stale_active_file_swept_witness :
  exists st w',
    periodic_cleanup Default.data_dir Default.cleanup_delay
                     Default.max_file_age Default.aged
    = (Ok (Some st), w')
    /\ nodes w' !! "/code/data/audio.mp3" = None
    /\ is_Some (task_files w' !! "job-1").
Proof.
  destruct (stale_active_file_swept
              Default.data_dir Default.cleanup_delay Default.max_file_age
              Default.aged "/code/data/audio.mp3" 1050 [x41; x42])
    as (st & w' & Hrun & Hgone & _ & Hkept); [compute_done..|].
  exists st, w'. split; [exact Hrun|]. split; [exact Hgone|].
  rewrite (Hkept "job-1"
             (TaskInfo "/code/data/audio.mp3"
                       "/code/data/1050_video_fedcba98.mp4" 1100 None None))
    by compute_done.
  by eexists.
Defined.

(** X16 at work: the state after the first submission is reachable, and
    a fetch for job-1 would list the result and both inputs. *)
Lemma recorded_paths_are_never_empty_witness :
  files_to_cleanup_of Default.data_dir "out.mp4"
    (Some ("job-1",
           TaskInfo "/code/data/audio.mp3"
                    "/code/data/1050_video_fedcba98.mp4" 1100 None None))
  = ["/code/data/temp/out.mp4"; "/code/data/audio.mp3";
     "/code/data/1050_video_fedcba98.mp4"].
Proof.
  destruct (recorded_paths_are_never_empty
              Default.data_dir Default.cleanup_delay Default.max_file_age
              Url.path (snd Default.submit1) "job-1"
              (TaskInfo "/code/data/audio.mp3"
                        "/code/data/1050_video_fedcba98.mp4" 1100 None None))
    as (_ & _ & _ & Hfiles).
  - apply (reachable_step Default.data_dir Default.cleanup_delay
             Default.max_file_age Url.path Default.started).
    + apply reachable_init.
    + apply step_submit.
  - compute_done.
  - rewrite Hfiles. reflexivity.
Defined.

(** X17 at work: in the state after the first submission the record of
    job-1 has a creation time in the past. *)
Lemma record_times_are_ordered_witness :
  0 <= now (snd Default.submit1) - 1100.
Proof.
  destruct (record_times_are_ordered
              Default.data_dir Default.cleanup_delay Default.max_file_age
              Url.path (snd Default.submit1) "job-1"
              (TaskInfo "/code/data/audio.mp3"
                        "/code/data/1050_video_fedcba98.mp4" 1100 None None))
    as (Hage & _).
  - apply (reachable_step Default.data_dir Default.cleanup_delay
             Default.max_file_age Url.path Default.started).
    + apply reachable_init.
    + apply step_submit.
  - compute_done.
  - exact Hage.
Defined.

(** X18 at work: a second download of the audio URL of job-1 cannot
    connect; the audio file of job-1 is removed all the same. *)
Lemma unanswered_download_removes_existing_file_witness :
  fst Default.clobbered = Raise (HTTPException 400 RequestException)
  /\ nodes (snd Default.clobbered) !! "/code/data/audio.mp3" = None.
Proof.
  destruct (unanswered_download_removes_existing_file
              Default.data_dir Url.path "http://host/media/audio.mp3" "audio"
              "0123456789abcdef" Default.refused_fetch (snd Default.submit1)
              1050 [x41; x42])
    as (w' & Hrun & Hgone); [by left|compute_done..|].
  unfold Default.clobbered. rewrite Hrun. split; [reflexivity|exact Hgone].
Defined.

(** X19 at work: the audio URL of job-1 is stored under its own name. *)
Lemma named_download_lands_in_storage_dir_witness :
  local_path_of Default.data_dir Url.path "http://host/media/audio.mp3"
                "audio" "0123456789abcdef" 1000
  = "/code/data/audio.mp3"
  /\ Path.is_child Default.data_dir "/code/data/audio.mp3" = true.
Proof.
  destruct (named_download_lands_in_storage_dir
              Default.data_dir Url.path "http://host/media/audio.mp3"
              "audio" "0123456789abcdef" 1000)
    as (Hpath & Hchild); [compute_done..|].
  rewrite Hpath in Hchild. split; [|exact Hchild].
  rewrite Hpath. reflexivity.
Defined.
